(** * Phoenix-RTOS corelibs: VGA timing synthesis and the Cirrus GD5446 driver

    A shallow embedding of [libvga] (register image synthesis, save and
    restore), of the generic VGA adapter [vgadev] and of the Cirrus Logic
    GD5446 adapter [cirrus] (clock synthesis, mode table, mode setting,
    hardware cursor), followed by the properties of the design document
    that concern them.

    C [unsigned int] is a 32-bit word and [unsigned char] an 8-bit one;
    both are carried by [Z], the wrap-around being written where the C
    code has it.  Device accesses go through a small state monad over an
    abstract adapter, every access leaving an event in a log. *)

From Stdlib Require Import ZArith List Bool Lia Sorting.Sorted.
Import ListNotations.
Local Open Scope Z_scope.

(* ================================================================= *)
(** ** Machine integers *)

Definition u8 (x : Z) : Z := x mod 256.
Definition u32 (x : Z) : Z := x mod 4294967296.

(** The cast [(int)x] of a 32-bit word (two's complement). *)
Definition to_int (x : Z) : Z :=
  let y := u32 x in if y <? 2147483648 then y else y - 4294967296.

(** [abs] of <stdlib.h> on [int]. *)
Definition c_abs (x : Z) : Z := to_int (Z.abs x).

(** [abs((int)a - (int)b)] read back as an [unsigned int], which is what
    the comparisons of the clock search do with it. *)
Definition absdiff (a b : Z) : Z := u32 (c_abs (to_int (to_int a - to_int b))).

Definition testflag (x mask : Z) : bool := negb (Z.land x mask =? 0).

(** C arrays of registers: a fixed-size array is read and written by
    index only. *)
Definition array := nat -> Z.
Definition aset (a : array) (i : nat) (v : Z) : array :=
  fun j => if Nat.eqb j i then u8 v else a j.
Definition azero : array := fun _ => 0.

(** [memcpy(dst + at_, src, n)] between two such arrays. *)
Definition acopy (dst : array) (at_ : nat) (src : array) (n : nat) : array :=
  fun j => if (Nat.leb at_ j && Nat.ltb j (at_ + n))%bool then u8 (src (j - at_)%nat)
           else dst j.

(** [lo, lo+1, ..., lo+len-1], the range of a counting [for] loop. *)
Definition Zseq (lo : Z) (len : nat) : list Z :=
  map (fun k => lo + Z.of_nat k) (seq 0 len).

(* ================================================================= *)
(** ** Return codes (<errno.h>) *)

Inductive errno := EINVAL | ENOTSUP | EFAULT | ENOSPC.

(** [EOK], or [-e] for an error [e]. *)
Inductive retcode := EOK | Err (e : errno).

Definition is_err (r : retcode) : bool :=
  match r with EOK => false | Err _ => true end.

(* ================================================================= *)
(** ** libvga.h *)

Definition VGA_MEMSZ : Z := 0x10000.
Definition VGA_CMAPSZ : Z := 768.
Definition VGA_TEXTSZ : Z := Z.shiftr VGA_MEMSZ 1.
Definition VGA_FONTSZ : Z := VGA_MEMSZ.

Definition VGA_HSYNCP : Z := 1.
Definition VGA_VSYNCP : Z := 2.
Definition VGA_CLKDIV : Z := 4.
Definition VGA_DBLSCAN : Z := 8.
Definition VGA_INTERLACE : Z := 16.

Record vga_mode_t := mk_vga_mode {
  clk : Z;
  hres : Z; hsyncs : Z; hsynce : Z; htotal : Z; hskew : Z;
  vres : Z; vsyncs : Z; vsynce : Z; vtotal : Z; vscan : Z;
  flags : Z
}.

(** The register image.  The four buffers are pointers in C: [None] is
    the null pointer. *)
Record vga_state_t := mk_vga_state {
  misc : Z;
  crtc : array;      (* 25 registers *)
  seq_ : array;      (* 5 registers *)
  gfx : array;       (* 9 registers *)
  attr : array;      (* 21 registers *)
  cmap : option array;    (* VGA_CMAPSZ bytes *)
  text : option array;    (* VGA_TEXTSZ bytes *)
  font1 : option array;   (* VGA_FONTSZ bytes *)
  font2 : option array    (* VGA_FONTSZ bytes *)
}.

Definition set_misc (st : vga_state_t) (v : Z) : vga_state_t :=
  mk_vga_state (u8 v) (crtc st) (seq_ st) (gfx st) (attr st)
               (cmap st) (text st) (font1 st) (font2 st).
Definition set_crtc (st : vga_state_t) (i : nat) (v : Z) : vga_state_t :=
  mk_vga_state (misc st) (aset (crtc st) i v) (seq_ st) (gfx st) (attr st)
               (cmap st) (text st) (font1 st) (font2 st).
Definition set_seq (st : vga_state_t) (i : nat) (v : Z) : vga_state_t :=
  mk_vga_state (misc st) (crtc st) (aset (seq_ st) i v) (gfx st) (attr st)
               (cmap st) (text st) (font1 st) (font2 st).
Definition set_gfx (st : vga_state_t) (i : nat) (v : Z) : vga_state_t :=
  mk_vga_state (misc st) (crtc st) (seq_ st) (aset (gfx st) i v) (attr st)
               (cmap st) (text st) (font1 st) (font2 st).
Definition set_attr (st : vga_state_t) (i : nat) (v : Z) : vga_state_t :=
  mk_vga_state (misc st) (crtc st) (seq_ st) (gfx st) (aset (attr st) i v)
               (cmap st) (text st) (font1 st) (font2 st).
Definition set_buffers (st : vga_state_t) (c t f1 f2 : option array) : vga_state_t :=
  mk_vga_state (misc st) (crtc st) (seq_ st) (gfx st) (attr st) c t f1 f2.

(* ================================================================= *)
(** ** Timing synthesis: [vga_mode] *)

Module Timing.

Definition quad : Type := Z * Z * Z * Z.

Definition quad_map (f : Z -> Z) (q : quad) : quad :=
  let '(a, b, c, d) := q in (f a, f b, f c, f d).

(** The locals [vres], [vsyncs], [vsynce] and [vtotal] of [vga_mode],
    after the three conditional blocks that rescale them. *)
Definition vertical (mode : vga_mode_t) : quad :=
  let v := (vres mode, vsyncs mode, vsynce mode, vtotal mode) in
  let v := if testflag (flags mode) VGA_DBLSCAN
           then quad_map (fun x => u32 (Z.shiftl x 1)) v else v in
  let v := if testflag (flags mode) VGA_INTERLACE
           then quad_map (fun x => Z.shiftr x 1) v else v in
  let v := if 1 <? vscan mode
           then quad_map (fun x => u32 (x * vscan mode)) v else v in
  v.

(** [blanks = min(syncs, res); blanke = max(synce, total);
     if (blanks + span < blanke) blanks = blanke - span;] *)
Definition blank (span syncs res synce total : Z) : Z * Z :=
  let blanks := Z.min syncs res in
  let blanke := Z.max synce total in
  if u32 (blanks + span) <? blanke then (u32 (blanke - span), blanke)
  else (blanks, blanke).

(** The locals [hblanks] and [hblanke]. *)
Definition hblank (mode : vga_mode_t) : Z * Z :=
  blank 0x1f8 (hsyncs mode) (hres mode) (hsynce mode) (htotal mode).

(** The locals [vblanks] and [vblanke]. *)
Definition vblank (mode : vga_mode_t) : Z * Z :=
  let '(v_res, v_syncs, v_synce, v_total) := vertical mode in
  blank 0x7f v_syncs v_res v_synce v_total.

End Timing.

(** [vga_mode] fills the register image block by block; each block of
    the source is a function here, named after the comment that heads it. *)

(** Miscellaneous register *)
Definition mode_misc (clkidx : Z) (mode : vga_mode_t) (state : vga_state_t) : vga_state_t :=
  let state := set_misc state (Z.lor 0x23 (Z.shiftl (Z.land clkidx 0x03) 2)) in
  let state := if testflag (flags mode) VGA_HSYNCP then state
               else set_misc state (Z.lor (misc state) 0x40) in
  let state := if testflag (flags mode) VGA_VSYNCP then state
               else set_misc state (Z.lor (misc state) 0x80) in
  state.

(** Sequencer registers *)
Definition mode_seq (mode : vga_mode_t) (state : vga_state_t) : vga_state_t :=
  let state := set_seq state 0 0x00 in
  let state := set_seq state 1 (if testflag (flags mode) VGA_CLKDIV then 0x09 else 0x01) in
  let state := set_seq state 2 0x0f in
  let state := set_seq state 3 0x00 in
  set_seq state 4 0x0e.

(** CRT controller registers *)
Definition mode_crtc (mode : vga_mode_t) (v : Timing.quad) (hb vb : Z * Z)
    (state : vga_state_t) : vga_state_t :=
  let '(v_res, v_syncs, v_synce, v_total) := v in
  let '(hblanks, hblanke) := hb in
  let '(vblanks, vblanke) := vb in
  let state := set_crtc state 0 (u32 (Z.shiftr (htotal mode) 3 - 5)) in
  let state := set_crtc state 1 (u32 (Z.shiftr (hres mode) 3 - 1)) in
  let state := set_crtc state 2 (u32 (Z.shiftr hblanks 3 - 1)) in
  let state := set_crtc state 3
    (Z.lor (Z.land (u32 (Z.shiftr hblanke 3 - 1)) 0x1f) 0x80) in
  let i := Z.land (u32 (u32 (Z.shiftl (hskew mode) 2) + 0x10)) (Z.lnot 0x1f) in
  let state := if i <? 0x80 then set_crtc state 3 (Z.lor (crtc state 3%nat) i)
               else state in
  let state := set_crtc state 4 (u32 (Z.shiftr (hsyncs mode) 3 - 1)) in
  let state := set_crtc state 5
    (Z.lor (u32 (Z.shiftl (Z.land (u32 (Z.shiftr hblanke 3 - 1)) 0x20) 2))
           (Z.land (u32 (Z.shiftr (hsynce mode) 3 - 1)) 0x1f)) in
  let state := set_crtc state 6 (Z.land (u32 (v_total - 2)) 0xff) in
  let state := set_crtc state 7
    (Z.lor (Z.lor (Z.lor
       (Z.shiftr (Z.land (u32 (v_total - 2)) 0x100) 8)
       (Z.shiftr (Z.land (u32 (v_res - 1)) 0x100) 7))
       (Z.shiftr (Z.land (u32 (v_syncs - 1)) 0x100) 6))
       (Z.shiftr (Z.land (u32 (vblanks - 1)) 0x100) 5)) in
  let state := set_crtc state 7
    (Z.lor (crtc state 7%nat)
      (Z.lor (Z.lor (Z.lor
         (Z.shiftr (Z.land (u32 (v_total - 2)) 0x200) 4)
         (Z.shiftr (Z.land (u32 (v_res - 1)) 0x200) 3))
         (Z.shiftr (Z.land (u32 (v_syncs - 1)) 0x200) 2))
         0x10)) in
  let state := set_crtc state 8 0x00 in
  let state := set_crtc state 9
    (Z.lor (Z.shiftr (Z.land (u32 (vblanks - 1)) 0x200) 4) 0x40) in
  let state := if testflag (flags mode) VGA_DBLSCAN
               then set_crtc state 9 (Z.lor (crtc state 9%nat) 0x80) else state in
  let state := if 32 <=? vscan mode
               then set_crtc state 9 (Z.lor (crtc state 9%nat) 0x1f)
               else if 1 <? vscan mode
               then set_crtc state 9 (Z.lor (crtc state 9%nat) (u32 (vscan mode - 1)))
               else state in
  let state := set_crtc state 10 0x00 in
  let state := set_crtc state 11 0x00 in
  let state := set_crtc state 12 0x00 in
  let state := set_crtc state 13 0x00 in
  let state := set_crtc state 14 0x00 in
  let state := set_crtc state 15 0x00 in
  let state := set_crtc state 16 (Z.land (u32 (v_syncs - 1)) 0xff) in
  let state := set_crtc state 17 (Z.lor (Z.land (u32 (v_synce - 1)) 0x0f) 0x20) in
  let state := set_crtc state 18 (Z.land (u32 (v_res - 1)) 0xff) in
  let state := set_crtc state 19
    (Z.shiftr (Z.land (u32 (hres mode + 0x0f)) (Z.lnot 0x0f)) 3) in
  let state := set_crtc state 20 0x00 in
  let state := set_crtc state 21 (Z.land (u32 (vblanks - 1)) 0xff) in
  let state := set_crtc state 22 (Z.land (u32 (vblanke - 1)) 0xff) in
  let state := set_crtc state 23 0xc3 in
  set_crtc state 24 0xff.

(** Fix horizontal KGA blanking *)
Definition fix_hblank (mode : vga_mode_t) (hb : Z * Z) (state : vga_state_t) : vga_state_t :=
  let '(hblanks, hblanke) := hb in
  if Z.shiftr hblanke 3 =? Z.shiftr (htotal mode) 3 then
    let i := Z.lor (Z.land (crtc state 3%nat) 0x1f)
                   (Z.shiftr (Z.land (crtc state 5%nat) 0x80) 2) in
    let i := if (Z.land (u32 (Z.shiftr hblanks 3 - 1)) 0x3f <? i)
                && (hblanke =? htotal mode)
             then 0 else u32 (i - 1) in
    let state := set_crtc state 3
      (Z.lor (Z.land (crtc state 3%nat) (Z.lnot 0x1f)) (Z.land i 0x1f)) in
    set_crtc state 5
      (Z.lor (Z.land (crtc state 5%nat) (Z.lnot 0x80))
             (Z.land (u32 (Z.shiftl i 2)) 0x80))
  else state.

(** Fix vertical KGA blanking *)
Definition fix_vblank (mode : vga_mode_t) (vb : Z * Z) (state : vga_state_t) : vga_state_t :=
  let '(vblanks, vblanke) := vb in
  if vblanke =? vtotal mode then
    let i := crtc state 22%nat in
    let i := if (Z.land (crtc state 9%nat) 0x9f =? 0) && (crtc state 21%nat <? i)
             then if Z.land (crtc state 21%nat) 0x7f <? Z.land i 0x7f
                  then 0 else u32 (i - 1)
             else i in
    set_crtc state 22 (Z.land i 0xff)
  else state.

(** Graphics controller registers *)
Definition mode_gfx (state : vga_state_t) : vga_state_t :=
  let state := set_gfx state 0 0x00 in
  let state := set_gfx state 1 0x00 in
  let state := set_gfx state 2 0x00 in
  let state := set_gfx state 3 0x00 in
  let state := set_gfx state 4 0x00 in
  let state := set_gfx state 5 0x40 in
  let state := set_gfx state 6 0x05 in
  let state := set_gfx state 7 0x0f in
  set_gfx state 8 0xff.

(** Attributes controller registers *)
Definition mode_attr (state : vga_state_t) : vga_state_t :=
  let state := set_attr state 0 0x00 in
  let state := set_attr state 1 0x01 in
  let state := set_attr state 2 0x02 in
  let state := set_attr state 3 0x03 in
  let state := set_attr state 4 0x04 in
  let state := set_attr state 5 0x05 in
  let state := set_attr state 6 0x06 in
  let state := set_attr state 7 0x07 in
  let state := set_attr state 8 0x08 in
  let state := set_attr state 9 0x09 in
  let state := set_attr state 10 0x0a in
  let state := set_attr state 11 0x0b in
  let state := set_attr state 12 0x0c in
  let state := set_attr state 13 0x0d in
  let state := set_attr state 14 0x0e in
  let state := set_attr state 15 0x0f in
  let state := set_attr state 16 0x41 in
  let state := set_attr state 17 0xff in
  let state := set_attr state 18 0x0f in
  let state := set_attr state 19 0x00 in
  set_attr state 20 0x00.

Definition vga_mode (clkidx : Z) (mode : vga_mode_t) (state : vga_state_t) : vga_state_t :=
  let state := mode_misc clkidx mode state in
  let state := mode_seq mode state in
  let v := Timing.vertical mode in
  let hb := Timing.hblank mode in
  let vb := Timing.vblank mode in
  let state := mode_crtc mode v hb vb state in
  let state := fix_hblank mode hb state in
  let state := fix_vblank mode vb state in
  let state := mode_gfx state in
  mode_attr state.

(* ================================================================= *)
(** ** Register access

    The low level interface of libvga.h ([vga_readseq], [vga_writeseq],
    ...) is declared [extern]: the adapter behind it is left abstract.
    It answers reads from its current condition and moves to a new
    condition at every access. *)

Inductive port := MISC | CRTC | SEQ | GFX | ATTR | DAC.

Inductive event :=
| EvRead (p : port) (reg : Z)
| EvWrite (p : port) (reg val : Z)
| EvStatus
| EvEnableCmap
| EvDisableCmap
| EvMemRead (n : Z)                  (* memcpy(buffer, vga->mem, n) *)
| EvMemWrite (src : array) (n : Z)   (* memcpy(vga->mem, buffer, n) *)
| EvMemSet (n : Z).                  (* memset(vga->mem, 0, n) *)

Class Adapter := {
  hw : Type;
  hw_in : hw -> port -> Z -> Z;      (* the byte a register read returns *)
  hw_status : hw -> Z;               (* the input status register *)
  hw_mem : hw -> nat -> Z;           (* the bytes seen through vga->mem *)
  hw_next : hw -> event -> hw        (* the adapter after an access *)
}.

(** What a driver call can change: the adapter, the log of accesses
    (oldest first) and the linear frame buffer of the Cirrus adapter
    ([cdev->vmem], by byte offset). *)
Record world `{Adapter} := mk_world {
  w_hw : hw;
  w_log : list event;
  w_vmem : Z -> Z
}.
Arguments mk_world {_} _ _ _.

Definition M `{Adapter} (A : Type) : Type := world -> A * world.

Definition ret `{Adapter} {A} (a : A) : M A := fun w => (a, w).
Definition bind `{Adapter} {A B} (c : M A) (k : A -> M B) : M B :=
  fun w => let (a, w') := c w in k a w'.

Notation "x <- c ;; k" := (bind c (fun x => k))
  (at level 61, c at next level, right associativity).
Notation "c ;; k" := (bind c (fun _ => k))
  (at level 61, right associativity).
Notation "' pat <- c ;; k" := (bind c (fun pat => k))
  (at level 61, pat pattern, c at next level, right associativity).

Definition access `{Adapter} (e : event) : M unit :=
  fun w => (tt, mk_world (hw_next (w_hw w) e) (w_log w ++ [e]) (w_vmem w)).

Definition input `{Adapter} (p : port) (reg : Z) : M Z :=
  fun w => (u8 (hw_in (w_hw w) p reg),
            mk_world (hw_next (w_hw w) (EvRead p reg)) (w_log w ++ [EvRead p reg]) (w_vmem w)).

(** [for (...) body] over the values of the loop counter. *)
Fixpoint for_ `{Adapter} {T} (l : list T) (body : T -> M unit) : M unit :=
  match l with
  | [] => ret tt
  | x :: r => body x ;; for_ r body
  end.

(** The same with the variables the body updates. *)
Fixpoint for_fold `{Adapter} {T S} (l : list T) (body : T -> S -> M S) (s : S) : M S :=
  match l with
  | [] => ret s
  | x :: r => s' <- body x s ;; for_fold r body s'
  end.

(** *** Low level interface *)

Definition vga_status `{Adapter} : M Z :=
  fun w => (u8 (hw_status (w_hw w)),
            mk_world (hw_next (w_hw w) EvStatus) (w_log w ++ [EvStatus]) (w_vmem w)).
Definition vga_readmisc `{Adapter} : M Z := input MISC 0.
Definition vga_writemisc `{Adapter} (val : Z) : M unit := access (EvWrite MISC 0 (u8 val)).
Definition vga_readcrtc `{Adapter} (reg : Z) : M Z := input CRTC (u8 reg).
Definition vga_writecrtc `{Adapter} (reg val : Z) : M unit := access (EvWrite CRTC (u8 reg) (u8 val)).
Definition vga_readseq `{Adapter} (reg : Z) : M Z := input SEQ (u8 reg).
Definition vga_writeseq `{Adapter} (reg val : Z) : M unit := access (EvWrite SEQ (u8 reg) (u8 val)).
Definition vga_readgfx `{Adapter} (reg : Z) : M Z := input GFX (u8 reg).
Definition vga_writegfx `{Adapter} (reg val : Z) : M unit := access (EvWrite GFX (u8 reg) (u8 val)).
Definition vga_readattr `{Adapter} (reg : Z) : M Z := input ATTR (u8 reg).
Definition vga_writeattr `{Adapter} (reg val : Z) : M unit := access (EvWrite ATTR (u8 reg) (u8 val)).
Definition vga_readdac `{Adapter} (reg : Z) : M Z := input DAC (u8 reg).
Definition vga_writedac `{Adapter} (reg val : Z) : M unit := access (EvWrite DAC (u8 reg) (u8 val)).
Definition vga_disablecmap `{Adapter} : M unit := access EvDisableCmap.
Definition vga_enablecmap `{Adapter} : M unit := access EvEnableCmap.

(** [memcpy(buffer, vga->mem, n)]: the bytes read. *)
Definition mem_read `{Adapter} (n : Z) : M array :=
  fun w => (hw_mem (w_hw w),
            mk_world (hw_next (w_hw w) (EvMemRead n)) (w_log w ++ [EvMemRead n]) (w_vmem w)).
Definition mem_write `{Adapter} (src : array) (n : Z) : M unit := access (EvMemWrite src n).

(** *** High level interface *)

Definition vga_lock `{Adapter} : M unit :=
  v <- vga_readcrtc 0x11 ;; vga_writecrtc 0x11 (Z.lor v 0x80).

Definition vga_unlock `{Adapter} : M unit :=
  v <- vga_readcrtc 0x11 ;; vga_writecrtc 0x11 (Z.land v (Z.lnot 0x80)).

Definition vga_mlock `{Adapter} : M unit :=
  v <- vga_readseq 0x01 ;;
  vga_writeseq 0x01 (Z.lor v 0x20) ;;
  vga_writeseq 0x00 0x01 ;;
  vga_enablecmap.

Definition vga_munlock `{Adapter} : M unit :=
  vga_writeseq 0x00 0x03 ;;
  v <- vga_readseq 0x01 ;;
  vga_writeseq 0x01 (Z.land v (Z.lnot 0x20)) ;;
  vga_disablecmap.

Definition vga_blank `{Adapter} : M unit :=
  sr01 <- vga_readseq 0x01 ;;
  vga_writeseq 0x00 0x01 ;;
  vga_writeseq 0x01 (Z.lor sr01 0x20) ;;
  vga_writeseq 0x00 0x03.

Definition vga_unblank `{Adapter} : M unit :=
  sr01 <- vga_readseq 0x01 ;;
  vga_writeseq 0x00 0x01 ;;
  vga_writeseq 0x01 (Z.land sr01 (Z.lnot 0x20)) ;;
  vga_writeseq 0x00 0x03.

Definition vga_savemode `{Adapter} (state : vga_state_t) : M vga_state_t :=
  v <- vga_readmisc ;;
  let state := set_misc state v in
  state <- for_fold (seq 0 25) (fun i state =>
             v <- vga_readcrtc (Z.of_nat i) ;; ret (set_crtc state i v)) state ;;
  state <- for_fold (seq 1 4) (fun i state =>
             v <- vga_readseq (Z.of_nat i) ;; ret (set_seq state i v)) state ;;
  state <- for_fold (seq 0 9) (fun i state =>
             v <- vga_readgfx (Z.of_nat i) ;; ret (set_gfx state i v)) state ;;
  vga_enablecmap ;;
  state <- for_fold (seq 0 21) (fun i state =>
             v <- vga_readattr (Z.of_nat i) ;; ret (set_attr state i v)) state ;;
  vga_disablecmap ;;
  ret state.

Definition vga_restoremode `{Adapter} (state : vga_state_t) : M unit :=
  vga_writemisc (misc state) ;;
  (* Unlock restored CRTC[0-7] registers *)
  vga_writecrtc 0x11 (Z.land (crtc state 0x11%nat) (Z.lnot 0x80)) ;;
  for_ (seq 0 25) (fun i => vga_writecrtc (Z.of_nat i) (crtc state i)) ;;
  for_ (seq 1 4) (fun i => vga_writeseq (Z.of_nat i) (seq_ state i)) ;;
  for_ (seq 0 9) (fun i => vga_writegfx (Z.of_nat i) (gfx state i)) ;;
  vga_enablecmap ;;
  for_ (seq 0 21) (fun i => vga_writeattr (Z.of_nat i) (attr state i)) ;;
  vga_disablecmap.

Definition vga_savecmap `{Adapter} (state : vga_state_t) : M vga_state_t :=
  match cmap state with
  | None => ret state
  | Some buf =>
    (* Assume DAC is readable *)
    vga_writedac 0x00 0xff ;;
    vga_writedac 0x01 0x00 ;;
    buf <- for_fold (seq 0 (Z.to_nat VGA_CMAPSZ)) (fun i buf =>
             v <- vga_readdac 0x03 ;;
             (* DAC delay *)
             vga_status ;;
             vga_status ;;
             ret (aset buf i v)) buf ;;
    vga_disablecmap ;;
    ret (set_buffers state (Some buf) (text state) (font1 state) (font2 state))
  end.

Definition vga_restorecmap `{Adapter} (state : vga_state_t) : M unit :=
  match cmap state with
  | None => ret tt
  | Some buf =>
    (* Assume DAC is writable *)
    vga_writedac 0x00 0xff ;;
    vga_writedac 0x02 0x00 ;;
    for_ (seq 0 (Z.to_nat VGA_CMAPSZ)) (fun i =>
      vga_writedac 0x03 (buf i) ;;
      (* DAC delay *)
      vga_status ;;
      vga_status ;;
      ret tt) ;;
    vga_disablecmap
  end.

(** One plane of [vga_copytext]: select it, then copy [n] bytes between
    [vga->mem] and the buffer at offset [at_] ([dir]: to the adapter). *)
Definition copy_plane `{Adapter} (dir : bool) (sr02 gr04 : Z) (buf : array) (at_ : nat) (n : Z)
  : M array :=
  vga_writeseq 0x02 sr02 ;;
  vga_writegfx 0x04 gr04 ;;
  if dir then mem_write (fun j => buf (at_ + j)%nat) n ;; ret buf
  else m <- mem_read n ;; ret (acopy buf at_ m (Z.to_nat n)).

(** Copies VGA fonts and text *)
Definition vga_copytext `{Adapter} (state : vga_state_t) (dir : bool) : M vga_state_t :=
  (* Save registers *)
  misc_ <- vga_readmisc ;;
  gr01 <- vga_readgfx 0x01 ;;
  gr03 <- vga_readgfx 0x03 ;;
  gr04 <- vga_readgfx 0x04 ;;
  gr05 <- vga_readgfx 0x05 ;;
  gr06 <- vga_readgfx 0x06 ;;
  gr08 <- vga_readgfx 0x08 ;;
  sr02 <- vga_readseq 0x02 ;;
  sr04 <- vga_readseq 0x04 ;;
  (* Force into color mode *)
  vga_writemisc (Z.lor misc_ 0x01) ;;
  vga_blank ;;
  vga_writeseq 0x04 0x06 ;;
  vga_writegfx 0x01 0x00 ;;
  vga_writegfx 0x03 0x00 ;;
  vga_writegfx 0x05 0x00 ;;
  vga_writegfx 0x06 0x05 ;;
  vga_writegfx 0x08 0xff ;;
  f1 <- match font1 state with
        | None => ret None
        | Some buf => (* Read/Write plane 2 *)
          b <- copy_plane dir 0x04 0x02 buf 0 VGA_FONTSZ ;; ret (Some b)
        end ;;
  f2 <- match font2 state with
        | None => ret None
        | Some buf => (* Read/Write plane 3 *)
          b <- copy_plane dir 0x08 0x03 buf 0 VGA_FONTSZ ;; ret (Some b)
        end ;;
  t <- match text state with
       | None => ret None
       | Some buf =>
         (* Read/Write plane 0 *)
         b <- copy_plane dir 0x01 0x00 buf 0 (Z.shiftr VGA_TEXTSZ 1) ;;
         (* Read/Write plane 1 *)
         b <- copy_plane dir 0x02 0x01 b (Z.to_nat (Z.shiftr VGA_TEXTSZ 1))
                         (Z.shiftr VGA_TEXTSZ 1) ;;
         ret (Some b)
       end ;;
  (* Restore registers *)
  vga_writeseq 0x04 sr04 ;;
  vga_writeseq 0x02 sr02 ;;
  vga_writegfx 0x08 gr08 ;;
  vga_writegfx 0x06 gr06 ;;
  vga_writegfx 0x05 gr05 ;;
  vga_writegfx 0x04 gr04 ;;
  vga_writegfx 0x03 gr03 ;;
  vga_writegfx 0x01 gr01 ;;
  (* Restore mode *)
  vga_writemisc misc_ ;;
  vga_unblank ;;
  ret (set_buffers state (cmap state) t f1 f2).

Definition vga_savetext `{Adapter} (state : vga_state_t) : M vga_state_t :=
  (* No fonts and text in graphics mode *)
  v <- vga_readattr 0x10 ;;
  if testflag v 0x01 then ret state
  else vga_copytext state false.

Definition vga_restoretext `{Adapter} (state : vga_state_t) : M unit :=
  vga_copytext state true ;; ret tt.

Definition vga_save `{Adapter} (state : vga_state_t) : M vga_state_t :=
  state <- vga_savetext state ;;
  state <- vga_savecmap state ;;
  vga_savemode state.

Definition vga_restore `{Adapter} (state : vga_state_t) : M unit :=
  vga_restoremode state ;;
  vga_restorecmap state ;;
  vga_restoretext state.

(* ================================================================= *)
(** ** libgraph.h *)

(** Modelled from the spec: libgraph.h, which declares [graph_mode_t],
    [graph_freq_t] and [graph_t], is not among the sources.  The
    enumerators are the ones the mode tables name; the default tags
    [GRAPH_DEFMODE] and [GRAPH_DEFFREQ] are the zero tags, [GRAPH_DEFMODE]
    being the tag of the sentinel entry that closes a mode table
    ("a sentinel entry (depth 0, mode tag 0)"). *)
Inductive graph_mode_t :=
| GRAPH_DEFMODE
| GRAPH_ON | GRAPH_OFF | GRAPH_STANDBY | GRAPH_SUSPEND
| GRAPH_320x200x8 | GRAPH_640x400x8 | GRAPH_640x480x8 | GRAPH_800x600x8
| GRAPH_1024x768x8 | GRAPH_1152x864x8 | GRAPH_1280x1024x8
| GRAPH_640x480x16 | GRAPH_800x600x16 | GRAPH_1024x768x16
| GRAPH_640x480x24 | GRAPH_800x600x24 | GRAPH_1024x768x24
| GRAPH_640x480x32 | GRAPH_800x600x32 | GRAPH_1024x768x32.

Inductive graph_freq_t :=
| GRAPH_DEFFREQ
| GRAPH_43Hzi | GRAPH_56Hz | GRAPH_60Hz | GRAPH_70Hz | GRAPH_72Hz
| GRAPH_75Hz | GRAPH_85Hz.

Scheme Equality for graph_mode_t.
Scheme Equality for graph_freq_t.

(** The part of [graph_t] the adapters report. *)
Record graph_t := mk_graph {
  width : Z;
  height : Z;
  depth : Z
}.

(* ================================================================= *)
(** ** cirrus.c: tables *)

Module Cirrus.

(** Default graphics mode index *)
Definition DEFMODE : nat := 31.

(** Stable VCLK range (kHz) *)
Definition MIN_VCLK : Z := 28636.
Definition MAX_VCLK : Z := 111000.

Record cirrus_vclk_t := mk_vclk {
  vc_freq : Z;   (* VCLK frequency (kHz) *)
  vc_num : Z;    (* VCLK numerator *)
  vc_den : Z     (* VCLK denominator *)
}.

(** The union of [cirrus_mode_t]; [cfg] is the index [k] of [cfgs + k]. *)
Inductive mode_union :=
| pwm (sr01 gr0e : Z)
| gfx_ (freq : graph_freq_t) (cfg : nat).

Record cirrus_mode_t := mk_mode {
  cm_mode : graph_mode_t;
  cm_depth : Z;
  cm_u : mode_union
}.

(** Graphics modes configuration table *)
Definition cfgs : list vga_mode_t :=
  [ mk_vga_mode 25175 640 656 752 800 0 400 412 414 449 0 VGA_VSYNCP;
    mk_vga_mode 25175 640 656 752 800 0 480 490 492 525 0 0;
    mk_vga_mode 31500 640 664 704 832 0 480 489 491 520 0 0;
    mk_vga_mode 31500 640 656 720 840 0 480 481 484 500 0 0;
    mk_vga_mode 36000 640 696 752 832 0 480 481 484 509 0 0;
    mk_vga_mode 40000 800 840 968 1056 0 600 601 605 628 0 (Z.lor VGA_HSYNCP VGA_VSYNCP);
    mk_vga_mode 36000 800 824 896 1024 0 600 601 603 625 0 (Z.lor VGA_HSYNCP VGA_VSYNCP);
    mk_vga_mode 50000 800 856 976 1040 0 600 637 643 666 0 (Z.lor VGA_HSYNCP VGA_VSYNCP);
    mk_vga_mode 49500 800 816 896 1056 0 600 601 604 625 0 (Z.lor VGA_HSYNCP VGA_VSYNCP);
    mk_vga_mode 56250 800 832 896 1048 0 600 601 604 631 0 (Z.lor VGA_HSYNCP VGA_VSYNCP);
    mk_vga_mode 65000 1024 1048 1184 1344 0 768 771 777 806 0 0;
    mk_vga_mode 44900 1024 1032 1208 1264 0 768 768 776 817 0
                (Z.lor (Z.lor VGA_HSYNCP VGA_VSYNCP) VGA_INTERLACE);
    mk_vga_mode 75000 1024 1048 1184 1328 0 768 771 777 806 0 0;
    mk_vga_mode 78800 1024 1040 1136 1312 0 768 769 772 800 0 (Z.lor VGA_HSYNCP VGA_VSYNCP);
    mk_vga_mode 94500 1024 1072 1168 1376 0 768 769 772 808 0 (Z.lor VGA_VSYNCP VGA_VSYNCP);
    mk_vga_mode 108000 1152 1216 1344 1600 0 864 865 868 900 0 (Z.lor VGA_HSYNCP VGA_VSYNCP);
    mk_vga_mode 108000 1280 1328 1440 1688 0 1024 1025 1028 1066 0 (Z.lor VGA_HSYNCP VGA_VSYNCP);
    mk_vga_mode 135000 1280 1296 1440 1688 0 1024 1025 1028 1066 0 (Z.lor VGA_HSYNCP VGA_VSYNCP);
    (* No configuration *)
    mk_vga_mode 0 0 0 0 0 0 0 0 0 0 0 0 ].

(** Graphics modes table *)
Definition modes : list cirrus_mode_t :=
  [ (* Power management modes *)
    mk_mode GRAPH_ON 0 (pwm 0x00 0x00);
    mk_mode GRAPH_OFF 0 (pwm 0x20 0x06);
    mk_mode GRAPH_STANDBY 0 (pwm 0x20 0x02);
    mk_mode GRAPH_SUSPEND 0 (pwm 0x20 0x04);
    (* 8-bit color palette *)
    mk_mode GRAPH_640x400x8 1 (gfx_ GRAPH_70Hz 0);
    mk_mode GRAPH_640x480x8 1 (gfx_ GRAPH_60Hz 1);
    mk_mode GRAPH_640x480x8 1 (gfx_ GRAPH_72Hz 2);
    mk_mode GRAPH_640x480x8 1 (gfx_ GRAPH_75Hz 3);
    mk_mode GRAPH_640x480x8 1 (gfx_ GRAPH_85Hz 4);
    mk_mode GRAPH_800x600x8 1 (gfx_ GRAPH_60Hz 5);
    mk_mode GRAPH_800x600x8 1 (gfx_ GRAPH_56Hz 6);
    mk_mode GRAPH_800x600x8 1 (gfx_ GRAPH_72Hz 7);
    mk_mode GRAPH_800x600x8 1 (gfx_ GRAPH_75Hz 8);
    mk_mode GRAPH_800x600x8 1 (gfx_ GRAPH_85Hz 9);
    mk_mode GRAPH_1024x768x8 1 (gfx_ GRAPH_60Hz 10);
    mk_mode GRAPH_1024x768x8 1 (gfx_ GRAPH_43Hzi 11);
    mk_mode GRAPH_1024x768x8 1 (gfx_ GRAPH_70Hz 12);
    mk_mode GRAPH_1024x768x8 1 (gfx_ GRAPH_75Hz 13);
    mk_mode GRAPH_1024x768x8 1 (gfx_ GRAPH_85Hz 14);
    mk_mode GRAPH_1152x864x8 1 (gfx_ GRAPH_75Hz 15);
    mk_mode GRAPH_1280x1024x8 1 (gfx_ GRAPH_60Hz 16);
    mk_mode GRAPH_1280x1024x8 1 (gfx_ GRAPH_75Hz 17);
    (* 16-bit color (5:6:5) *)
    mk_mode GRAPH_640x480x16 2 (gfx_ GRAPH_60Hz 1);
    mk_mode GRAPH_640x480x16 2 (gfx_ GRAPH_72Hz 2);
    mk_mode GRAPH_640x480x16 2 (gfx_ GRAPH_75Hz 3);
    mk_mode GRAPH_640x480x16 2 (gfx_ GRAPH_85Hz 4);
    mk_mode GRAPH_800x600x16 2 (gfx_ GRAPH_60Hz 5);
    mk_mode GRAPH_800x600x16 2 (gfx_ GRAPH_56Hz 6);
    mk_mode GRAPH_800x600x16 2 (gfx_ GRAPH_72Hz 7);
    mk_mode GRAPH_800x600x16 2 (gfx_ GRAPH_75Hz 8);
    mk_mode GRAPH_800x600x16 2 (gfx_ GRAPH_85Hz 9);
    mk_mode GRAPH_1024x768x16 2 (gfx_ GRAPH_60Hz 10);
    mk_mode GRAPH_1024x768x16 2 (gfx_ GRAPH_43Hzi 11);
    mk_mode GRAPH_1024x768x16 2 (gfx_ GRAPH_70Hz 12);
    mk_mode GRAPH_1024x768x16 2 (gfx_ GRAPH_75Hz 13);
    mk_mode GRAPH_1024x768x16 2 (gfx_ GRAPH_85Hz 14);
    (* 24-bit color (8:8:8) *)
    mk_mode GRAPH_640x480x24 3 (gfx_ GRAPH_60Hz 1);
    mk_mode GRAPH_640x480x24 3 (gfx_ GRAPH_72Hz 2);
    mk_mode GRAPH_640x480x24 3 (gfx_ GRAPH_75Hz 3);
    mk_mode GRAPH_640x480x24 3 (gfx_ GRAPH_85Hz 4);
    mk_mode GRAPH_800x600x24 3 (gfx_ GRAPH_60Hz 5);
    mk_mode GRAPH_800x600x24 3 (gfx_ GRAPH_56Hz 6);
    mk_mode GRAPH_800x600x24 3 (gfx_ GRAPH_72Hz 7);
    mk_mode GRAPH_800x600x24 3 (gfx_ GRAPH_75Hz 8);
    mk_mode GRAPH_800x600x24 3 (gfx_ GRAPH_85Hz 9);
    mk_mode GRAPH_1024x768x24 3 (gfx_ GRAPH_60Hz 10);
    mk_mode GRAPH_1024x768x24 3 (gfx_ GRAPH_43Hzi 11);
    mk_mode GRAPH_1024x768x24 3 (gfx_ GRAPH_70Hz 12);
    mk_mode GRAPH_1024x768x24 3 (gfx_ GRAPH_75Hz 13);
    mk_mode GRAPH_1024x768x24 3 (gfx_ GRAPH_85Hz 14);
    (* 32-bit color (8:8:8:8) *)
    mk_mode GRAPH_640x480x32 4 (gfx_ GRAPH_60Hz 1);
    mk_mode GRAPH_640x480x32 4 (gfx_ GRAPH_72Hz 2);
    mk_mode GRAPH_640x480x32 4 (gfx_ GRAPH_75Hz 3);
    mk_mode GRAPH_640x480x32 4 (gfx_ GRAPH_85Hz 4);
    mk_mode GRAPH_800x600x32 4 (gfx_ GRAPH_60Hz 5);
    mk_mode GRAPH_800x600x32 4 (gfx_ GRAPH_56Hz 6);
    mk_mode GRAPH_800x600x32 4 (gfx_ GRAPH_72Hz 7);
    mk_mode GRAPH_800x600x32 4 (gfx_ GRAPH_75Hz 8);
    mk_mode GRAPH_800x600x32 4 (gfx_ GRAPH_85Hz 9);
    mk_mode GRAPH_1024x768x32 4 (gfx_ GRAPH_60Hz 10);
    mk_mode GRAPH_1024x768x32 4 (gfx_ GRAPH_43Hzi 11);
    mk_mode GRAPH_1024x768x32 4 (gfx_ GRAPH_70Hz 12);
    mk_mode GRAPH_1024x768x32 4 (gfx_ GRAPH_75Hz 13);
    mk_mode GRAPH_1024x768x32 4 (gfx_ GRAPH_85Hz 14);
    (* No mode *)
    mk_mode GRAPH_DEFMODE 0 (pwm 0 0) ].

(** Max VCLK for given color depth *)
Definition maxvclks : list Z := [0; 135100; 85500; 85500; 0].

(** VCLK table *)
Definition vclks : list cirrus_vclk_t :=
  [ (* Known stable VCLK *)
    mk_vclk 12599 0x2c 0x33;
    mk_vclk 25226 0x4a 0x2b;
    mk_vclk 28324 0x5b 0x2f;
    mk_vclk 31499 0x42 0x1f;
    mk_vclk 36081 0x7e 0x33;
    mk_vclk 39991 0x51 0x3a;
    mk_vclk 41164 0x45 0x30;
    mk_vclk 45075 0x55 0x36;
    mk_vclk 49866 0x65 0x3a;
    mk_vclk 64981 0x76 0x34;
    mk_vclk 72162 0x7e 0x32;
    mk_vclk 74999 0x6e 0x2a;
    mk_vclk 80012 0x5f 0x22;
    mk_vclk 85226 0x7d 0x2a;
    mk_vclk 89998 0x58 0x1c;
    mk_vclk 95019 0x49 0x16;
    mk_vclk 100226 0x46 0x14;
    mk_vclk 108035 0x53 0x16;
    mk_vclk 109771 0x5c 0x18;
    mk_vclk 120050 0x6d 0x1a;
    mk_vclk 125998 0x58 0x14;
    mk_vclk 130055 0x6d 0x18;
    mk_vclk 134998 0x42 0x0e;
    mk_vclk 150339 0x69 0x14;
    mk_vclk 168236 0x5e 0x10;
    mk_vclk 188179 0x5c 0x0e;
    mk_vclk 210679 0x67 0x0e;
    mk_vclk 229088 0x60 0x0c;
    (* No clock *)
    mk_vclk 0 0 0 ].

(** The members of the union are read under the guard of [depth]: the
    power management member when it is zero, the graphics member
    otherwise.  Every entry of [modes] holds the member its depth calls
    for ([modes_members] below); the other reads are given the zero
    value. *)
Definition pwm_sr01 (m : cirrus_mode_t) : Z :=
  match cm_u m with pwm s _ => s | gfx_ _ _ => 0 end.
Definition pwm_gr0e (m : cirrus_mode_t) : Z :=
  match cm_u m with pwm _ g => g | gfx_ _ _ => 0 end.
Definition gfx_freq (m : cirrus_mode_t) : graph_freq_t :=
  match cm_u m with gfx_ f _ => f | pwm _ _ => GRAPH_DEFFREQ end.
Definition gfx_cfg (m : cirrus_mode_t) : vga_mode_t :=
  match cm_u m with
  | gfx_ _ k => nth k cfgs (mk_vga_mode 0 0 0 0 0 0 0 0 0 0 0 0)
  | pwm _ _ => mk_vga_mode 0 0 0 0 0 0 0 0 0 0 0 0
  end.

(* ================================================================= *)
(** ** cirrus.c: clock synthesis *)

(** Returns internal VCO (kHz) *)
Definition cirrus_vco (n d : Z) : Z :=
  u32 (u32 (Z.land n 0x7f * MIN_VCLK) / Z.land d 0x3e).

(** Prefer tested clock if it matches within 0.1%: the first loop of
    [cirrus_vclk], which stops at the entry of frequency zero. *)
Fixpoint vclk_scan (tbl : list cirrus_vclk_t) (freq : Z) : option cirrus_vclk_t :=
  match tbl with
  | [] => None
  | e :: rest =>
    if vc_freq e =? 0 then None
    else if absdiff (vc_freq e) freq <? freq / 1000 then Some e
    else vclk_scan rest freq
  end.

(** The body of the two nested loops: [st] holds [*vclk] and [mindiff]. *)
Definition vclk_try (maxvclk freq : Z) (st : cirrus_vclk_t * Z) (n d : Z)
  : cirrus_vclk_t * Z :=
  (* Skip unstable combinations *)
  let f := cirrus_vco n d in
  if (f <? MIN_VCLK) || (maxvclk <? f) then st
  else
    let f := Z.shiftr f (Z.land d 0x1) in
    let diff := absdiff f freq in
    if diff <? snd st then (mk_vclk f (u8 n) (u8 d), diff) else st.

Definition vclk_search (maxvclk freq : Z) (st : cirrus_vclk_t * Z) : cirrus_vclk_t * Z :=
  fold_left (fun st n =>
    fold_left (fun st d => vclk_try maxvclk freq st n d) (Zseq 0x14 43) st)
    (Zseq 0x10 111) st.

(** Finds best numerator and denominator values for given VCLK frequency *)
Definition cirrus_vclk (maxvclk : Z) (vclk : cirrus_vclk_t) : retcode * cirrus_vclk_t :=
  let freq := vc_freq vclk in
  match vclk_scan vclks freq with
  | Some e => (EOK, e)
  | None =>
    let maxvclk := if maxvclk <? MAX_VCLK then MAX_VCLK else maxvclk in
    (* Find VCLK *)
    let vclk := fst (vclk_search maxvclk freq (mk_vclk 0 (vc_num vclk) (vc_den vclk), freq)) in
    (if vc_freq vclk =? 0 then Err EINVAL else EOK, vclk)
  end.

(** *** The search, as the design document words it *)

(** The pairs the two loops visit, in the order they visit them. *)
Definition candidates : list (Z * Z) :=
  flat_map (fun n => map (pair n) (Zseq 0x14 43)) (Zseq 0x10 111).

(** The frequency a pair achieves: the VCO, halved when the denominator
    is odd. *)
Definition achieved (n d : Z) : Z := Z.shiftr (cirrus_vco n d) (Z.land d 0x1).

(** The VCO of a pair lies in the stable band. *)
Definition stable (maxvclk n d : Z) : bool :=
  negb ((cirrus_vco n d <? MIN_VCLK) || (maxvclk <? cirrus_vco n d)).

(** Iteration order: ascending numerator, then ascending denominator. *)
Definition lex_lt (a b : Z * Z) : Prop :=
  fst a < fst b \/ (fst a = fst b /\ snd a < snd b).

Definition lex_ltb (a b : Z * Z) : bool :=
  (fst a <? fst b) || ((fst a =? fst b) && (snd a <? snd b)).

Fixpoint ascending (x : Z * Z) (l : list (Z * Z)) : bool :=
  match l with
  | [] => true
  | y :: r => lex_ltb x y && ascending y r
  end.

(* ================================================================= *)
(** ** cirrus.c: mode table lookup *)

Inductive scan_result :=
| Found (i : nat)     (* the loop left with index [i] *)
| NotSup              (* [return -ENOTSUP] at the sentinel *)
| Overrun.            (* the index left the table *)

(** [for (i = 0; (modes[i].mode != mode) || (modes[i].depth &&
    (freq != GRAPH_DEFFREQ) && (modes[i].gfx.freq != freq)); i++)
      if (!modes[i].mode) return -ENOTSUP;]
    over the entries from index [i] on. *)
Fixpoint mode_scan (tbl : list cirrus_mode_t) (i : nat)
                   (mode : graph_mode_t) (freq : graph_freq_t) : scan_result :=
  match tbl with
  | [] => Overrun
  | e :: rest =>
    if negb (graph_mode_t_beq (cm_mode e) mode)
       || (negb (cm_depth e =? 0)
           && negb (graph_freq_t_beq freq GRAPH_DEFFREQ)
           && negb (graph_freq_t_beq (gfx_freq e) freq))
    then if graph_mode_t_beq (cm_mode e) GRAPH_DEFMODE then NotSup
         else mode_scan rest (S i) mode freq
    else Found i
  end.

Definition mode_index (mode : graph_mode_t) (freq : graph_freq_t) : scan_result :=
  if graph_mode_t_beq mode GRAPH_DEFMODE then Found DEFMODE
  else mode_scan modes 0 mode freq.

(** *** The lookup, as the design document words it *)

(** The catalog proper: the entries before the sentinel. *)
Definition catalog : list cirrus_mode_t := removelast modes.

(** An entry answers a request when the mode tags are equal and, for an
    entry of nonzero depth asked at a specific refresh rate, the refresh
    tags are equal too. *)
Definition matches (mode : graph_mode_t) (freq : graph_freq_t) (e : cirrus_mode_t) : bool :=
  graph_mode_t_beq (cm_mode e) mode
  && ((cm_depth e =? 0)
      || graph_freq_t_beq freq GRAPH_DEFFREQ
      || graph_freq_t_beq (gfx_freq e) freq).

(** Index of the first entry of [tbl] that answers, counted from [i]. *)
Fixpoint first_match (tbl : list cirrus_mode_t) (i : nat)
                     (mode : graph_mode_t) (freq : graph_freq_t) : option nat :=
  match tbl with
  | [] => None
  | e :: rest => if matches mode freq e then Some i
                 else first_match rest (S i) mode freq
  end.

(* ================================================================= *)
(** ** cirrus.c: the adapter *)

Record cirrus_state_t := mk_cirrus_state {
  state : vga_state_t;      (* Base VGA state *)
  cr1a : Z; cr1b : Z; cr1d : Z;
  sr07 : Z; sr0e : Z; sr12 : Z; sr13 : Z; sr17 : Z; sr1e : Z; sr21 : Z; sr2d : Z;
  gr17 : Z; gr18 : Z;
  hdr : Z                   (* Hidden DAC Register *)
}.

(** Of [cirrus_dev_t], the mapped video memory size; the mapped memory
    itself is [w_vmem], by byte offset from [cdev->vmem].  [cirrus_open]
    maps [vmemsz] bytes rounded up to a page, and [vmemsz] is what
    [cirrus_vmemsz] reported, a multiple of 1 MiB: the mapping is the
    offsets from 0 to [vmemsz]. *)
Record cirrus_dev_t := mk_cdev {
  vmemsz : Z
}.

Definition poke `{Adapter} (off val : Z) : M unit :=
  fun w => (tt, mk_world (w_hw w) (w_log w)
                         (fun o => if o =? off then u8 val else w_vmem w o)).

(** [memset(cdev->vmem, 0, n)].  Nothing in the source compares [n]
    with the size of the mapping.  Within the mapping the [n] bytes are
    cleared and the answer is [true]; a longer clear writes outside the
    mapped memory, which C leaves undefined: the answer is [false], and
    the model says nothing of the memory then. *)
Definition vmem_clear `{Adapter} (cdev : cirrus_dev_t) (n : Z) : M bool :=
  fun w => if n <=? vmemsz cdev
           then (true, mk_world (w_hw w) (w_log w)
                                (fun o => if (0 <=? o) && (o <? n) then 0 else w_vmem w o))
           else (false, w).

Definition cirrus_cursorpos `{Adapter} (x y : Z) : M retcode :=
  vga_writeseq (Z.lor (u32 (Z.shiftl x 5)) 0x10) (Z.shiftr x 3) ;;
  vga_writeseq (Z.lor (u32 (Z.shiftl y 5)) 0x11) (Z.shiftr y 3) ;;
  ret EOK.

(** The inner loops of [cirrus_cursorset]: eight bytes go from [src] to
    [cur], through [f], both pointers moving on.  [p] holds [cur], as an
    offset into the mapped memory, and the index the source pointer is at. *)
Definition put8 `{Adapter} (f : Z -> Z) (src : array) (p : Z * Z) : M (Z * Z) :=
  for_fold (seq 0 8) (fun _ '(cur, s) =>
    poke cur (f (src (Z.to_nat s))) ;; ret (cur + 1, s + 1)) p.

(** One turn of the outer loop: eight bytes of the XOR mask, then eight
    bytes of the AND mask, inverted.  [p] holds [cur], [xor] and [and]. *)
Definition sprite_row `{Adapter} (and_ xor : array) (p : Z * Z * Z) : M (Z * Z * Z) :=
  let '(cur, px, pa) := p in
  '(cur, px) <- put8 (fun b => b) xor (cur, px) ;;
  '(cur, pa) <- put8 Z.lnot and_ (cur, pa) ;;
  ret (cur, px, pa).

(** The register writes that end [cirrus_cursorset]. *)
Definition cursor_colors `{Adapter} (bg fg : Z) : M retcode :=
  vga_writeseq 0x13 0x30 ;;
  sr12 <- vga_readseq 0x12 ;;
  vga_writeseq 0x12 (Z.lor sr12 0x82) ;;
  vga_writedac 0x02 0x00 ;;
  vga_writedac 0x03 bg ;;
  vga_writedac 0x03 (Z.shiftr bg 8) ;;
  vga_writedac 0x03 (Z.shiftr bg 16) ;;
  vga_writedac 0x02 0x0f ;;
  vga_writedac 0x03 fg ;;
  vga_writedac 0x03 (Z.shiftr fg 8) ;;
  vga_writedac 0x03 (Z.shiftr fg 16) ;;
  vga_writeseq 0x12 (Z.land sr12 (Z.lnot 0x02)) ;;
  ret EOK.

Definition cirrus_cursorset `{Adapter} (cdev : cirrus_dev_t) (graph : graph_t)
    (and_ xor : array) (bg fg : Z) : M retcode :=
  if vmemsz cdev <? u32 (u32 (u32 (height graph * width graph) * depth graph) + 0x1000)
  then ret (Err ENOSPC)
  else
    let cur := vmemsz cdev - 0x1000 in
    for_fold (seq 0 64) (fun _ p => sprite_row and_ xor p) (cur, 0, 0) ;;
    cursor_colors bg fg.

Definition cirrus_cursorhide `{Adapter} : M retcode :=
  v <- vga_readseq 0x12 ;;
  vga_writeseq 0x12 (Z.land v (Z.lnot 0x01)) ;;
  ret EOK.

Definition cirrus_cursorshow `{Adapter} : M retcode :=
  v <- vga_readseq 0x12 ;;
  vga_writeseq 0x12 (Z.lor v 0x01) ;;
  ret EOK.

Definition cirrus_save `{Adapter} (st : cirrus_state_t) : M cirrus_state_t :=
  (* Save base VGA state *)
  base <- vga_save (state st) ;;
  (* Save extended VGA state *)
  cr1a <- vga_readcrtc 0x1a ;;
  cr1b <- vga_readcrtc 0x1b ;;
  cr1d <- vga_readcrtc 0x1d ;;
  sr07 <- vga_readseq 0x07 ;;
  sr0e <- vga_readseq 0x0e ;;
  sr12 <- vga_readseq 0x12 ;;
  sr13 <- vga_readseq 0x13 ;;
  sr17 <- vga_readseq 0x17 ;;
  sr1e <- vga_readseq 0x1e ;;
  sr21 <- vga_readseq 0x21 ;;
  sr2d <- vga_readseq 0x2d ;;
  gr17 <- vga_readgfx 0x17 ;;
  gr18 <- vga_readgfx 0x18 ;;
  (* Read DAC pixel mask before HDR access *)
  vga_readdac 0x00 ;;
  vga_readdac 0x00 ;;
  vga_readdac 0x00 ;;
  vga_readdac 0x00 ;;
  hdr <- vga_readdac 0x00 ;;
  ret (mk_cirrus_state base cr1a cr1b cr1d sr07 sr0e sr12 sr13 sr17 sr1e sr21 sr2d
                       gr17 gr18 hdr).

Definition cirrus_restore `{Adapter} (st : cirrus_state_t) : M unit :=
  (* Restore extended VGA state *)
  vga_writecrtc 0x1a (cr1a st) ;;
  vga_writecrtc 0x1b (cr1b st) ;;
  vga_writecrtc 0x1d (cr1d st) ;;
  vga_writeseq 0x07 (sr07 st) ;;
  vga_writeseq 0x0e (sr0e st) ;;
  vga_writeseq 0x12 (sr12 st) ;;
  vga_writeseq 0x13 (sr13 st) ;;
  vga_writeseq 0x17 (sr17 st) ;;
  vga_writeseq 0x1e (sr1e st) ;;
  vga_writeseq 0x21 (sr21 st) ;;
  vga_writeseq 0x2d (sr2d st) ;;
  vga_writegfx 0x17 (gr17 st) ;;
  vga_writegfx 0x18 (gr18 st) ;;
  (* Read DAC pixel mask before HDR access *)
  vga_readdac 0x00 ;;
  vga_readdac 0x00 ;;
  vga_readdac 0x00 ;;
  vga_readdac 0x00 ;;
  vga_writedac 0x00 (hdr st) ;;
  (* Restore base VGA state *)
  vga_restore (state st).

(** The [switch (modes[i].depth)] of [cirrus_mode]: the bits or-ed into
    [sr07] and the hidden DAC register, [None] for [default]. *)
Definition depth_profile (depth : Z) (hdiv : bool) : option (Z * Z) :=
  match depth with
  | 1 => Some (if hdiv then 0x17 else 0x11, if hdiv then 0x4a else 0x00)
  | 2 => Some (if hdiv then 0x19 else 0x17, 0xc1)
  | 3 => Some (0x15, 0xc5)
  | 4 => Some (0x19, 0xc5)
  | _ => None
  end.

(** Adjust horizontal timings *)
Definition adjust_h (cfg : vga_mode_t) : vga_mode_t * bool :=
  if 85500 <? clk cfg then
    (mk_vga_mode (Z.shiftr (clk cfg) 1)
       (Z.shiftr (hres cfg) 1) (Z.shiftr (hsyncs cfg) 1) (Z.shiftr (hsynce cfg) 1)
       (Z.shiftr (htotal cfg) 1) (hskew cfg)
       (vres cfg) (vsyncs cfg) (vsynce cfg) (vtotal cfg) (vscan cfg) (flags cfg), true)
  else (cfg, false).

(** Adjust vertical timings *)
Definition adjust_v (cfg : vga_mode_t) : vga_mode_t * bool :=
  if (1024 <=? vtotal cfg) && negb (testflag (flags cfg) VGA_INTERLACE) then
    (mk_vga_mode (clk cfg)
       (hres cfg) (hsyncs cfg) (hsynce cfg) (htotal cfg) (hskew cfg)
       (Z.shiftr (vres cfg) 1) (Z.shiftr (vsyncs cfg) 1) (Z.shiftr (vsynce cfg) 1)
       (Z.shiftr (vtotal cfg) 1) (vscan cfg) (flags cfg), true)
  else (cfg, false).

(** The register image [cirrus_mode] composes once the clock is found
    and the depth is one of 1-4 ([add07] and [hdr_] from [depth_profile]). *)
Definition compose (st0 : cirrus_state_t) (cfg : vga_mode_t) (pitch : Z)
    (hdiv vdiv : bool) (add07 hdr_ : Z) : cirrus_state_t :=
  (* Initialize VGA state *)
  let base := vga_mode 3 cfg (state st0) in
  let base := set_buffers base None None None None in
  let base := set_crtc base 0x13 (Z.shiftr pitch 3) in
  let base := set_crtc base 0x17
                (Z.lor (crtc base 0x17%nat) ((if vdiv then 1 else 0) * 0x04)) in
  (* Initialize extended VGA registers *)
  mk_cirrus_state base
    0x00
    (u8 (Z.lor (Z.lor (Z.land (Z.shiftr pitch 7) 0x10) (Z.land (Z.shiftr pitch 6) 0x40)) 0x22))
    0x00
    (u8 (Z.lor 0xe0 add07))
    0x00 0x04 0x00 0x00 0x00 0x00 0x00
    0x08
    (if hdiv then 0x20 else 0x00)
    hdr_.

(** [st0] and [vclk0] stand for the two locals [state] and [vclk], which
    the function does not initialise.  The lookup never leaves the table
    ([mode_index_total] below), so what is returned for [Overrun] is
    never returned.

    The result is [Some] of the code returned and of the graph data, or
    [None] when the call has no defined result: the closing [memset]
    leaves the mapped memory. *)
Definition cirrus_mode `{Adapter} (cdev : cirrus_dev_t)
    (st0 : cirrus_state_t) (vclk0 : cirrus_vclk_t)
    (graph : graph_t) (mode : graph_mode_t) (freq : graph_freq_t)
  : M (option (retcode * graph_t)) :=
  match mode_index mode freq with
  | NotSup | Overrun => ret (Some (Err ENOTSUP, graph))
  | Found i =>
    let m := nth i modes (mk_mode GRAPH_DEFMODE 0 (pwm 0 0)) in
    (* Power management mode (DPMS) *)
    if cm_depth m =? 0 then
      v <- vga_readseq 0x01 ;;
      vga_writeseq 0x01 (Z.lor (Z.land v (Z.lnot 0x20)) (pwm_sr01 m)) ;;
      v <- vga_readgfx 0x0e ;;
      vga_writegfx 0x0e (Z.lor (Z.land v (Z.lnot 0x06)) (pwm_gr0e m)) ;;
      ret (Some (EOK, graph))
    else
      let pitch := u32 (hres (gfx_cfg m) * cm_depth m) in
      let cfg := gfx_cfg m in
      let '(cfg, hdiv) := adjust_h cfg in
      let '(cfg, vdiv) := adjust_v cfg in
      (* Find pixel clock *)
      let vclk := mk_vclk (clk cfg) (vc_num vclk0) (vc_den vclk0) in
      match cirrus_vclk (nth (Z.to_nat (cm_depth m)) maxvclks 0) vclk with
      | (Err _, _) => ret (Some (Err EFAULT, graph))
      | (EOK, vclk) =>
        match depth_profile (cm_depth m) hdiv with
        | None => ret (Some (Err EFAULT, graph))
        | Some (add07, hdr_) =>
          let st := compose st0 cfg pitch hdiv vdiv add07 hdr_ in
          (* Program mode *)
          vga_mlock ;;
          cirrus_restore st ;;
          v <- vga_readseq 0x0e ;;
          vga_writeseq 0x0e (Z.lor (Z.land v 0x80) (vc_num vclk)) ;;
          vga_writeseq 0x1e (vc_den vclk) ;;
          vga_munlock ;;
          (* Update graph data and clear screen *)
          let graph := mk_graph (hres (gfx_cfg m)) (vres (gfx_cfg m)) (cm_depth m) in
          inside <- vmem_clear cdev (u32 (u32 (width graph * height graph) * depth graph)) ;;
          ret (if inside then Some (EOK, graph) else None)
        end
      end
  end.

(** The decision of [cirrus_vmemsz] on the two bytes it reads. *)
Definition vmemsz_of (sr0f sr17 : Z) : Z :=
  if Z.land sr0f 0x18 =? 0x18 then
    if testflag sr0f 0x80 then
      if testflag sr17 0x80 then 0x200000
      else if testflag sr17 0x02 then 0x300000
      else 0x400000
    else if negb (testflag sr17 0x80) then 0x200000
    else 0x100000
  else 0x100000.

(** Returns video memory size *)
Definition cirrus_vmemsz `{Adapter} : M Z :=
  sr0f <- vga_readseq 0x0f ;;
  sr17 <- vga_readseq 0x17 ;;
  ret (vmemsz_of sr0f sr17).

(** *** The parts of [cirrus_mode]

    [cirrus_mode] above is one function, as in the source; its parts are
    named here, and [cirrus_mode_found] below puts them together again. *)

(** The configuration handed to [vga_mode] for an entry: the entry's,
    after the two adjustments. *)
Definition programmed_cfg (m : cirrus_mode_t) : vga_mode_t :=
  fst (adjust_v (fst (adjust_h (gfx_cfg m)))).

(** The clock asked of [cirrus_vclk] for an entry, and what comes back;
    [num] and [den] are what the local [vclk] holds in its other fields. *)
Definition programmed_clock (m : cirrus_mode_t) (num den : Z) : retcode * cirrus_vclk_t :=
  cirrus_vclk (nth (Z.to_nat (cm_depth m)) maxvclks 0)
              (mk_vclk (clk (programmed_cfg m)) num den).

(** The register image composed for a graphics entry. *)
Definition programmed_image (st0 : cirrus_state_t) (m : cirrus_mode_t) (add07 hdr_ : Z)
  : cirrus_state_t :=
  compose st0 (programmed_cfg m) (u32 (hres (gfx_cfg m) * cm_depth m))
          (snd (adjust_h (gfx_cfg m))) (snd (adjust_v (fst (adjust_h (gfx_cfg m)))))
          add07 hdr_.

(** Power management mode (DPMS) *)
Definition program_power `{Adapter} (m : cirrus_mode_t) (graph : graph_t)
  : M (option (retcode * graph_t)) :=
  v <- vga_readseq 0x01 ;;
  vga_writeseq 0x01 (Z.lor (Z.land v (Z.lnot 0x20)) (pwm_sr01 m)) ;;
  v <- vga_readgfx 0x0e ;;
  vga_writegfx 0x0e (Z.lor (Z.land v (Z.lnot 0x06)) (pwm_gr0e m)) ;;
  ret (Some (EOK, graph)).

(** Program mode, then update graph data and clear screen *)
Definition program_mode `{Adapter} (cdev : cirrus_dev_t)
    (st : cirrus_state_t) (vclk : cirrus_vclk_t)
    (m : cirrus_mode_t) : M (option (retcode * graph_t)) :=
  vga_mlock ;;
  cirrus_restore st ;;
  v <- vga_readseq 0x0e ;;
  vga_writeseq 0x0e (Z.lor (Z.land v 0x80) (vc_num vclk)) ;;
  vga_writeseq 0x1e (vc_den vclk) ;;
  vga_munlock ;;
  let graph := mk_graph (hres (gfx_cfg m)) (vres (gfx_cfg m)) (cm_depth m) in
  inside <- vmem_clear cdev (u32 (u32 (width graph * height graph) * depth graph)) ;;
  ret (if inside then Some (EOK, graph) else None).

End Cirrus.

(* ================================================================= *)
(** ** vgadev.c *)

Module Vgadev.

(** Default graphics mode index *)
Definition DEFMODE : nat := 5.

Inductive mode_union :=
| pwm (sr01 cr17 : Z)
| gfx_ (freq : graph_freq_t) (cfg : vga_mode_t).

Record vgadev_mode_t := mk_mode {
  vm_mode : graph_mode_t;
  vm_depth : Z;
  vm_u : mode_union
}.

(** Graphics modes table *)
Definition modes : list vgadev_mode_t :=
  [ (* Control modes *)
    mk_mode GRAPH_ON 0 (pwm 0x00 0x80);
    mk_mode GRAPH_OFF 0 (pwm 0x20 0x00);
    mk_mode GRAPH_STANDBY 0 (pwm 0x20 0x80);
    mk_mode GRAPH_SUSPEND 0 (pwm 0x20 0x80);
    (* 8-bit color palette *)
    mk_mode GRAPH_320x200x8 1
      (gfx_ GRAPH_70Hz (mk_vga_mode 25175 320 336 384 400 0 200 206 207 224 2
                                    (Z.lor VGA_VSYNCP VGA_CLKDIV)));
    (* No mode *)
    mk_mode GRAPH_DEFMODE 0 (pwm 0 0) ].

Definition pwm_sr01 (m : vgadev_mode_t) : Z :=
  match vm_u m with pwm s _ => s | gfx_ _ _ => 0 end.
Definition pwm_cr17 (m : vgadev_mode_t) : Z :=
  match vm_u m with pwm _ c => c | gfx_ _ _ => 0 end.
Definition gfx_freq (m : vgadev_mode_t) : graph_freq_t :=
  match vm_u m with gfx_ f _ => f | pwm _ _ => GRAPH_DEFFREQ end.
Definition gfx_cfg (m : vgadev_mode_t) : vga_mode_t :=
  match vm_u m with
  | gfx_ _ c => c
  | pwm _ _ => mk_vga_mode 0 0 0 0 0 0 0 0 0 0 0 0
  end.

Fixpoint mode_scan (tbl : list vgadev_mode_t) (i : nat)
                   (mode : graph_mode_t) (freq : graph_freq_t) : Cirrus.scan_result :=
  match tbl with
  | [] => Cirrus.Overrun
  | e :: rest =>
    if negb (graph_mode_t_beq (vm_mode e) mode)
       || (negb (vm_depth e =? 0)
           && negb (graph_freq_t_beq freq GRAPH_DEFFREQ)
           && negb (graph_freq_t_beq (gfx_freq e) freq))
    then if graph_mode_t_beq (vm_mode e) GRAPH_DEFMODE then Cirrus.NotSup
         else mode_scan rest (S i) mode freq
    else Cirrus.Found i
  end.

Definition mode_index (mode : graph_mode_t) (freq : graph_freq_t) : Cirrus.scan_result :=
  if graph_mode_t_beq mode GRAPH_DEFMODE then Cirrus.Found DEFMODE
  else mode_scan modes 0 mode freq.

Definition vgadev_mode `{Adapter} (st0 : vga_state_t)
    (graph : graph_t) (mode : graph_mode_t) (freq : graph_freq_t)
  : M (retcode * graph_t) :=
  match mode_index mode freq with
  | Cirrus.NotSup | Cirrus.Overrun => ret (Err ENOTSUP, graph)
  | Cirrus.Found i =>
    let m := nth i modes (mk_mode GRAPH_DEFMODE 0 (pwm 0 0)) in
    (* Power management mode (DPMS) *)
    if vm_depth m =? 0 then
      vga_writeseq 0x00 0x01 ;;
      v <- vga_readseq 0x01 ;;
      vga_writeseq 0x01 (Z.lor (Z.land v (Z.lnot 0x20)) (pwm_sr01 m)) ;;
      v <- vga_readcrtc 0x17 ;;
      vga_writecrtc 0x17 (Z.lor (Z.land v (Z.lnot 0x80)) (pwm_cr17 m)) ;;
      vga_writeseq 0x00 0x03 ;;
      ret (EOK, graph)
    else
      let cfg := gfx_cfg m in
      (* Initialize VGA state *)
      let st := vga_mode 0 cfg st0 in
      let st := set_buffers st None None None None in
      (* Program mode *)
      vga_mlock ;;
      vga_restoremode st ;;
      vga_munlock ;;
      (* Update graph data and clear screen *)
      let graph := mk_graph (hres (gfx_cfg m)) (vres (gfx_cfg m)) (vm_depth m) in
      access (EvMemSet (u32 (u32 (width graph * height graph) * depth graph))) ;;
      ret (EOK, graph)
  end.

End Vgadev.

(* ================================================================= *)
(** ** A register file *)

(** Modelled from the spec: the register access facade, "synchronous
    get/set of named register banks" with "per-bank indexed byte
    read/write", is declared in libvga.h and defined nowhere in the
    sources.  Here a register holds the byte last written to it; a read
    returns that byte and changes nothing. *)
Record regfile := mk_regfile {
  rf_reg : port -> Z -> Z;
  rf_status : Z;
  rf_mem : nat -> Z
}.

Definition port_eqb (p q : port) : bool :=
  match p, q with
  | MISC, MISC | CRTC, CRTC | SEQ, SEQ | GFX, GFX | ATTR, ATTR | DAC, DAC => true
  | _, _ => false
  end.

Definition rf_next (h : regfile) (e : event) : regfile :=
  match e with
  | EvWrite p reg val =>
    mk_regfile (fun p' reg' => if port_eqb p' p && (reg' =? reg) then val
                               else rf_reg h p' reg')
               (rf_status h) (rf_mem h)
  | _ => h
  end.

(** Modelled from the spec: the low level interface of libvga.h
    ([vga_readseq], [vga_writeseq], ...) over such a register file, the
    "per-bank indexed byte read/write" of the register access facade. *)
Definition RegFile : Adapter :=
  {| hw := regfile; hw_in := rf_reg; hw_status := rf_status;
     hw_mem := rf_mem; hw_next := rf_next |}.

(** The writes of a log, in order. *)
Definition is_write (e : event) : bool :=
  match e with EvWrite _ _ _ => true | _ => false end.

Definition writes (log : list event) : list event := filter is_write log.

(* ================================================================= *)
(** ** The vertical adjustments, as the design document words them *)

Module VerticalSpec.

(** "double-scan doubles all four" *)
Definition double_scan (m : vga_mode_t) (v : Z) : Z :=
  if testflag (flags m) VGA_DBLSCAN then u32 (2 * v) else v.

(** "interlace [...] halves all four" *)
Definition interlace (m : vga_mode_t) (v : Z) : Z :=
  if testflag (flags m) VGA_INTERLACE then v / 2 else v.

(** "a scan-multiplier > 1 then multiplies all four again" *)
Definition scan_multiply (m : vga_mode_t) (v : Z) : Z :=
  if 1 <? vscan m then u32 (v * vscan m) else v.

(** The three, in the order of the document. *)
Definition adjust (m : vga_mode_t) (v : Z) : Z :=
  scan_multiply m (interlace m (double_scan m v)).

End VerticalSpec.

(* ================================================================= *)
(** ** Phases of save and restore *)

(** Accesses of the palette transfer: the DAC, the settle delay and the
    closing [vga_disablecmap]. *)
Definition palette_event (e : event) : bool :=
  match e with
  | EvRead DAC _ | EvWrite DAC _ _ | EvStatus | EvDisableCmap => true
  | _ => false
  end.

(** Accesses of the text and font transfer: the plane selection through
    the miscellaneous, sequencer, graphics and attribute registers, and
    the copies themselves. *)
Definition text_event (e : event) : bool :=
  match e with
  | EvRead MISC _ | EvRead SEQ _ | EvRead GFX _ | EvRead ATTR _ => true
  | EvWrite MISC _ _ | EvWrite SEQ _ _ | EvWrite GFX _ _ => true
  | EvMemRead _ | EvMemWrite _ _ => true
  | _ => false
  end.

(** The accesses of [vga_savemode]. *)
Definition savemode_events : list event :=
  EvRead MISC 0
  :: map (fun i => EvRead CRTC (Z.of_nat i)) (seq 0 25)
  ++ map (fun i => EvRead SEQ (Z.of_nat i)) (seq 1 4)
  ++ map (fun i => EvRead GFX (Z.of_nat i)) (seq 0 9)
  ++ EvEnableCmap
  :: map (fun i => EvRead ATTR (Z.of_nat i)) (seq 0 21)
  ++ [EvDisableCmap].

(** The accesses of [vga_restoremode] for a register image. *)
Definition restoremode_events (st : vga_state_t) : list event :=
  EvWrite MISC 0 (u8 (misc st))
  :: EvWrite CRTC 0x11 (u8 (Z.land (crtc st 17%nat) (Z.lnot 0x80)))
  :: map (fun i => EvWrite CRTC (Z.of_nat i) (u8 (crtc st i))) (seq 0 25)
  ++ map (fun i => EvWrite SEQ (Z.of_nat i) (u8 (seq_ st i))) (seq 1 4)
  ++ map (fun i => EvWrite GFX (Z.of_nat i) (u8 (gfx st i))) (seq 0 9)
  ++ EvEnableCmap
  :: map (fun i => EvWrite ATTR (Z.of_nat i) (u8 (attr st i))) (seq 0 21)
  ++ [EvDisableCmap].

(** The accesses of [vga_savecmap]: none without a buffer. *)
Definition savecmap_events (st : vga_state_t) : list event :=
  match cmap st with
  | None => []
  | Some _ =>
    [EvWrite DAC 0x00 0xff; EvWrite DAC 0x01 0x00]
    ++ flat_map (fun _ : nat => [EvRead DAC 0x03; EvStatus; EvStatus])
                (seq 0 (Z.to_nat VGA_CMAPSZ))
    ++ [EvDisableCmap]
  end.

(** The accesses of [vga_restorecmap]: none without a buffer. *)
Definition restorecmap_events (st : vga_state_t) : list event :=
  match cmap st with
  | None => []
  | Some buf =>
    [EvWrite DAC 0x00 0xff; EvWrite DAC 0x02 0x00]
    ++ flat_map (fun i : nat => [EvWrite DAC 0x03 (u8 (buf i)); EvStatus; EvStatus])
                (seq 0 (Z.to_nat VGA_CMAPSZ))
    ++ [EvDisableCmap]
  end.

(** [c] adds exactly the accesses [t] to the log. *)
Definition logs `{Adapter} {A} (t : list event) (c : M A) : Prop :=
  forall w, w_log (snd (c w)) = w_log w ++ t.

(** [c] adds only accesses of the kind [P] to the log. *)
Definition emits `{Adapter} {A} (P : event -> bool) (c : M A) : Prop :=
  forall w, exists t, w_log (snd (c w)) = w_log w ++ t /\ forallb P t = true.

(* ================================================================= *)
(** ** Configured modes and the cursor sprite *)

(** The result of a call that returned no error code: success, or no
    defined result. *)
Definition no_error (r : option (retcode * graph_t)) : Prop :=
  match r with
  | Some (Err _, _) => False
  | _ => True
  end.

(** The adapter reports the geometry of a graphics entry of the catalog:
    what a successful [cirrus_mode] leaves in [graph_t]. *)
Definition configured (graph : graph_t) : Prop :=
  exists m, In m Cirrus.catalog /\ Cirrus.cm_depth m <> 0
            /\ graph = mk_graph (hres (Cirrus.gfx_cfg m)) (vres (Cirrus.gfx_cfg m))
                                 (Cirrus.cm_depth m).

(** Byte [k] of the sprite as the adapter wants it: rows of sixteen
    bytes, eight of the XOR mask then eight of the inverted AND mask. *)
Definition sprite_byte (and_ xor : array) (k : Z) : Z :=
  if k mod 16 <? 8 then u8 (xor (Z.to_nat (8 * (k / 16) + k mod 16)))
  else u8 (Z.lnot (and_ (Z.to_nat (8 * (k / 16) + k mod 16 - 8)))).

(** The power management requests. *)
Definition power_mode (mode : graph_mode_t) : Prop :=
  mode = GRAPH_ON \/ mode = GRAPH_OFF \/ mode = GRAPH_STANDBY \/ mode = GRAPH_SUSPEND.

(* ================================================================= *)
(** ** Sample inputs *)

Module Sample.

Definition regs : regfile := mk_regfile (fun _ _ => 0) 0 (fun _ => 0).

Definition world0 : @world RegFile := @mk_world RegFile regs [] (fun _ => 0).

Definition image : vga_state_t :=
  mk_vga_state 0 azero azero azero azero None None None None.

Definition cirrus_image : Cirrus.cirrus_state_t :=
  Cirrus.mk_cirrus_state image 0 0 0 0 0 0 0 0 0 0 0 0 0 0.

Definition vclk0 : Cirrus.cirrus_vclk_t := Cirrus.mk_vclk 0 0 0.

Definition graph0 : graph_t := mk_graph 0 0 0.

(** 1024x768 at two bytes a pixel, the default mode. *)
Definition graph_default : graph_t := mk_graph 1024 768 2.

(** Adapters with 1 MiB and with 4 MiB of video memory. *)
Definition cdev_1m : Cirrus.cirrus_dev_t := Cirrus.mk_cdev 0x100000.
Definition cdev_4m : Cirrus.cirrus_dev_t := Cirrus.mk_cdev 0x400000.

(** 640x480 at 60 Hz. *)
Definition timing_640x480 : vga_mode_t :=
  mk_vga_mode 25175 640 656 752 800 0 480 490 492 525 0 0.

End Sample.

(* ================================================================= *)
(** ** Tables and register fields, for the properties below *)

(** A timing whose blanking interval is the whole of the border and
    retrace: it starts with the resolution and ends with the total, the
    sync pulse inside it. *)
Definition plain_blanking (cfg : vga_mode_t) : bool :=
  let '(v_res, v_syncs, v_synce, v_total) := Timing.vertical cfg in
  let '(hbs, hbe) := Timing.hblank cfg in
  let '(vbs, vbe) := Timing.vblank cfg in
  (hbs =? hres cfg) && (hbe =? htotal cfg)
  && (hbs <=? hsyncs cfg) && (hsyncs cfg <=? hsynce cfg) && (hsynce cfg <=? hbe)
  && (vbs =? v_res) && (vbe =? v_total)
  && (vbs <=? v_syncs) && (v_syncs <=? v_synce) && (v_synce <=? vbe).

Definition all_freqs : list graph_freq_t :=
  [GRAPH_DEFFREQ; GRAPH_43Hzi; GRAPH_56Hz; GRAPH_60Hz; GRAPH_70Hz; GRAPH_72Hz;
   GRAPH_75Hz; GRAPH_85Hz].

Definition scan_is (r : Cirrus.scan_result) (i : nat) : bool :=
  match r with Cirrus.Found j => Nat.eqb j i | _ => false end.

(** Entry [i] of the Cirrus table is what a lookup of its own key stops
    at (at any refresh rate for a power management entry). *)
Definition reachable (i : nat) : bool :=
  let e := nth i Cirrus.modes (Cirrus.mk_mode GRAPH_DEFMODE 0 (Cirrus.pwm 0 0)) in
  if Cirrus.cm_depth e =? 0
  then forallb (fun f => scan_is (Cirrus.mode_index (Cirrus.cm_mode e) f) i) all_freqs
  else scan_is (Cirrus.mode_index (Cirrus.cm_mode e) (Cirrus.gfx_freq e)) i.

(** An entry [cirrus_mode] can program: a power management entry, or a
    graphics entry with a depth the [switch] knows and a clock within
    0.3% of the one asked for. *)
Definition entry_ok (m : Cirrus.cirrus_mode_t) : bool :=
  (Cirrus.cm_depth m =? 0)
  || match Cirrus.programmed_clock m 0 0,
           Cirrus.depth_profile (Cirrus.cm_depth m)
                                (snd (Cirrus.adjust_h (Cirrus.gfx_cfg m))) with
     | (EOK, v), Some _ =>
       Z.abs (Cirrus.vc_freq v - clk (Cirrus.programmed_cfg m)) * 1000
       <=? 3 * clk (Cirrus.programmed_cfg m)
     | _, _ => false
     end.

(** What [cirrus_vmemsz] reports, against the masks of the bits it
    tests. *)
Definition vmemsz_table (a b : Z) : bool :=
  let s := Cirrus.vmemsz_of a b in
  ((s =? 0x100000) || (s =? 0x200000) || (s =? 0x300000) || (s =? 0x400000))
  && Bool.eqb (s =? 0x400000) ((Z.land a 0x98 =? 0x98) && (Z.land b 0x82 =? 0x00))
  && Bool.eqb (s =? 0x300000) ((Z.land a 0x98 =? 0x98) && (Z.land b 0x82 =? 0x02))
  && Bool.eqb (s =? 0x200000)
       ((Z.land a 0x18 =? 0x18) && Bool.eqb (Z.land a 0x80 =? 0x80) (Z.land b 0x80 =? 0x80)).

(** The overflow register, CRTC 7, as [vga_mode] composes it from
    vertical total - 2, display end, sync start - 1 and blanking
    start - 1. *)
Definition overflow (X R S B : Z) : Z :=
  u8 (Z.lor
    (u8 (Z.lor (Z.lor (Z.lor
       (Z.shiftr (Z.land X 0x100) 8)
       (Z.shiftr (Z.land R 0x100) 7))
       (Z.shiftr (Z.land S 0x100) 6))
       (Z.shiftr (Z.land B 0x100) 5)))
    (Z.lor (Z.lor (Z.lor
       (Z.shiftr (Z.land X 0x200) 4)
       (Z.shiftr (Z.land R 0x200) 3))
       (Z.shiftr (Z.land S 0x200) 2))
       0x10)).

(** The maximum scan line register, CRTC 9, likewise. *)
Definition max_scan (m : vga_mode_t) (B : Z) : Z :=
  let c := u8 (Z.lor (Z.shiftr (Z.land B 0x200) 4) 0x40) in
  let c := if testflag (flags m) VGA_DBLSCAN then u8 (Z.lor c 0x80) else c in
  if 32 <=? vscan m then u8 (Z.lor c 0x1f)
  else if 1 <? vscan m then u8 (Z.lor c (u32 (vscan m - 1)))
  else c.

(** What a stage that works on the CRT controller bank only leaves
    alone. *)
Definition same_but_crtc (y x : vga_state_t) : Prop :=
  misc y = misc x /\ seq_ y = seq_ x /\ gfx y = gfx x /\ attr y = attr x
  /\ cmap y = cmap x /\ text y = text x /\ font1 y = font1 x /\ font2 y = font2 x.

(** Two images hold the same registers, as far as [vga_restore] reads
    them, and the same buffers. *)
Definition same_image (s s' : vga_state_t) : Prop :=
  misc s = misc s'
  /\ (forall i, (i < 25)%nat -> crtc s i = crtc s' i)
  /\ (forall i, (1 <= i < 5)%nat -> seq_ s i = seq_ s' i)
  /\ (forall i, (i < 9)%nat -> gfx s i = gfx s' i)
  /\ (forall i, (i < 21)%nat -> attr s i = attr s' i)
  /\ cmap s = cmap s' /\ text s = text s' /\ font1 s = font1 s' /\ font2 s = font2 s'.

(** The lookup of [vgadev_mode], request by request. *)
Definition vgadev_index (mode : graph_mode_t) (freq : graph_freq_t) : Cirrus.scan_result :=
  match mode with
  | GRAPH_DEFMODE => Cirrus.Found 5
  | GRAPH_ON => Cirrus.Found 0
  | GRAPH_OFF => Cirrus.Found 1
  | GRAPH_STANDBY => Cirrus.Found 2
  | GRAPH_SUSPEND => Cirrus.Found 3
  | GRAPH_320x200x8 =>
    match freq with
    | GRAPH_DEFFREQ | GRAPH_70Hz => Cirrus.Found 4
    | _ => Cirrus.NotSup
    end
  | _ => Cirrus.NotSup
  end.

(** *** The parts of [vgadev_mode] *)

(** Power management mode (DPMS), with the two bytes of the entry. *)
Definition vgadev_power `{Adapter} (s c : Z) (graph : graph_t) : M (retcode * graph_t) :=
  vga_writeseq 0x00 0x01 ;;
  v <- vga_readseq 0x01 ;;
  vga_writeseq 0x01 (Z.lor (Z.land v (Z.lnot 0x20)) s) ;;
  v <- vga_readcrtc 0x17 ;;
  vga_writecrtc 0x17 (Z.lor (Z.land v (Z.lnot 0x80)) c) ;;
  vga_writeseq 0x00 0x03 ;;
  ret (EOK, graph).

(** Initialize VGA state, program mode, then update graph data and
    clear screen. *)
Definition vgadev_program `{Adapter} (st0 : vga_state_t) (m : Vgadev.vgadev_mode_t)
  : M (retcode * graph_t) :=
  let st := set_buffers (vga_mode 0 (Vgadev.gfx_cfg m) st0) None None None None in
  vga_mlock ;;
  vga_restoremode st ;;
  vga_munlock ;;
  let graph := mk_graph (hres (Vgadev.gfx_cfg m)) (vres (Vgadev.gfx_cfg m))
                        (Vgadev.vm_depth m) in
  access (EvMemSet (u32 (u32 (width graph * height graph) * depth graph))) ;;
  ret (EOK, graph).

(** [c] leaves the frame buffer alone. *)
Definition quiet `{Adapter} {A} (c : M A) : Prop :=
  forall w, w_vmem (snd (c w)) = w_vmem w.

(** The accesses of [cirrus_restore] before it restores the base state. *)
Definition cirrus_restore_events (st : Cirrus.cirrus_state_t) : list event :=
  [ EvWrite CRTC 0x1a (u8 (Cirrus.cr1a st)); EvWrite CRTC 0x1b (u8 (Cirrus.cr1b st));
    EvWrite CRTC 0x1d (u8 (Cirrus.cr1d st));
    EvWrite SEQ 0x07 (u8 (Cirrus.sr07 st)); EvWrite SEQ 0x0e (u8 (Cirrus.sr0e st));
    EvWrite SEQ 0x12 (u8 (Cirrus.sr12 st)); EvWrite SEQ 0x13 (u8 (Cirrus.sr13 st));
    EvWrite SEQ 0x17 (u8 (Cirrus.sr17 st)); EvWrite SEQ 0x1e (u8 (Cirrus.sr1e st));
    EvWrite SEQ 0x21 (u8 (Cirrus.sr21 st)); EvWrite SEQ 0x2d (u8 (Cirrus.sr2d st));
    EvWrite GFX 0x17 (u8 (Cirrus.gr17 st)); EvWrite GFX 0x18 (u8 (Cirrus.gr18 st));
    EvRead DAC 0x00; EvRead DAC 0x00; EvRead DAC 0x00; EvRead DAC 0x00;
    EvWrite DAC 0x00 (u8 (Cirrus.hdr st)) ].

(** The accesses of [cirrus_save] after it has saved the base state. *)
Definition cirrus_save_events : list event :=
  [ EvRead CRTC 0x1a; EvRead CRTC 0x1b; EvRead CRTC 0x1d;
    EvRead SEQ 0x07; EvRead SEQ 0x0e; EvRead SEQ 0x12; EvRead SEQ 0x13;
    EvRead SEQ 0x17; EvRead SEQ 0x1e; EvRead SEQ 0x21; EvRead SEQ 0x2d;
    EvRead GFX 0x17; EvRead GFX 0x18;
    EvRead DAC 0x00; EvRead DAC 0x00; EvRead DAC 0x00; EvRead DAC 0x00;
    EvRead DAC 0x00 ].

(** [c] adds the accesses [pre] to the log, then accesses of the kind
    [P]. *)
Definition logs_then `{Adapter} {A} (pre : list event) (P : event -> bool) (c : M A) : Prop :=
  forall w, exists t,
    forallb P t = true /\ w_log (snd (c w)) = w_log w ++ pre ++ t.

(** *** What was read and what is written back *)

(** The bytes the register reads among [l] return, the adapter starting
    at [h]. *)
Fixpoint answers `{Adapter} (h : hw) (l : list event) : list Z :=
  match l with
  | [] => []
  | e :: r =>
    match e with
    | EvRead p reg => [u8 (hw_in h p reg)]
    | _ => []
    end ++ answers (hw_next h e) r
  end.

(** The register reads among [l]: port and index. *)
Definition register_reads (l : list event) : list (port * Z) :=
  flat_map (fun e => match e with EvRead p reg => [(p, reg)] | _ => [] end) l.

(** The register writes among [l]: port, index and byte. *)
Definition register_writes (l : list event) : list (port * Z * Z) :=
  flat_map (fun e => match e with EvWrite p reg v => [(p, reg, v)] | _ => [] end) l.

(** Every register read of [l] turned into the write of the byte it
    returned. *)
Definition echo `{Adapter} (h : hw) (l : list event) : list (port * Z * Z) :=
  combine (register_reads l) (answers h l).

(** One turn of the loop of [vga_savecmap], and its accesses. *)
Definition cmap_body `{Adapter} (i : nat) (buf : array) : M array :=
  v <- vga_readdac 0x03 ;;
  (* DAC delay *)
  vga_status ;;
  vga_status ;;
  ret (aset buf i v).

Definition dac_read (_ : nat) : list event := [EvRead DAC 0x03; EvStatus; EvStatus].

(** [c] only adds to the log and leaves the frame buffer alone. *)
Definition calm `{Adapter} {A} (c : M A) : Prop :=
  forall w, exists t, w_log (snd (c w)) = w_log w ++ t /\ w_vmem (snd (c w)) = w_vmem w.

(** [c] is calm and its last accesses are [tail v], for a byte [v] whose
    bit 5 is clear. *)
Definition closes `{Adapter} {A} (tail : Z -> list event) (c : M A) : Prop :=
  forall w, exists t v,
    w_log (snd (c w)) = w_log w ++ t ++ tail v
    /\ Z.testbit v 5 = false
    /\ w_vmem (snd (c w)) = w_vmem w.

(** The registers [vga_copytext] reads on entry. *)
Definition copytext_entry : list event :=
  [EvRead MISC 0; EvRead GFX 0x01; EvRead GFX 0x03; EvRead GFX 0x04; EvRead GFX 0x05;
   EvRead GFX 0x06; EvRead GFX 0x08; EvRead SEQ 0x02; EvRead SEQ 0x04].

(** The accesses [vga_copytext] ends with, given the bytes it read on
    entry and the byte [v] its [vga_unblank] writes. *)
Definition copytext_exit (misc_ gr01 gr03 gr04 gr05 gr06 gr08 sr02 sr04 v : Z) : list event :=
  [EvWrite SEQ 0x04 sr04; EvWrite SEQ 0x02 sr02;
   EvWrite GFX 0x08 gr08; EvWrite GFX 0x06 gr06; EvWrite GFX 0x05 gr05;
   EvWrite GFX 0x04 gr04; EvWrite GFX 0x03 gr03; EvWrite GFX 0x01 gr01;
   EvWrite MISC 0 misc_;
   EvRead SEQ 0x01; EvWrite SEQ 0x00 0x01; EvWrite SEQ 0x01 v; EvWrite SEQ 0x00 0x03].

(** The accesses of [vga_copytext] for an image without buffers: the
    registers are read, the planes are set up, nothing is copied and the
    registers are put back.  [bl] and [ub] are the bytes [vga_blank] and
    [vga_unblank] write. *)
Definition copytext_bare (misc_ gr01 gr03 gr04 gr05 gr06 gr08 sr02 sr04 bl ub : Z)
  : list event :=
  copytext_entry
  ++ [EvWrite MISC 0 (u8 (Z.lor misc_ 0x01));
      EvRead SEQ 0x01; EvWrite SEQ 0x00 0x01; EvWrite SEQ 0x01 bl; EvWrite SEQ 0x00 0x03;
      EvWrite SEQ 0x04 0x06; EvWrite GFX 0x01 0x00; EvWrite GFX 0x03 0x00;
      EvWrite GFX 0x05 0x00; EvWrite GFX 0x06 0x05; EvWrite GFX 0x08 0xff]
  ++ copytext_exit misc_ gr01 gr03 gr04 gr05 gr06 gr08 sr02 sr04 ub.

(** The register image [img] of the graphics entry [m] holds its
    horizontal and vertical timings and its pitch without loss. *)
Definition fits_registers (img : Cirrus.cirrus_state_t) (m : Cirrus.cirrus_mode_t) : bool :=
  let cfg := Cirrus.programmed_cfg m in
  let s := Cirrus.state img in
  let '(v_res, v_syncs, v_synce, v_total) := Timing.vertical cfg in
  let bit reg n := Z.b2z (Z.testbit (crtc s reg) n) in
  (crtc s 0%nat =? htotal cfg / 8 - 5)
  && (crtc s 1%nat =? hres cfg / 8 - 1)
  && (crtc s 4%nat =? hsyncs cfg / 8 - 1)
  && (v_total - 2 =? crtc s 6%nat + 256 * bit 7%nat 0 + 512 * bit 7%nat 5)
  && (v_res - 1 =? crtc s 18%nat + 256 * bit 7%nat 1 + 512 * bit 7%nat 6)
  && (v_syncs - 1 =? crtc s 16%nat + 256 * bit 7%nat 2 + 512 * bit 7%nat 7)
  && (hres (Cirrus.gfx_cfg m) * Cirrus.cm_depth m
      =? 8 * (crtc s 0x13%nat + 256 * Z.b2z (Z.testbit (Cirrus.cr1b img) 4)
              + 512 * Z.b2z (Z.testbit (Cirrus.cr1b img) 6))).

(* ================================================================= *)
(** * Properties *)

Import Cirrus.

(** ** Machine integers *)

Lemma u32_id x : 0 <= x < 4294967296 -> u32 x = x.
Proof. intros; unfold u32; apply Z.mod_small; lia. Qed.

Lemma u8_id x : 0 <= x < 256 -> u8 x = x.
Proof. intros; unfold u8; apply Z.mod_small; lia. Qed.

Lemma to_int_id x : 0 <= x < 2147483648 -> to_int x = x.
Proof.
  intros Hx. unfold to_int. rewrite u32_id by lia.
  destruct (Z.ltb_spec x 2147483648); lia.
Qed.

Lemma absdiff_abs a b :
  0 <= a < 2147483648 -> 0 <= b < 2147483648 -> absdiff a b = Z.abs (a - b).
Proof.
  intros Ha Hb. unfold absdiff, c_abs.
  rewrite (to_int_id a), (to_int_id b) by lia.
  assert (E : to_int (a - b) = a - b).
  { unfold to_int, u32.
    destruct (Z.ltb_spec ((a - b) mod 4294967296) 2147483648) as [H|H].
    - destruct (Z_lt_le_dec (a - b) 0).
      + replace (a - b) with ((a - b + 4294967296) + (-1) * 4294967296) in H by lia.
        rewrite Z.mod_add, Z.mod_small in H; lia.
      + apply Z.mod_small; lia.
    - destruct (Z_lt_le_dec (a - b) 0).
      + replace (a - b) with ((a - b + 4294967296) + (-1) * 4294967296) at 1 by lia.
        rewrite Z.mod_add, Z.mod_small; lia.
      + rewrite Z.mod_small in H; lia. }
  rewrite E, to_int_id, u32_id; lia.
Qed.

Lemma cirrus_vco_range n d : 0 <= cirrus_vco n d <= 3636772.
Proof.
  unfold cirrus_vco, MIN_VCLK.
  assert (Hn : 0 <= Z.land n 0x7f <= 127).
  { rewrite (Z.land_ones n 7 ltac:(lia) : Z.land n 0x7f = n mod 128).
    assert (H := Z.mod_pos_bound n 128). lia. }
  assert (Hd : 0 <= Z.land d 0x3e) by (apply Z.land_nonneg; lia).
  rewrite (u32_id (_ * _)) by lia.
  assert (Hq : 0 <= Z.land n 127 * 28636 / Z.land d 62 <= Z.land n 127 * 28636).
  { destruct (Z.eq_dec (Z.land d 62) 0) as [->|Hz].
    - rewrite Z.div_0_r. lia.
    - split; [apply Z.div_pos; lia|apply Z.div_le_upper_bound; nia]. }
  rewrite u32_id; lia.
Qed.

Section Search.

Variables maxvclk freq : Z.

Local Abbreviation try_ := (fun st (c : Z * Z) => vclk_try maxvclk freq st (fst c) (snd c)).
Local Abbreviation dist := (fun c : Z * Z => absdiff (achieved (fst c) (snd c)) freq).
Local Abbreviation pick :=
  (fun c : Z * Z => mk_vclk (achieved (fst c) (snd c)) (u8 (fst c)) (u8 (snd c))).
Local Abbreviation ok := (fun c : Z * Z => stable maxvclk (fst c) (snd c) = true).

Lemma vclk_try_cases st c :
  (try_ st c = (pick c, dist c) /\ ok c /\ dist c < snd st)
  \/ (try_ st c = st /\ (ok c -> snd st <= dist c)).
Proof.
  unfold vclk_try, stable, achieved.
  destruct ((cirrus_vco (fst c) (snd c) <? MIN_VCLK)
            || (maxvclk <? cirrus_vco (fst c) (snd c))); simpl.
  - right. split; [reflexivity | discriminate].
  - destruct (Z.ltb_spec (absdiff (Z.shiftr (cirrus_vco (fst c) (snd c))
                                            (Z.land (snd c) 1)) freq) (snd st)).
    + left. auto.
    + right. auto.
Qed.

Lemma vclk_search_flat st :
  vclk_search maxvclk freq st = fold_left try_ candidates st.
Proof.
  unfold vclk_search, candidates.
  generalize (Zseq 0x14 43) as ds. generalize (Zseq 0x10 111) as ns.
  intros ns; revert st.
  induction ns as [|n ns IH]; intros st ds; simpl; [reflexivity|].
  rewrite fold_left_app, IH. f_equal.
  clear. revert st. induction ds as [|d ds IH]; intros st; simpl; [reflexivity|].
  apply IH.
Qed.

Lemma fold_try_inv l : forall st,
  (fold_left try_ l st = st
   /\ forall c, In c l -> ok c -> snd st <= dist c)
  \/ exists l1 c l2,
       l = l1 ++ c :: l2 /\ ok c
       /\ fold_left try_ l st = (pick c, dist c)
       /\ dist c < snd st
       /\ (forall c', In c' l1 -> ok c' -> dist c < dist c')
       /\ (forall c', In c' l2 -> ok c' -> dist c <= dist c').
Proof.
  induction l as [|a l IH]; intros st; simpl.
  - left. split; [reflexivity | intros c []].
  - destruct (vclk_try_cases st a) as [(E & Ha & Hlt) | (E & Hge)]; rewrite E.
    + right. destruct (IH (pick a, dist a)) as [(E' & Hall) | (l1 & c & l2 & -> & Hc & E' & Hd & H1 & H2)].
      * exists [], a, l. rewrite E'. simpl in Hall. repeat split; auto. intros c' [].
      * exists (a :: l1), c, l2. simpl in Hd. repeat split; auto; try lia.
        intros c' [<-|Hin] Hok; [lia | auto].
    + destruct (IH st) as [(E' & Hall) | (l1 & c & l2 & -> & Hc & E' & Hd & H1 & H2)].
      * left. split; [assumption|]. intros c [<-|Hin] Hok; auto.
      * right. exists (a :: l1), c, l2. repeat split; auto.
        intros c' [<-|Hin] Hok; [specialize (Hge Hok); lia | auto].
Qed.

End Search.

Lemma lex_ltb_spec a b : lex_ltb a b = true -> lex_lt a b.
Proof.
  unfold lex_ltb, lex_lt. intros H.
  apply orb_true_iff in H. destruct H as [H|H].
  - left. apply Z.ltb_lt, H.
  - right. apply andb_true_iff in H. destruct H as [H1 H2].
    split; [apply Z.eqb_eq, H1 | apply Z.ltb_lt, H2].
Qed.

Lemma lex_lt_trans a b c : lex_lt a b -> lex_lt b c -> lex_lt a c.
Proof. unfold lex_lt. lia. Qed.

Lemma ascending_sorted l : forall x, ascending x l = true -> Sorted lex_lt (x :: l).
Proof.
  induction l as [|y l IH]; intros x H; simpl in H.
  - repeat constructor.
  - apply andb_true_iff in H. destruct H as [H1 H2].
    constructor; [apply IH, H2 | constructor; apply lex_ltb_spec, H1].
Qed.

Lemma candidates_sorted : StronglySorted lex_lt candidates.
Proof.
  apply Sorted_StronglySorted; [exact lex_lt_trans|].
  change candidates with (hd (0, 0) candidates :: tl candidates).
  apply ascending_sorted. vm_compute. reflexivity.
Qed.

Lemma sorted_split l1 c l2 :
  StronglySorted lex_lt (l1 ++ c :: l2) -> forall c', In c' l2 -> lex_lt c c'.
Proof.
  induction l1 as [|a l1 IH]; simpl; intros H c' Hin.
  - apply StronglySorted_inv in H. destruct H as [_ H].
    rewrite Forall_forall in H. auto.
  - apply StronglySorted_inv in H. destruct H as [H _]. auto.
Qed.

Lemma In_Zseq x lo len : In x (Zseq lo len) <-> lo <= x < lo + Z.of_nat len.
Proof.
  unfold Zseq. rewrite in_map_iff. split.
  - intros (k & <- & Hk). apply in_seq in Hk. lia.
  - intros H. exists (Z.to_nat (x - lo)). split; [lia|]. apply in_seq. lia.
Qed.

Lemma In_candidates n d :
  In (n, d) candidates <-> (0x10 <= n < 0x7f /\ 0x14 <= d < 0x3f).
Proof.
  unfold candidates. rewrite in_flat_map. split.
  - intros (n' & Hn & Hd). apply in_map_iff in Hd. destruct Hd as (d' & E & Hd).
    inversion E; subst. apply In_Zseq in Hn, Hd. lia.
  - intros [Hn Hd]. exists n. split; [apply In_Zseq; lia|].
    apply in_map. apply In_Zseq; lia.
Qed.

Lemma cirrus_vco_plain n d :
  cirrus_vco n d = Z.land n 0x7f * MIN_VCLK / Z.land d 0x3e.
Proof.
  unfold cirrus_vco, MIN_VCLK.
  assert (Hn : 0 <= Z.land n 0x7f <= 127).
  { rewrite (Z.land_ones n 7 ltac:(lia) : Z.land n 0x7f = n mod 128).
    assert (H := Z.mod_pos_bound n 128). lia. }
  assert (Hd : 0 <= Z.land d 0x3e) by (apply Z.land_nonneg; lia).
  rewrite (u32_id (_ * _)) by lia.
  apply u32_id.
  destruct (Z.eq_dec (Z.land d 62) 0) as [->|Hz].
  - rewrite Z.div_0_r. lia.
  - split; [apply Z.div_pos; lia|].
    apply Z.le_lt_trans with (Z.land n 127 * 28636); [apply Z.div_le_upper_bound; nia | lia].
Qed.

Lemma land_1_cases d : Z.land d 1 = 0 \/ Z.land d 1 = 1.
Proof.
  rewrite (Z.land_ones d 1 ltac:(lia) : Z.land d 1 = d mod 2).
  assert (H := Z.mod_pos_bound d 2). lia.
Qed.

Lemma achieved_range n d : 0 <= achieved n d <= cirrus_vco n d.
Proof.
  unfold achieved. assert (H := cirrus_vco_range n d).
  destruct (land_1_cases d) as [-> | ->].
  - rewrite Z.shiftr_0_r. lia.
  - rewrite Z.shiftr_div_pow2 by lia. change (2 ^ 1) with 2.
    split; [apply Z.div_pos; lia | apply Z.div_le_upper_bound; lia].
Qed.

Lemma achieved_pos n d : MIN_VCLK <= cirrus_vco n d -> 0 < achieved n d.
Proof.
  unfold achieved, MIN_VCLK. intros H.
  destruct (land_1_cases d) as [-> | ->].
  - rewrite Z.shiftr_0_r. lia.
  - rewrite Z.shiftr_div_pow2 by lia. change (2 ^ 1) with 2.
    apply Z.div_str_pos. lia.
Qed.

Lemma stable_iff maxvclk n d :
  stable maxvclk n d = true <-> MIN_VCLK <= cirrus_vco n d <= maxvclk.
Proof.
  unfold stable. rewrite negb_true_iff, orb_false_iff, !Z.ltb_ge. lia.
Qed.

Lemma ceiling_max maxvclk :
  (if maxvclk <? MAX_VCLK then MAX_VCLK else maxvclk) = Z.max maxvclk MAX_VCLK.
Proof. destruct (Z.ltb_spec maxvclk MAX_VCLK); lia. Qed.

Lemma vclk_scan_In tbl freq e : vclk_scan tbl freq = Some e -> In e tbl /\ vc_freq e <> 0.
Proof.
  induction tbl as [|a tbl IH]; simpl; [discriminate|].
  destruct (Z.eqb_spec (vc_freq a) 0); [discriminate|].
  destruct (absdiff (vc_freq a) freq <? freq / 1000).
  - intros E; inversion E; subst. auto.
  - intros E. destruct (IH E). auto.
Qed.

(** What [cirrus_vclk] returns when no table entry matches. *)
Lemma cirrus_vclk_search maxvclk vclk :
  vclk_scan vclks (vc_freq vclk) = None ->
  let freq := vc_freq vclk in
  let ceiling := Z.max maxvclk MAX_VCLK in
  (fst (cirrus_vclk maxvclk vclk) = Err EINVAL
   /\ forall c, In c candidates -> stable ceiling (fst c) (snd c) = true ->
        freq <= absdiff (achieved (fst c) (snd c)) freq)
  \/ exists l1 n d l2,
       candidates = l1 ++ (n, d) :: l2
       /\ stable ceiling n d = true
       /\ cirrus_vclk maxvclk vclk = (EOK, mk_vclk (achieved n d) n d)
       /\ (forall c, In c l1 -> stable ceiling (fst c) (snd c) = true ->
             absdiff (achieved n d) freq < absdiff (achieved (fst c) (snd c)) freq)
       /\ (forall c, In c l2 -> stable ceiling (fst c) (snd c) = true ->
             absdiff (achieved n d) freq <= absdiff (achieved (fst c) (snd c)) freq).
Proof.
  intros Hscan freq ceiling. unfold cirrus_vclk. cbv zeta. rewrite Hscan.
  rewrite ceiling_max. fold ceiling freq. rewrite vclk_search_flat.
  destruct (fold_try_inv ceiling freq candidates
              (mk_vclk 0 (vc_num vclk) (vc_den vclk), freq))
    as [(E & Hall) | (l1 & [n d] & l2 & Hl & Hc & E & Hd & H1 & H2)];
    rewrite E; cbn [fst snd vc_freq] in *.
  - left. split; [reflexivity | exact Hall].
  - right. exists l1, n, d, l2.
    assert (Hin : In (n, d) candidates) by (rewrite Hl; apply in_elt).
    apply In_candidates in Hin.
    rewrite !u8_id by lia.
    apply stable_iff in Hc as Hband.
    assert (Hpos := achieved_pos n d (proj1 Hband)).
    destruct (Z.eqb_spec (achieved n d) 0); [lia|].
    repeat split; auto.
Qed.

(** C1 (amended).  For a target frequency below 2^31 kHz that matches no
    entry of the table of known stable clocks, and any per-depth ceiling,
    the effective ceiling is [max(per-depth ceiling, MAX_VCLK)].  When
    [cirrus_vclk] succeeds, the clock it returns is a pair of a numerator
    in [0x10, 0x7f) and a denominator in [0x14, 0x3f) whose VCO lies in
    [MIN_VCLK, effective ceiling], its frequency is the VCO halved when
    the denominator is odd, no such pair in the band is nearer to the
    target, and a pair in the band at the same distance comes later in
    the iteration (ascending numerator, then ascending denominator).
    When no pair lies in the band, [cirrus_vclk] fails with [-EINVAL]. *)
Theorem vclk_search_best maxvclk vclk :
  0 <= vc_freq vclk < 2147483648 ->
  vclk_scan vclks (vc_freq vclk) = None ->
  let freq := vc_freq vclk in
  let ceiling := Z.max maxvclk MAX_VCLK in
  (forall r, cirrus_vclk maxvclk vclk = (EOK, r) ->
     (0x10 <= vc_num r < 0x7f /\ 0x14 <= vc_den r < 0x3f)
     /\ MIN_VCLK <= cirrus_vco (vc_num r) (vc_den r) <= ceiling
     /\ vc_freq r = achieved (vc_num r) (vc_den r)
     /\ forall n d, 0x10 <= n < 0x7f -> 0x14 <= d < 0x3f ->
          MIN_VCLK <= cirrus_vco n d <= ceiling ->
          Z.abs (vc_freq r - freq) <= Z.abs (achieved n d - freq)
          /\ (Z.abs (achieved n d - freq) = Z.abs (vc_freq r - freq) ->
              vc_num r < n \/ (vc_num r = n /\ vc_den r <= d)))
  /\ ((forall n d, 0x10 <= n < 0x7f -> 0x14 <= d < 0x3f ->
         ~ MIN_VCLK <= cirrus_vco n d <= ceiling) ->
      fst (cirrus_vclk maxvclk vclk) = Err EINVAL).
Proof.
  intros Hf Hscan freq ceiling.
  assert (Habs : forall n d, absdiff (achieved n d) freq = Z.abs (achieved n d - freq)).
  { intros n d. apply absdiff_abs; [|exact Hf].
    assert (H1 := achieved_range n d). assert (H2 := cirrus_vco_range n d). lia. }
  destruct (cirrus_vclk_search maxvclk vclk Hscan)
    as [(E & Hall) | (l1 & n & d & l2 & Hl & Hc & E & H1 & H2)];
    fold freq ceiling in E, Hc, H1, H2 || fold freq ceiling in E, Hall.
  - split; [|intros _; exact E].
    intros r Hr. rewrite Hr in E. discriminate.
  - assert (Hin : In (n, d) candidates) by (rewrite Hl; apply in_elt).
    apply In_candidates in Hin. apply stable_iff in Hc.
    split.
    + intros r Hr. rewrite E in Hr. inversion Hr; subst r; clear Hr. cbn [vc_freq vc_num vc_den].
      split; [lia|]. split; [exact Hc|]. split; [reflexivity|].
      intros n' d' Hn' Hd' Hband. rewrite <- !Habs.
      assert (Hin' : In (n', d') candidates) by (apply In_candidates; lia).
      rewrite Hl in Hin'. apply in_app_or in Hin'.
      apply stable_iff in Hband.
      destruct Hin' as [Hin' | [Heq | Hin']].
      * specialize (H1 _ Hin' Hband). cbn [fst snd] in H1. lia.
      * inversion Heq; subst. lia.
      * specialize (H2 _ Hin' Hband). cbn [fst snd] in H2.
        split; [lia|]. intros _.
        assert (Hs := candidates_sorted). rewrite Hl in Hs.
        assert (Hlt := sorted_split _ _ _ Hs _ Hin'). unfold lex_lt in Hlt.
        cbn [fst snd] in Hlt. lia.
    + intros Hnone. exfalso. apply (Hnone n d); tauto.
Qed.

(** C2 (amended).  Whenever [cirrus_vclk] succeeds, from the table or from
    the search, the frequency it returns is
    [(num & 0x7f) * MIN_VCLK / (den & 0x3e)] shifted right by one bit when
    the denominator is odd; when the result comes from the search (no
    table entry matched), that VCO also lies between [MIN_VCLK] and the
    effective maximum [max(per-depth ceiling, MAX_VCLK)]. *)
Theorem vclk_invariant maxvclk vclk r :
  cirrus_vclk maxvclk vclk = (EOK, r) ->
  vc_freq r = Z.shiftr (Z.land (vc_num r) 0x7f * MIN_VCLK / Z.land (vc_den r) 0x3e)
                       (Z.land (vc_den r) 0x1)
  /\ (vclk_scan vclks (vc_freq vclk) = None ->
      MIN_VCLK <= Z.land (vc_num r) 0x7f * MIN_VCLK / Z.land (vc_den r) 0x3e
               <= Z.max maxvclk MAX_VCLK).
Proof.
  intros Hr. rewrite <- cirrus_vco_plain.
  destruct (vclk_scan vclks (vc_freq vclk)) as [e|] eqn:Hscan.
  - split; [|discriminate].
    unfold cirrus_vclk in Hr. cbv zeta in Hr. rewrite Hscan in Hr.
    inversion Hr; subst r; clear Hr.
    apply vclk_scan_In in Hscan. destruct Hscan as [Hin _].
    assert (Htbl : Forall (fun e => vc_freq e = achieved (vc_num e) (vc_den e)) vclks).
    { repeat constructor. }
    rewrite Forall_forall in Htbl. apply Htbl, Hin.
  - destruct (cirrus_vclk_search maxvclk vclk Hscan)
      as [(E & _) | (l1 & n & d & l2 & Hl & Hc & E & _)].
    + rewrite Hr in E. discriminate.
    + rewrite E in Hr. inversion Hr; subst r; clear Hr. cbn [vc_freq vc_num vc_den].
      split; [reflexivity|]. intros _. apply stable_iff, Hc.
Qed.

(** ** Timing synthesis *)

Lemma crtc_if (b : bool) s1 s2 i :
  crtc (if b then s1 else s2) i = if b then crtc s1 i else crtc s2 i.
Proof. destruct b; reflexivity. Qed.

Lemma if_same {A} (b : bool) (x : A) : (if b then x else x) = x.
Proof. destruct b; reflexivity. Qed.

Lemma land_ff x : u8 (Z.land x 0xff) = Z.land x 0xff.
Proof.
  rewrite (Z.land_ones x 8 ltac:(lia) : Z.land x 0xff = x mod 256).
  unfold u8. apply Z.mod_mod. lia.
Qed.

Lemma vertical_adjust m :
  Timing.vertical m
  = (VerticalSpec.adjust m (vres m), VerticalSpec.adjust m (vsyncs m),
     VerticalSpec.adjust m (vsynce m), VerticalSpec.adjust m (vtotal m)).
Proof.
  unfold Timing.vertical, VerticalSpec.adjust, VerticalSpec.scan_multiply,
    VerticalSpec.interlace, VerticalSpec.double_scan, Timing.quad_map.
  destruct (testflag (flags m) VGA_DBLSCAN), (testflag (flags m) VGA_INTERLACE),
    (1 <? vscan m); cbv zeta;
    rewrite ?Z.shiftl_mul_pow2, ?Z.shiftr_div_pow2 by lia;
    change (2 ^ 1) with 2; rewrite ?(Z.mul_comm _ 2); reflexivity.
Qed.

Lemma mode_crtc_vertical m v hb vb st :
  let '(v_res, v_syncs, v_synce, v_total) := v in
  let s := mode_crtc m v hb vb st in
  crtc s 6%nat = Z.land (u32 (v_total - 2)) 0xff
  /\ crtc s 16%nat = Z.land (u32 (v_syncs - 1)) 0xff
  /\ crtc s 18%nat = Z.land (u32 (v_res - 1)) 0xff
  /\ crtc s 17%nat = u8 (Z.lor (Z.land (u32 (v_synce - 1)) 0x0f) 0x20)
  /\ crtc s 21%nat = Z.land (u32 (fst vb - 1)) 0xff.
Proof.
  destruct v as [[[v_res v_syncs] v_synce] v_total], hb as [hbs hbe], vb as [vbs vbe].
  unfold mode_crtc. cbv zeta.
  cbn [crtc set_crtc aset Nat.eqb fst].
  repeat (rewrite !crtc_if; cbn [crtc set_crtc aset Nat.eqb]; rewrite ?if_same).
  rewrite !land_ff. auto.
Qed.

Lemma lor_nibble_20 x : u8 (Z.lor (Z.land x 0x0f) 0x20) = Z.lor (Z.land x 0x0f) 0x20.
Proof.
  rewrite (Z.land_ones x 4 ltac:(lia) : Z.land x 0x0f = x mod 16).
  assert (H := Z.mod_pos_bound x 16 ltac:(lia)).
  assert (E : x mod 16 = 0 \/ x mod 16 = 1 \/ x mod 16 = 2 \/ x mod 16 = 3
           \/ x mod 16 = 4 \/ x mod 16 = 5 \/ x mod 16 = 6 \/ x mod 16 = 7
           \/ x mod 16 = 8 \/ x mod 16 = 9 \/ x mod 16 = 10 \/ x mod 16 = 11
           \/ x mod 16 = 12 \/ x mod 16 = 13 \/ x mod 16 = 14 \/ x mod 16 = 15) by lia.
  repeat (destruct E as [E | E]; [rewrite E; reflexivity|]).
  rewrite E; reflexivity.
Qed.

Lemma fix_hblank_crtc m hb s i :
  i <> 3%nat -> i <> 5%nat -> crtc (fix_hblank m hb s) i = crtc s i.
Proof.
  intros H3 H5. unfold fix_hblank. destruct hb as [hbs hbe].
  rewrite crtc_if. cbn [crtc set_crtc]. unfold aset.
  destruct (Nat.eqb_spec i 5); [contradiction|].
  destruct (Nat.eqb_spec i 3); [contradiction|].
  apply if_same.
Qed.

Lemma fix_vblank_crtc m vb s i :
  i <> 22%nat -> crtc (fix_vblank m vb s) i = crtc s i.
Proof.
  intros H. unfold fix_vblank. destruct vb as [vbs vbe].
  rewrite crtc_if. cbn [crtc set_crtc]. unfold aset.
  destruct (Nat.eqb_spec i 22); [contradiction|].
  apply if_same.
Qed.

Lemma vga_mode_crtc clkidx m st i :
  i <> 3%nat -> i <> 5%nat -> i <> 22%nat ->
  crtc (vga_mode clkidx m st) i
  = crtc (mode_crtc m (Timing.vertical m) (Timing.hblank m) (Timing.vblank m)
                    (mode_seq m (mode_misc clkidx m st))) i.
Proof.
  intros H3 H5 H22. unfold vga_mode. cbv zeta.
  change (crtc (mode_attr (mode_gfx ?s)) i) with (crtc s i).
  rewrite fix_vblank_crtc, fix_hblank_crtc by assumption. reflexivity.
Qed.

(** C5.  [vga_mode] rescales the four vertical quantities (resolution,
    sync start, sync end, total) in this order: doubled when the
    double-scan flag is set, then halved when the interlace flag is set,
    then multiplied by the scan multiplier when it is greater than 1; the
    vertical blanking interval is computed from the values this order
    produces and the CRT controller registers 6, 16, 17, 18 and 21 pack
    them. *)
Theorem vertical_order clkidx m st :
  let V := VerticalSpec.adjust m in
  let s := vga_mode clkidx m st in
  Timing.vertical m = (V (vres m), V (vsyncs m), V (vsynce m), V (vtotal m))
  /\ Timing.vblank m
     = Timing.blank 0x7f (V (vsyncs m)) (V (vres m)) (V (vsynce m)) (V (vtotal m))
  /\ crtc s 6%nat = Z.land (u32 (V (vtotal m) - 2)) 0xff
  /\ crtc s 16%nat = Z.land (u32 (V (vsyncs m) - 1)) 0xff
  /\ crtc s 17%nat = Z.lor (Z.land (u32 (V (vsynce m) - 1)) 0x0f) 0x20
  /\ crtc s 18%nat = Z.land (u32 (V (vres m) - 1)) 0xff
  /\ crtc s 21%nat = Z.land (u32 (fst (Timing.vblank m) - 1)) 0xff.
Proof.
  intros V s. split; [apply vertical_adjust|].
  split; [unfold Timing.vblank; rewrite vertical_adjust; reflexivity|].
  subst s. rewrite !vga_mode_crtc by discriminate.
  assert (H := mode_crtc_vertical m (Timing.vertical m) (Timing.hblank m)
                 (Timing.vblank m) (mode_seq m (mode_misc clkidx m st))).
  rewrite vertical_adjust in H |- *. fold V in H |- *. cbv zeta in H.
  destruct H as (H6 & H16 & H18 & H17 & H21).
  rewrite H6, H16, H18, H17, H21, lor_nibble_20. auto.
Qed.

(** The order counts: with both flags set, doubling before halving
    keeps an odd line count, halving before doubling loses its low bit. *)
Example vertical_order_counts :
  let m := mk_vga_mode 25175 640 656 752 800 0 481 490 492 525 0
                       (Z.lor VGA_DBLSCAN VGA_INTERLACE) in
  VerticalSpec.adjust m (vres m) = 481
  /\ VerticalSpec.double_scan m (VerticalSpec.interlace m (vres m)) = 480.
Proof. split; reflexivity. Qed.



(** So it does for a short interval when the 32-bit sum wraps: with
    resolution and sync start at 4294967196 and sync end and total at
    500, the sum is 404, below 500, and blanking starts at
    (500 - 0x1f8) mod 2^32, past the start of sync. *)
Remark hblank_sum_wraps :
  let m := mk_vga_mode 25175 4294967196 4294967196 500 500 0 480 490 492 525 0 0 in
  Timing.hblank m = (4294967292, 500) /\ ~ (fst (Timing.hblank m) <= hsyncs m).
Proof. split; [reflexivity | vm_compute; intros H; apply H; reflexivity]. Qed.

(** ** The access monad *)

Section Monad.

Context {adapter : Adapter}.

Lemma bind_run {A B} (c : M A) (k : A -> M B) w :
  bind c k w = k (fst (c w)) (snd (c w)).
Proof. unfold bind. destruct (c w). reflexivity. Qed.

(** Whatever a computation ends with holds of the whole sequence. *)
Lemma bind_post {A B} (c : M A) (k : A -> M B) (P : B -> Prop) :
  (forall a w, P (fst (k a w))) -> forall w, P (fst (bind c k w)).
Proof. intros Hk w. rewrite bind_run. apply Hk. Qed.

End Monad.

(** ** Mode setting on the Cirrus adapter *)

Section CirrusMode.

Context {adapter : Adapter}.

(** C3.  A failing [cirrus_mode] (no table match, no clock, depth outside
    1-4) has made no access to the adapter at all: the adapter, the log
    of accesses and the frame buffer are as before the call, and so are
    the reported width, height and depth.  The error is [-ENOTSUP] or
    [-EFAULT]. *)
Theorem cirrus_mode_failure_before_write cdev st0 vclk0 graph mode freq w e graph' w' :
  cirrus_mode cdev st0 vclk0 graph mode freq w = (Some (Err e, graph'), w') ->
  w' = w /\ graph' = graph /\ (e = ENOTSUP \/ e = EFAULT).
Proof.
  unfold cirrus_mode.
  assert (Hok : forall (c : M (option (retcode * graph_t))),
            (forall w0, no_error (fst (c w0))) ->
            c w = (Some (Err e, graph'), w') ->
            w' = w /\ graph' = graph /\ (e = ENOTSUP \/ e = EFAULT)).
  { intros c Hc E. specialize (Hc w). rewrite E in Hc. contradiction. }
  assert (Hret : forall e0, (e0 = ENOTSUP \/ e0 = EFAULT) ->
            ret (Some (Err e0, graph)) w = (Some (Err e, graph'), w') ->
            w' = w /\ graph' = graph /\ (e = ENOTSUP \/ e = EFAULT)).
  { unfold ret. intros e0 He0 E. inversion E; subst. auto. }
  destruct (mode_index mode freq) as [i| |]; try (apply Hret; auto).
  destruct (cm_depth (nth i modes _) =? 0).
  - apply Hok. intros w0.
    apply (bind_post _ _ no_error). intros.
    apply (bind_post _ _ no_error). intros.
    apply (bind_post _ _ no_error). intros.
    apply (bind_post _ _ no_error). intros.
    exact I.
  - destruct (adjust_h _) as [cfg hdiv]. destruct (adjust_v cfg) as [cfg' vdiv].
    destruct (cirrus_vclk _ _) as [[|e0] vclk]; [|apply Hret; auto].
    destruct (depth_profile _ hdiv) as [[add07 hdr_]|]; [|apply Hret; auto].
    apply Hok. intros w0.
    repeat (apply (bind_post _ _ no_error); intros).
    match goal with |- context [if ?b then _ else _] => destruct b end; exact I.
Qed.

Lemma vclk_65000 maxvclk num den :
  cirrus_vclk maxvclk (mk_vclk 65000 num den) = (EOK, mk_vclk 64981 0x76 0x34).
Proof. reflexivity. Qed.

End CirrusMode.

(** ** Mode lookup *)

Lemma graph_mode_beq_eq a b : graph_mode_t_beq a b = true <-> a = b.
Proof. destruct a, b; simpl; split; intros E; try reflexivity; discriminate. Qed.

Lemma graph_mode_beq_neq a b : graph_mode_t_beq a b = false <-> a <> b.
Proof.
  rewrite <- graph_mode_beq_eq. destruct (graph_mode_t_beq a b); split; congruence.
Qed.

(** The loop of [cirrus_mode] over a table closed by a sentinel is a
    first-match search of the entries before the sentinel. *)
Lemma mode_scan_first_match tbl sentinel mode freq :
  Forall (fun e => cm_mode e <> GRAPH_DEFMODE) tbl ->
  cm_mode sentinel = GRAPH_DEFMODE ->
  mode <> GRAPH_DEFMODE ->
  forall i,
    mode_scan (tbl ++ [sentinel]) i mode freq
    = match first_match tbl i mode freq with
      | Some j => Found j
      | None => NotSup
      end.
Proof.
  intros Htbl Hs Hmode. induction Htbl as [|e tbl He _ IH]; intros i; simpl.
  - rewrite Hs.
    destruct (graph_mode_t_beq GRAPH_DEFMODE mode) eqn:E.
    + apply graph_mode_beq_eq in E. congruence.
    + reflexivity.
  - unfold matches.
    destruct (graph_mode_t_beq (cm_mode e) mode); simpl.
    + destruct (cm_depth e =? 0); simpl; [reflexivity|].
      destruct (graph_freq_t_beq freq GRAPH_DEFFREQ); simpl; [reflexivity|].
      destruct (graph_freq_t_beq (gfx_freq e) freq); simpl; [reflexivity|].
      apply graph_mode_beq_neq in He. rewrite He. apply IH.
    + apply graph_mode_beq_neq in He. rewrite He. apply IH.
Qed.

Lemma modes_catalog : modes = catalog ++ [mk_mode GRAPH_DEFMODE 0 (pwm 0 0)].
Proof. reflexivity. Qed.

Lemma catalog_tags : Forall (fun e => cm_mode e <> GRAPH_DEFMODE) catalog.
Proof. repeat constructor; discriminate. Qed.

(** The loop stops inside the table, at a match or at the sentinel. *)
Lemma mode_index_total mode freq : mode_index mode freq <> Overrun.
Proof.
  unfold mode_index. destruct (graph_mode_t_beq mode GRAPH_DEFMODE) eqn:E; [discriminate|].
  apply graph_mode_beq_neq in E. rewrite modes_catalog.
  rewrite (mode_scan_first_match catalog (mk_mode GRAPH_DEFMODE 0 (pwm 0 0)) mode freq
             catalog_tags eq_refl E).
  destruct (first_match catalog 0 mode freq); discriminate.
Qed.

(** Every entry holds the member of the union its depth calls for, and
    graphics entries have a depth of 1 to 4. *)
Lemma modes_members :
  Forall (fun e => match cm_u e with
                   | pwm _ _ => cm_depth e = 0
                   | gfx_ _ k => 1 <= cm_depth e <= 4 /\ (k < 18)%nat
                   end) modes.
Proof. repeat constructor; cbn; lia. Qed.

Lemma first_match_sound tbl mode freq : forall i j,
  first_match tbl i mode freq = Some j ->
  (i <= j < i + length tbl)%nat
  /\ (forall d, matches mode freq (nth (j - i) tbl d) = true)
  /\ (forall k d, (k < j - i)%nat -> matches mode freq (nth k tbl d) = false).
Proof.
  induction tbl as [|e tbl IH]; intros i j; simpl; [discriminate|].
  destruct (matches mode freq e) eqn:E.
  - intros H; inversion H; subst. rewrite Nat.sub_diag. simpl.
    repeat split; auto; lia.
  - intros H. apply IH in H. destruct H as (Hr & Hm & Hbefore).
    split; [lia|]. replace (j - i)%nat with (S (j - S i)) by lia. simpl.
    split; [exact Hm|]. intros [|k] d Hk; [assumption | apply Hbefore; lia].
Qed.

Lemma first_match_none tbl mode freq : forall i,
  first_match tbl i mode freq = None <->
  (forall e, In e tbl -> matches mode freq e = false).
Proof.
  induction tbl as [|e tbl IH]; intros i; simpl.
  - split; [intros _ e [] | reflexivity].
  - destruct (matches mode freq e) eqn:E.
    + split; [discriminate|]. intros H. specialize (H e (or_introl eq_refl)). congruence.
    + rewrite IH. split.
      * intros H e' [<-|Hin]; auto.
      * intros H e' Hin. apply H. auto.
Qed.

Section Lookup.

Context {adapter : Adapter}.

(** C6.  For a request other than [GRAPH_DEFMODE], the loop of
    [cirrus_mode] over the sentinel-terminated table selects the first
    entry of the catalog whose mode tag is the requested one and, when
    the entry has a nonzero depth and a specific refresh rate is asked
    for, whose refresh tag is the requested one too; when no entry
    answers, the call returns [-ENOTSUP] and leaves the reported width,
    height and depth, and the adapter, unchanged. *)
Theorem mode_lookup_first_match cdev st0 vclk0 graph mode freq w :
  mode <> GRAPH_DEFMODE ->
  mode_index mode freq
  = match first_match catalog 0 mode freq with
    | Some i => Found i
    | None => NotSup
    end
  /\ (forall i, first_match catalog 0 mode freq = Some i ->
        (i < length catalog)%nat
        /\ matches mode freq (nth i modes (mk_mode GRAPH_DEFMODE 0 (pwm 0 0))) = true
        /\ forall k, (k < i)%nat ->
             matches mode freq (nth k modes (mk_mode GRAPH_DEFMODE 0 (pwm 0 0))) = false)
  /\ ((forall e, In e catalog -> matches mode freq e = false) ->
      cirrus_mode cdev st0 vclk0 graph mode freq w = (Some (Err ENOTSUP, graph), w)).
Proof.
  intros Hmode.
  assert (Hidx : mode_index mode freq
                 = match first_match catalog 0 mode freq with
                   | Some i => Found i
                   | None => NotSup
                   end).
  { unfold mode_index. apply graph_mode_beq_neq in Hmode as E. rewrite E.
    rewrite modes_catalog.
    apply mode_scan_first_match; [exact catalog_tags | reflexivity | exact Hmode]. }
  split; [exact Hidx|]. split.
  - intros i Hi. apply first_match_sound in Hi. destruct Hi as (Hr & Hm & Hbefore).
    rewrite Nat.sub_0_r in *.
    split; [lia|]. rewrite modes_catalog. split.
    + rewrite app_nth1 by lia. apply Hm.
    + intros k Hk. rewrite app_nth1 by lia. apply Hbefore, Hk.
  - intros Hnone. apply (first_match_none _ _ _ 0%nat) in Hnone.
    unfold cirrus_mode. rewrite Hidx, Hnone. reflexivity.
Qed.

End Lookup.

(** ** Hardware cursor *)

Section Cursor.

Context {adapter : Adapter}.

(** A run of single byte stores, as the inner loops of
    [cirrus_cursorset] make them. *)
Lemma put_run (f : Z -> Z) (src : array) (l : list nat) : forall cur s w,
  let r := for_fold l (fun _ '(cur, s) =>
             bind (poke cur (f (src (Z.to_nat s)))) (fun _ => ret (cur + 1, s + 1)))
             (cur, s) w in
  fst r = (cur + Z.of_nat (length l), s + Z.of_nat (length l))
  /\ w_hw (snd r) = w_hw w
  /\ w_log (snd r) = w_log w
  /\ forall o, w_vmem (snd r) o
       = if (cur <=? o) && (o <? cur + Z.of_nat (length l))
         then u8 (f (src (Z.to_nat (s + (o - cur)))))
         else w_vmem w o.
Proof.
  set (body := fun (_ : nat) '(cur, s) =>
         bind (poke cur (f (src (Z.to_nat s)))) (fun _ => ret (cur + 1, s + 1))).
  induction l as [|x l IH]; intros cur s w; cbv zeta.
  - cbn. repeat split; try (f_equal; lia).
    intros o. destruct (Z.leb_spec cur o), (Z.ltb_spec o (cur + 0)); try reflexivity; lia.
  - cbn [for_fold length]. rewrite bind_run.
    assert (E : body x (cur, s) w
                = ((cur + 1, s + 1),
                   mk_world (w_hw w) (w_log w)
                     (fun o => if o =? cur then u8 (f (src (Z.to_nat s)))
                               else w_vmem w o))) by reflexivity.
    rewrite E. cbn [fst snd].
    match goal with |- context [for_fold l body (?c, ?t) ?w1] =>
      destruct (IH c t w1) as (E1 & E2 & E3 & E4) end.
    rewrite E1, E2, E3. cbn [w_hw w_log w_vmem].
    repeat split; try (f_equal; lia).
    intros o. rewrite E4. cbn [w_vmem].
    destruct (Z.leb_spec (cur + 1) o), (Z.ltb_spec o (cur + 1 + Z.of_nat (length l)));
      destruct (Z.leb_spec cur o), (Z.ltb_spec o (cur + Z.of_nat (S (length l))));
      destruct (Z.eqb_spec o cur); cbn [andb]; try lia; try reflexivity.
    + do 3 f_equal. lia.
    + subst o. do 3 f_equal. lia.
Qed.

Lemma put8_run (f : Z -> Z) (src : array) cur s w :
  let r := put8 f src (cur, s) w in
  fst r = (cur + 8, s + 8)
  /\ w_hw (snd r) = w_hw w
  /\ w_log (snd r) = w_log w
  /\ forall o, w_vmem (snd r) o
       = if (cur <=? o) && (o <? cur + 8)
         then u8 (f (src (Z.to_nat (s + (o - cur)))))
         else w_vmem w o.
Proof. exact (put_run f src (seq 0 8) cur s w). Qed.

(** The sixty-four rows of the sprite, from any position of the three
    pointers. *)
Lemma rows_run (and_ xor : array) (l : list nat) : forall cur px pa w,
  let r := for_fold l (fun _ p => sprite_row and_ xor p) (cur, px, pa) w in
  w_hw (snd r) = w_hw w
  /\ w_log (snd r) = w_log w
  /\ forall o, w_vmem (snd r) o
       = if (cur <=? o) && (o <? cur + 16 * Z.of_nat (length l))
         then if (o - cur) mod 16 <? 8
              then u8 (xor (Z.to_nat (px + 8 * ((o - cur) / 16) + (o - cur) mod 16)))
              else u8 (Z.lnot (and_ (Z.to_nat (pa + 8 * ((o - cur) / 16)
                                               + (o - cur) mod 16 - 8))))
         else w_vmem w o.
Proof.
  induction l as [|x l IH]; intros cur px pa w; cbv zeta.
  - cbn. repeat split.
    intros o. destruct (Z.leb_spec cur o), (Z.ltb_spec o (cur + 0)); try reflexivity; lia.
  - cbn [for_fold length]. rewrite bind_run.
    destruct (put8_run (fun b => b) xor cur px w) as (A1 & A2 & A3 & A4).
    destruct (put8_run Z.lnot and_ (cur + 8) pa (snd (put8 (fun b => b) xor (cur, px) w)))
      as (B1 & B2 & B3 & B4).
    assert (E : sprite_row and_ xor (cur, px, pa) w
                = ((cur + 16, px + 8, pa + 8),
                   snd (put8 Z.lnot and_ (cur + 8, pa)
                          (snd (put8 (fun b => b) xor (cur, px) w))))).
    { unfold sprite_row. rewrite bind_run, A1. rewrite bind_run, B1. unfold ret.
      do 3 f_equal. lia. }
    rewrite E. cbn [fst snd].
    destruct (IH (cur + 16) (px + 8) (pa + 8)
                 (snd (put8 Z.lnot and_ (cur + 8, pa)
                         (snd (put8 (fun b => b) xor (cur, px) w)))))
      as (E2 & E3 & E4).
    rewrite E2, E3, B2, B3, A2, A3. repeat split.
    intros o. rewrite E4, B4, A4. clear.
    repeat match goal with
           | |- context [Z.leb ?a ?b] => destruct (Z.leb_spec a b)
           | |- context [Z.ltb ?a ?b] => destruct (Z.ltb_spec a b)
           end; cbn [andb];
      first [ reflexivity
            | exfalso; Z.div_mod_to_equations; lia
            | do 3 f_equal; try f_equal; Z.div_mod_to_equations; lia ].
Qed.

Lemma configured_frame graph :
  configured graph ->
  u32 (u32 (u32 (height graph * width graph) * depth graph) + 0x1000)
  = width graph * height graph * depth graph + 4096.
Proof.
  intros (m & Hin & Hd & ->). cbn [width height depth].
  assert (H : Forall (fun m => cm_depth m <> 0 ->
                0 <= vres (gfx_cfg m) * hres (gfx_cfg m) < 4294967296
                /\ 0 <= vres (gfx_cfg m) * hres (gfx_cfg m) * cm_depth m
                /\ vres (gfx_cfg m) * hres (gfx_cfg m) * cm_depth m + 4096 < 4294967296)
              catalog).
  { repeat constructor; cbn; lia. }
  rewrite Forall_forall in H. destruct (H m Hin Hd) as (H1 & H2 & H3).
  rewrite (u32_id (vres _ * hres _)) by lia.
  rewrite (u32_id (_ * cm_depth m)) by lia.
  rewrite u32_id by lia. lia.
Qed.

Lemma cursor_colors_run bg fg w :
  fst (cursor_colors bg fg w) = EOK
  /\ w_vmem (snd (cursor_colors bg fg w)) = w_vmem w.
Proof. split; reflexivity. Qed.

(** C8.  With the geometry of a configured mode, [cirrus_cursorset]
    fails with [-ENOSPC] exactly when width x height x depth + 4096
    exceeds the mapped video memory size, and then nothing is accessed
    or written; otherwise it succeeds and the frame buffer changes only
    in the first 1024 bytes of its last 4096, which hold the sprite. *)
Theorem cursorset_reservation cdev graph and_ xor bg fg w :
  configured graph ->
  let frame := width graph * height graph * depth graph in
  let r := cirrus_cursorset cdev graph and_ xor bg fg w in
  (fst r = Err ENOSPC <-> vmemsz cdev < frame + 4096)
  /\ (fst r = Err ENOSPC -> snd r = w)
  /\ (fst r <> Err ENOSPC ->
      fst r = EOK
      /\ forall o, w_vmem (snd r) o
           = if (vmemsz cdev - 4096 <=? o) && (o <? vmemsz cdev - 4096 + 1024)
             then sprite_byte and_ xor (o - (vmemsz cdev - 4096))
             else w_vmem w o).
Proof.
  intros Hcfg frame r. subst r. unfold cirrus_cursorset.
  rewrite (configured_frame graph Hcfg). fold frame.
  destruct (Z.ltb_spec (vmemsz cdev) (frame + 4096)) as [Hlt | Hge].
  - unfold ret. cbn [fst snd]. split; [tauto|]. split; [reflexivity|].
    intros Hne; contradiction.
  - cbv zeta. rewrite bind_run. cbv beta.
    destruct (rows_run and_ xor (seq 0 64) (vmemsz cdev - 4096) 0 0 w) as (_ & _ & R3).
    revert R3.
    generalize (snd (for_fold (seq 0 64) (fun _ p => sprite_row and_ xor p)
                       (vmemsz cdev - 4096, 0, 0) w)).
    intros w1 R3.
    destruct (cursor_colors_run bg fg w1) as (T1 & T2). rewrite T1, T2.
    split; [split; [discriminate | lia]|].
    split; [discriminate|]. intros _. split; [reflexivity|].
    intros o. rewrite R3. unfold sprite_byte. rewrite !Z.add_0_l.
    replace (16 * Z.of_nat (length (seq 0 64))) with 1024 by reflexivity.
    reflexivity.
Qed.

End Cursor.

(** ** Power management *)

Lemma u8_land x : u8 x = Z.land x 0xff.
Proof. unfold u8. symmetry. apply (Z.land_ones x 8). lia. Qed.

(** Writing back a byte with the bits of [m] replaced by [c] is
    idempotent... *)
Lemma rmw_idem m c x :
  u8 (Z.lor (Z.land (u8 (u8 (Z.lor (Z.land (u8 x) (Z.lnot m)) c))) (Z.lnot m)) c)
  = u8 (Z.lor (Z.land (u8 x) (Z.lnot m)) c).
Proof.
  rewrite !u8_land. apply Z.bits_inj'. intros n Hn.
  repeat (rewrite ?Z.land_spec, ?Z.lor_spec, ?Z.lnot_spec by assumption).
  destruct (Z.testbit x n), (Z.testbit 255 n), (Z.testbit m n), (Z.testbit c n);
    reflexivity.
Qed.

(** ... and leaves the other bits as they were read. *)
Lemma rmw_keeps m c x :
  Z.land c (Z.lnot m) = 0 ->
  Z.land (u8 (Z.lor (Z.land (u8 x) (Z.lnot m)) c)) (Z.lnot m)
  = Z.land (u8 x) (Z.lnot m).
Proof.
  intros Hc. rewrite !u8_land. apply Z.bits_inj'. intros n Hn.
  assert (Hb : Z.testbit c n && negb (Z.testbit m n) = false).
  { rewrite <- Z.lnot_spec, <- Z.land_spec, Hc by assumption. apply Z.bits_0. }
  repeat (rewrite ?Z.land_spec, ?Z.lor_spec, ?Z.lnot_spec by assumption).
  destruct (Z.testbit x n), (Z.testbit 255 n), (Z.testbit m n), (Z.testbit c n);
    simpl in *; congruence.
Qed.

(** A power management request runs the four accesses of the DPMS
    branch, whatever the adapter. *)
Lemma cirrus_power_run {adapter : Adapter} cdev st0 vclk0 graph mode freq :
  power_mode mode ->
  exists s g,
    Z.land s (Z.lnot 0x20) = 0 /\ Z.land g (Z.lnot 0x06) = 0
    /\ cirrus_mode cdev st0 vclk0 graph mode freq
       = bind (vga_readseq 0x01) (fun v =>
         bind (vga_writeseq 0x01 (Z.lor (Z.land v (Z.lnot 0x20)) s)) (fun _ =>
         bind (vga_readgfx 0x0e) (fun v =>
         bind (vga_writegfx 0x0e (Z.lor (Z.land v (Z.lnot 0x06)) g)) (fun _ =>
         ret (Some (EOK, graph)))))).
Proof.
  intros [-> | [-> | [-> | ->]]].
  - exists 0x00, 0x00. repeat split.
  - exists 0x20, 0x06. repeat split.
  - exists 0x20, 0x02. repeat split.
  - exists 0x20, 0x04. repeat split.
Qed.

Lemma vgadev_power_run {adapter : Adapter} st0 graph mode freq :
  power_mode mode ->
  exists s c,
    Z.land s (Z.lnot 0x20) = 0 /\ Z.land c (Z.lnot 0x80) = 0
    /\ Vgadev.vgadev_mode st0 graph mode freq
       = bind (vga_writeseq 0x00 0x01) (fun _ =>
         bind (vga_readseq 0x01) (fun v =>
         bind (vga_writeseq 0x01 (Z.lor (Z.land v (Z.lnot 0x20)) s)) (fun _ =>
         bind (vga_readcrtc 0x17) (fun v =>
         bind (vga_writecrtc 0x17 (Z.lor (Z.land v (Z.lnot 0x80)) c)) (fun _ =>
         bind (vga_writeseq 0x00 0x03) (fun _ =>
         ret (EOK, graph))))))).
Proof.
  intros [-> | [-> | [-> | ->]]].
  - exists 0x00, 0x80. repeat split.
  - exists 0x20, 0x00. repeat split.
  - exists 0x20, 0x80. repeat split.
  - exists 0x20, 0x80. repeat split.
Qed.

(** C9 (amended).  On a register file, a power management request made
    twice in succession makes the same accesses with the same bytes both
    times and leaves the registers as the first request left them.  On
    the Cirrus adapter it writes sequencer register 1 and graphics
    register 0x0e only, changing at most bit 5 of the first and bits 1-2
    of the second.  On the generic adapter it writes sequencer register
    1 and CRT controller register 0x17, changing at most bit 5 of the
    first and bit 7 of the second, and also the sequencer reset register
    0, which it leaves at 0x03.  No other register is written. *)
Theorem dpms_idempotent (h : regfile) log vmem cdev st0 vclk0 ist0 graph mode freq :
  power_mode mode ->
  let w0 := @mk_world RegFile h log vmem in
  let c1 := @cirrus_mode RegFile cdev st0 vclk0 graph mode freq w0 in
  let c2 := @cirrus_mode RegFile cdev st0 vclk0 graph mode freq (snd c1) in
  let v1 := @Vgadev.vgadev_mode RegFile ist0 graph mode freq w0 in
  let v2 := @Vgadev.vgadev_mode RegFile ist0 graph mode freq (snd v1) in
  (exists a b,
     let ev := [EvRead SEQ 1; EvWrite SEQ 1 a; EvRead GFX 14; EvWrite GFX 14 b] in
     fst c1 = Some (EOK, graph) /\ fst c2 = Some (EOK, graph)
     /\ w_log (snd c1) = log ++ ev
     /\ w_log (snd c2) = w_log (snd c1) ++ ev
     /\ (forall p r, rf_reg (w_hw (snd c2)) p r = rf_reg (w_hw (snd c1)) p r)
     /\ (forall p r, (p, r) <> (SEQ, 1) -> (p, r) <> (GFX, 14) ->
           rf_reg (w_hw (snd c1)) p r = rf_reg h p r)
     /\ rf_reg (w_hw (snd c1)) SEQ 1 = a
     /\ Z.land a (Z.lnot 0x20) = Z.land (u8 (rf_reg h SEQ 1)) (Z.lnot 0x20)
     /\ rf_reg (w_hw (snd c1)) GFX 14 = b
     /\ Z.land b (Z.lnot 0x06) = Z.land (u8 (rf_reg h GFX 14)) (Z.lnot 0x06))
  /\ (exists a b,
     let ev := [EvWrite SEQ 0 1; EvRead SEQ 1; EvWrite SEQ 1 a;
                EvRead CRTC 23; EvWrite CRTC 23 b; EvWrite SEQ 0 3] in
     fst v1 = (EOK, graph) /\ fst v2 = (EOK, graph)
     /\ w_log (snd v1) = log ++ ev
     /\ w_log (snd v2) = w_log (snd v1) ++ ev
     /\ (forall p r, rf_reg (w_hw (snd v2)) p r = rf_reg (w_hw (snd v1)) p r)
     /\ (forall p r, (p, r) <> (SEQ, 0) -> (p, r) <> (SEQ, 1) -> (p, r) <> (CRTC, 23) ->
           rf_reg (w_hw (snd v1)) p r = rf_reg h p r)
     /\ rf_reg (w_hw (snd v1)) SEQ 0 = 3
     /\ rf_reg (w_hw (snd v1)) SEQ 1 = a
     /\ Z.land a (Z.lnot 0x20) = Z.land (u8 (rf_reg h SEQ 1)) (Z.lnot 0x20)
     /\ rf_reg (w_hw (snd v1)) CRTC 23 = b
     /\ Z.land b (Z.lnot 0x80) = Z.land (u8 (rf_reg h CRTC 23)) (Z.lnot 0x80)).
Proof.
  intros Hpow w0 c1 c2 v1 v2. split.
  - destruct (@cirrus_power_run RegFile cdev st0 vclk0 graph mode freq Hpow)
      as (s & g & Hs & Hg & E).
    subst c2 c1 w0. rewrite E. clear E.
    exists (u8 (Z.lor (Z.land (u8 (rf_reg h SEQ 1)) (Z.lnot 0x20)) s)),
           (u8 (Z.lor (Z.land (u8 (rf_reg h GFX 14)) (Z.lnot 0x06)) g)).
    cbv zeta. cbn -[Z.land Z.lor Z.lnot u8 app].
    change (u8 1) with 1. change (u8 14) with 14.
    cbn -[Z.land Z.lor Z.lnot u8 app].
    rewrite !rmw_idem.
    split; [reflexivity|]. split; [reflexivity|].
    split; [rewrite <- !app_assoc; reflexivity|].
    split; [rewrite <- !app_assoc; reflexivity|].
    split.
    { intros p r. destruct (port_eqb p GFX && (r =? 14)); [reflexivity|].
      destruct (port_eqb p SEQ && (r =? 1)); reflexivity. }
    split.
    { intros p r H1 H2.
      destruct p; cbn [port_eqb andb]; try reflexivity;
        destruct (Z.eqb_spec r 1); try reflexivity;
        destruct (Z.eqb_spec r 14); try reflexivity; subst; congruence. }
    split; [reflexivity|]. split; [apply rmw_keeps, Hs|].
    split; [reflexivity|]. apply rmw_keeps, Hg.
  - destruct (@vgadev_power_run RegFile ist0 graph mode freq Hpow)
      as (s & c & Hs & Hc & E).
    subst v2 v1 w0. rewrite E. clear E.
    exists (u8 (Z.lor (Z.land (u8 (rf_reg h SEQ 1)) (Z.lnot 0x20)) s)),
           (u8 (Z.lor (Z.land (u8 (rf_reg h CRTC 23)) (Z.lnot 0x80)) c)).
    cbv zeta. cbn -[Z.land Z.lor Z.lnot u8 app].
    change (u8 0) with 0. change (u8 1) with 1. change (u8 3) with 3.
    change (u8 23) with 23.
    cbn -[Z.land Z.lor Z.lnot u8 app].
    rewrite !rmw_idem.
    split; [reflexivity|]. split; [reflexivity|].
    split; [rewrite <- !app_assoc; reflexivity|].
    split; [rewrite <- !app_assoc; reflexivity|].
    split.
    { intros p r. destruct (port_eqb p SEQ && (r =? 0)); [reflexivity|].
      destruct (port_eqb p CRTC && (r =? 23)); [reflexivity|].
      destruct (port_eqb p SEQ && (r =? 1)); reflexivity. }
    split.
    { intros p r H0 H1 H2.
      destruct p; cbn [port_eqb andb]; try reflexivity;
        destruct (Z.eqb_spec r 0); try reflexivity;
        destruct (Z.eqb_spec r 1); try reflexivity;
        destruct (Z.eqb_spec r 23); try reflexivity; subst; congruence. }
    split; [reflexivity|].
    split; [reflexivity|]. split; [apply rmw_keeps, Hs|].
    split; [reflexivity|]. apply rmw_keeps, Hc.
Qed.

(** C9, as stated, fails: on the generic adapter a power management
    request also rewrites the sequencer reset register. *)
Lemma vgadev_dpms_writes_reset :
  let r := @Vgadev.vgadev_mode RegFile Sample.image Sample.graph0
             GRAPH_ON GRAPH_DEFFREQ Sample.world0 in
  fst r = (EOK, Sample.graph0)
  /\ writes (w_log (snd r))
     = [EvWrite SEQ 0 1; EvWrite SEQ 1 0; EvWrite CRTC 23 128; EvWrite SEQ 0 3]
  /\ rf_reg (w_hw Sample.world0) SEQ 0 = 0
  /\ rf_reg (w_hw (snd r)) SEQ 0 = 3.
Proof. repeat split. Qed.

(** ** Save and restore *)

Section SaveRestore.

Context {adapter : Adapter}.

Lemma logs_ret {A} (a : A) : logs [] (ret a).
Proof. intros w. cbn. now rewrite app_nil_r. Qed.

Lemma logs_bind {A B} t1 t2 (c : M A) (k : A -> M B) :
  logs t1 c -> (forall a, logs t2 (k a)) -> logs (t1 ++ t2) (bind c k).
Proof.
  intros Hc Hk w. rewrite bind_run, Hk, Hc. now rewrite app_assoc.
Qed.

Lemma logs_access e : logs [e] (access e).
Proof. intros w. reflexivity. Qed.

Lemma logs_input p reg : logs [EvRead p reg] (input p reg).
Proof. intros w. reflexivity. Qed.

Lemma logs_status : logs [EvStatus] vga_status.
Proof. intros w. reflexivity. Qed.

Lemma logs_for {T} (ev : T -> list event) (body : T -> M unit) l :
  (forall x, logs (ev x) (body x)) -> logs (flat_map ev l) (for_ l body).
Proof.
  intros Hb. induction l as [|x l IH]; cbn [for_ flat_map].
  - apply logs_ret.
  - apply logs_bind; [apply Hb | intros _; exact IH].
Qed.

Lemma logs_for_fold {T S} (ev : T -> list event) (body : T -> S -> M S) l :
  (forall x s, logs (ev x) (body x s)) ->
  forall s, logs (flat_map ev l) (for_fold l body s).
Proof.
  intros Hb. induction l as [|x l IH]; intros s; cbn [for_fold flat_map].
  - apply logs_ret.
  - apply logs_bind; [apply Hb | exact IH].
Qed.

Lemma logs_eq {A} t t' (c : M A) : logs t c -> t = t' -> logs t' c.
Proof. intros H <-. exact H. Qed.

Lemma logs_emits {A} P t (c : M A) : logs t c -> forallb P t = true -> emits P c.
Proof. intros H Ht w. exists t. auto. Qed.

Lemma emits_ret {A} P (a : A) : emits P (ret a).
Proof. intros w. exists []. cbn. now rewrite app_nil_r. Qed.

Lemma emits_bind {A B} P (c : M A) (k : A -> M B) :
  emits P c -> (forall a, emits P (k a)) -> emits P (bind c k).
Proof.
  intros Hc Hk w. rewrite bind_run.
  destruct (Hc w) as (t1 & E1 & P1).
  destruct (Hk (fst (c w)) (snd (c w))) as (t2 & E2 & P2).
  exists (t1 ++ t2). rewrite E2, E1, app_assoc, forallb_app, P1, P2. auto.
Qed.

Lemma emits_access P e : P e = true -> emits P (access e).
Proof. intros H. apply (logs_emits P [e]); [apply logs_access | cbn; now rewrite H]. Qed.

Lemma emits_input P p reg : P (EvRead p reg) = true -> emits P (input p reg).
Proof.
  intros H. apply (logs_emits P [EvRead p reg]); [apply logs_input | cbn; now rewrite H].
Qed.

Lemma emits_mem_read P n : P (EvMemRead n) = true -> emits P (mem_read n).
Proof. intros H w. exists [EvMemRead n]. cbn. now rewrite H. Qed.

Lemma logs_access_then {B} e t (k : unit -> M B) :
  (forall a, logs t (k a)) -> logs (e :: t) (bind (access e) k).
Proof. intros Hk. apply (logs_bind [e] t); [apply logs_access | exact Hk]. Qed.

Lemma logs_input_then {B} p reg t (k : Z -> M B) :
  (forall v, logs t (k v)) -> logs (EvRead p reg :: t) (bind (input p reg) k).
Proof. intros Hk. apply (logs_bind [EvRead p reg] t); [apply logs_input | exact Hk]. Qed.

Lemma logs_status_then {B} t (k : Z -> M B) :
  (forall v, logs t (k v)) -> logs (EvStatus :: t) (bind vga_status k).
Proof. intros Hk. apply (logs_bind [EvStatus] t); [apply logs_status | exact Hk]. Qed.

Ltac logs_step :=
  lazymatch goal with
  | |- logs _ (ret _) => apply logs_ret
  | |- logs _ (access _) => apply logs_access
  | |- logs _ (bind (access _) _) => apply logs_access_then; intro
  | |- logs _ (bind (input _ _) _) => apply logs_input_then; intro
  | |- logs _ (bind vga_status _) => apply logs_status_then; intro
  end.

Lemma savemode_logs st : logs savemode_events (vga_savemode st).
Proof.
  unfold vga_savemode, vga_readmisc, vga_enablecmap, vga_disablecmap.
  eapply logs_eq.
  - logs_step.
    apply logs_bind;
      [apply (logs_for_fold (fun i => [EvRead CRTC (u8 (Z.of_nat i))]));
       intros x s; unfold vga_readcrtc; repeat logs_step
      | intros st1].
    apply logs_bind;
      [apply (logs_for_fold (fun i => [EvRead SEQ (u8 (Z.of_nat i))]));
       intros x s; unfold vga_readseq; repeat logs_step
      | intros st2].
    apply logs_bind;
      [apply (logs_for_fold (fun i => [EvRead GFX (u8 (Z.of_nat i))]));
       intros x s; unfold vga_readgfx; repeat logs_step
      | intros st3].
    logs_step.
    apply logs_bind;
      [apply (logs_for_fold (fun i => [EvRead ATTR (u8 (Z.of_nat i))]));
       intros x s; unfold vga_readattr; repeat logs_step
      | intros st4].
    repeat logs_step.
  - reflexivity.
Qed.

Lemma restoremode_logs st : logs (restoremode_events st) (vga_restoremode st).
Proof.
  unfold vga_restoremode, vga_writemisc, vga_writecrtc, vga_writeseq, vga_writegfx,
    vga_writeattr, vga_enablecmap, vga_disablecmap.
  eapply logs_eq.
  - do 2 logs_step.
    apply logs_bind;
      [apply (logs_for (fun i => [EvWrite CRTC (u8 (Z.of_nat i)) (u8 (crtc st i))]));
       intros x; apply logs_access | intros _].
    apply logs_bind;
      [apply (logs_for (fun i => [EvWrite SEQ (u8 (Z.of_nat i)) (u8 (seq_ st i))]));
       intros x; apply logs_access | intros _].
    apply logs_bind;
      [apply (logs_for (fun i => [EvWrite GFX (u8 (Z.of_nat i)) (u8 (gfx st i))]));
       intros x; apply logs_access | intros _].
    logs_step.
    apply logs_bind;
      [apply (logs_for (fun i => [EvWrite ATTR (u8 (Z.of_nat i)) (u8 (attr st i))]));
       intros x; apply logs_access | intros _].
    apply logs_access.
  - reflexivity.
Qed.

Lemma savecmap_logs st : logs (savecmap_events st) (vga_savecmap st).
Proof.
  unfold vga_savecmap, savecmap_events. destruct (cmap st) as [buf|]; [|apply logs_ret].
  unfold vga_writedac, vga_disablecmap.
  eapply logs_eq.
  - do 2 logs_step.
    apply logs_bind;
      [apply (logs_for_fold (fun _ : nat => [EvRead DAC 0x03; EvStatus; EvStatus]));
       intros x s; unfold vga_readdac; repeat logs_step
      | intros b].
    repeat logs_step.
  - reflexivity.
Qed.

Lemma restorecmap_logs st : logs (restorecmap_events st) (vga_restorecmap st).
Proof.
  unfold vga_restorecmap, restorecmap_events. destruct (cmap st) as [buf|]; [|apply logs_ret].
  unfold vga_writedac, vga_disablecmap.
  eapply logs_eq.
  - do 2 logs_step.
    apply logs_bind;
      [apply (logs_for (fun i : nat => [EvWrite DAC (u8 0x03) (u8 (buf i)); EvStatus; EvStatus]));
       intros x; repeat logs_step
      | intros _].
    apply logs_access.
  - reflexivity.
Qed.

Ltac emits_step :=
  lazymatch goal with
  | |- emits _ (ret _) => apply emits_ret
  | |- emits _ (access _) => apply emits_access; reflexivity
  | |- emits _ (input _ _) => apply emits_input; reflexivity
  | |- emits _ (mem_read _) => apply emits_mem_read; reflexivity
  | |- emits _ (bind _ _) => apply emits_bind; [|intro]
  | |- emits _ (match ?x with _ => _ end) => destruct x
  end.

Lemma copytext_emits st dir : emits text_event (vga_copytext st dir).
Proof.
  unfold vga_copytext, copy_plane, vga_blank, vga_unblank, mem_write,
    vga_readmisc, vga_writemisc, vga_readgfx, vga_writegfx, vga_readseq, vga_writeseq.
  repeat emits_step.
Qed.

Lemma savetext_emits st : emits text_event (vga_savetext st).
Proof.
  unfold vga_savetext, vga_readattr.
  apply emits_bind; [apply emits_input; reflexivity | intros v].
  destruct (testflag v 1); [apply emits_ret | apply copytext_emits].
Qed.

Lemma restoretext_emits st : emits text_event (vga_restoretext st).
Proof.
  unfold vga_restoretext.
  apply emits_bind; [apply copytext_emits | intros; apply emits_ret].
Qed.

(** The text transfer leaves the palette pointer of the image alone. *)
Lemma savetext_cmap st w : cmap (fst (vga_savetext st w)) = cmap st.
Proof.
  unfold vga_savetext. rewrite bind_run.
  destruct (testflag _ 1); [reflexivity|].
  unfold vga_copytext.
  repeat (rewrite bind_run; cbv beta).
  reflexivity.
Qed.

Lemma savecmap_events_cmap st st' :
  cmap st' = cmap st -> savecmap_events st' = savecmap_events st.
Proof. unfold savecmap_events. intros ->. reflexivity. Qed.

Lemma savecmap_palette st : forallb palette_event (savecmap_events st) = true.
Proof.
  unfold savecmap_events. destruct (cmap st); [|reflexivity].
  rewrite !forallb_app. cbn [forallb palette_event andb].
  rewrite andb_true_r. apply forallb_forall. intros e He.
  apply in_flat_map in He. destruct He as (i & _ & [<- | [<- | [<- | []]]]); reflexivity.
Qed.

Lemma restorecmap_palette st : forallb palette_event (restorecmap_events st) = true.
Proof.
  unfold restorecmap_events. destruct (cmap st); [|reflexivity].
  rewrite !forallb_app. cbn [forallb palette_event andb].
  rewrite andb_true_r. apply forallb_forall. intros e He.
  apply in_flat_map in He. destruct He as (i & _ & [<- | [<- | [<- | []]]]); reflexivity.
Qed.

(** C7.  [vga_save] accesses the adapter in three consecutive phases:
    text and font memory, then the palette, then the register banks.
    [vga_restore] goes the other way: the register banks, then the
    palette, then text and font memory.  In the register bank restore
    the CRT controller register 0x11 is written with its write-protect
    bit cleared before any other CRT controller register is written;
    only the write of the miscellaneous register comes before it. *)
Theorem save_restore_order st w :
  (exists t,
     forallb text_event t = true
     /\ w_log (snd (vga_save st w))
        = w_log w ++ t ++ savecmap_events st ++ savemode_events)
  /\ (exists t,
     forallb text_event t = true
     /\ w_log (snd (vga_restore st w))
        = w_log w ++ restoremode_events st ++ restorecmap_events st ++ t)
  /\ forallb palette_event (savecmap_events st) = true
  /\ forallb palette_event (restorecmap_events st) = true
  /\ (exists rest,
       restoremode_events st
       = EvWrite MISC 0 (u8 (misc st))
         :: EvWrite CRTC 0x11 (u8 (Z.land (crtc st 17%nat) (Z.lnot 0x80)))
         :: map (fun i => EvWrite CRTC (Z.of_nat i) (u8 (crtc st i))) (seq 0 25)
         ++ rest).
Proof.
  split; [|split; [|split; [apply savecmap_palette|split; [apply restorecmap_palette|]]]].
  - unfold vga_save.
    destruct (savetext_emits st w) as (t & Et & Pt).
    exists t. split; [exact Pt|].
    rewrite bind_run. rewrite bind_run.
    rewrite savemode_logs, savecmap_logs, Et.
    rewrite (savecmap_events_cmap st _ (savetext_cmap st w)).
    now rewrite <- !app_assoc.
  - unfold vga_restore.
    rewrite bind_run. rewrite bind_run.
    destruct (restoretext_emits st (snd (vga_restorecmap st (snd (vga_restoremode st w)))))
      as (t & Et & Pt).
    exists t. split; [exact Pt|].
    rewrite Et, restorecmap_logs, restoremode_logs.
    now rewrite <- !app_assoc.
  - eexists. unfold restoremode_events. reflexivity.
Qed.

End SaveRestore.

(* ================================================================= *)
(** * Further properties of the code *)

(** ** Bytes *)

Lemma u8_range x : 0 <= u8 x < 256.
Proof. unfold u8. apply Z.mod_pos_bound. lia. Qed.

(** A property of bytes holds when it holds of the 256 of them. *)
Lemma byte_cases (P : Z -> bool) :
  forallb P (Zseq 0 256) = true -> forall x, 0 <= x < 256 -> P x = true.
Proof.
  intros H x Hx. rewrite forallb_forall in H. apply H. apply In_Zseq. lia.
Qed.

Lemma byte_cases2 (P : Z -> Z -> bool) :
  forallb (fun a => forallb (P a) (Zseq 0 256)) (Zseq 0 256) = true ->
  forall a b, 0 <= a < 256 -> 0 <= b < 256 -> P a b = true.
Proof.
  intros H a b Ha Hb.
  apply (byte_cases (P a)); [|exact Hb].
  apply (byte_cases (fun a => forallb (P a) (Zseq 0 256))); assumption.
Qed.

Lemma eqb_iff (b1 b2 : bool) : Bool.eqb b1 b2 = true <-> (b1 = true <-> b2 = true).
Proof. destruct b1, b2; cbn; intuition discriminate. Qed.

Lemma testbit_u8 x n : 0 <= n < 8 -> Z.testbit (u8 x) n = Z.testbit x n.
Proof.
  intros Hn. rewrite u8_land, Z.land_spec.
  change 0xff with (Z.ones 8). rewrite Z.ones_spec_low by lia. apply andb_true_r.
Qed.

Lemma land_bit x k : 0 <= k -> Z.land x (2 ^ k) = 2 ^ k * Z.b2z (Z.testbit x k).
Proof.
  intros Hk. apply Z.bits_inj'. intros n Hn.
  rewrite Z.land_spec, Z.pow2_bits_eqb by assumption.
  destruct (Z.eqb_spec k n) as [<-|Hne].
  - rewrite andb_true_r. destruct (Z.testbit x k); cbn [Z.b2z].
    + rewrite Z.mul_1_r, Z.pow2_bits_true; auto.
    + rewrite Z.mul_0_r, Z.bits_0. reflexivity.
  - rewrite andb_false_r. destruct (Z.testbit x k); cbn [Z.b2z].
    + rewrite Z.mul_1_r, Z.pow2_bits_false; auto.
    + rewrite Z.mul_0_r, Z.bits_0. reflexivity.
Qed.

(** ** Video memory size *)

Lemma vmemsz_table_ok a b : 0 <= a < 256 -> 0 <= b < 256 -> vmemsz_table a b = true.
Proof. apply (byte_cases2 vmemsz_table). vm_compute. reflexivity. Qed.

(** X1.  [cirrus_vmemsz] reads sequencer registers 0x0f and
    0x17, in this order, and accesses nothing else.  It reports 1, 2, 3
    or 4 MiB: 4 MiB exactly when bits 3, 4 and 7 of SR0F are set and
    bits 1 and 7 of SR17 are clear, 3 MiB exactly when bits 3, 4 and 7
    of SR0F and bit 1 of SR17 are set and bit 7 of SR17 is clear, 2 MiB
    exactly when bits 3 and 4 of SR0F are set and bit 7 of SR0F equals
    bit 7 of SR17, and 1 MiB otherwise. *)
Theorem vmemsz_report {adapter : Adapter} (w : world) :
  let sr0f := u8 (hw_in (w_hw w) SEQ 0x0f) in
  let sr17 := u8 (hw_in (hw_next (w_hw w) (EvRead SEQ 0x0f)) SEQ 0x17) in
  let r := cirrus_vmemsz w in
  w_log (snd r) = w_log w ++ [EvRead SEQ 0x0f; EvRead SEQ 0x17]
  /\ w_vmem (snd r) = w_vmem w
  /\ (fst r = 0x100000 \/ fst r = 0x200000 \/ fst r = 0x300000 \/ fst r = 0x400000)
  /\ (fst r = 0x400000 <-> Z.land sr0f 0x98 = 0x98 /\ Z.land sr17 0x82 = 0x00)
  /\ (fst r = 0x300000 <-> Z.land sr0f 0x98 = 0x98 /\ Z.land sr17 0x82 = 0x02)
  /\ (fst r = 0x200000 <->
      Z.land sr0f 0x18 = 0x18 /\ (Z.land sr0f 0x80 = 0x80 <-> Z.land sr17 0x80 = 0x80)).
Proof.
  intros sr0f sr17 r.
  assert (E : fst r = vmemsz_of sr0f sr17) by reflexivity.
  split; [subst r; cbn; rewrite <- app_assoc; reflexivity|].
  split; [reflexivity|].
  rewrite E. clear E r.
  assert (H := vmemsz_table_ok sr0f sr17 (u8_range _) (u8_range _)).
  unfold vmemsz_table in H. cbv zeta in H.
  rewrite !andb_true_iff, !orb_true_iff, !eqb_iff, !andb_true_iff, !eqb_iff, !Z.eqb_eq in H.
  tauto.
Qed.

(** ** Arithmetic of the clock search *)

Lemma den_mask d : 0x14 <= d < 0x3f -> Z.land d 0x3e = d - d mod 2.
Proof.
  intros Hd.
  assert (H := byte_cases (fun d => (d <? 0x14) || (0x3f <=? d)
                                     || (Z.land d 0x3e =? d - d mod 2))
                 ltac:(vm_compute; reflexivity) d ltac:(lia)).
  cbv beta in H.
  destruct (Z.ltb_spec d 0x14); [lia|].
  destruct (Z.leb_spec 0x3f d); [lia|].
  cbn [orb] in H. apply Z.eqb_eq in H. exact H.
Qed.

Lemma num_mask n : 0x10 <= n < 0x7f -> Z.land n 0x7f = n.
Proof.
  intros Hn. rewrite (Z.land_ones n 7 ltac:(lia) : Z.land n 0x7f = n mod 128).
  apply Z.mod_small. lia.
Qed.

(** X2.  Over the numerators and denominators the
    search of [cirrus_vclk] visits, [cirrus_vco] never divides by zero
    and never wraps: the masked denominator is at least 0x14, the
    product fits 32 bits, the VCO is the exact quotient of
    [n * MIN_VCLK] by the denominator with its low bit cleared, it is
    positive and at most 180406 kHz, and the frequency achieved is at
    least [MIN_VCLK / 2] whenever the VCO is at least [MIN_VCLK]. *)
Theorem vclk_search_arithmetic n d :
  0x10 <= n < 0x7f -> 0x14 <= d < 0x3f ->
  0x14 <= Z.land d 0x3e
  /\ Z.land n 0x7f * MIN_VCLK < 4294967296
  /\ cirrus_vco n d = n * MIN_VCLK / (d - d mod 2)
  /\ 0 < cirrus_vco n d <= 180406
  /\ 0 <= achieved n d <= cirrus_vco n d
  /\ (MIN_VCLK <= cirrus_vco n d -> MIN_VCLK / 2 <= achieved n d).
Proof.
  intros Hn Hd.
  assert (Hm := den_mask d Hd). assert (Hk := num_mask n Hn).
  assert (Hv : cirrus_vco n d = n * MIN_VCLK / (d - d mod 2)).
  { rewrite cirrus_vco_plain, Hm, Hk. reflexivity. }
  assert (Hden : 20 <= d - d mod 2 <= d) by (clear - Hd; Z.div_mod_to_equations; lia).
  split; [lia|].
  split; [rewrite Hk; unfold MIN_VCLK; lia|].
  split; [exact Hv|].
  assert (Hb : 0 < cirrus_vco n d <= 180406).
  { rewrite Hv. unfold MIN_VCLK. split.
    - apply Z.div_str_pos. lia.
    - assert (n * 28636 / (d - d mod 2) < 180407); [|lia].
      apply Z.div_lt_upper_bound; nia. }
  split; [exact Hb|]. split; [apply achieved_range|].
  intros Hband. unfold achieved, MIN_VCLK in *.
  destruct (land_1_cases d) as [-> | ->].
  - rewrite Z.shiftr_0_r. change (28636 / 2) with 14318. lia.
  - rewrite Z.shiftr_div_pow2 by lia. change (2 ^ 1) with 2.
    apply Z.div_le_mono; lia.
Qed.

(** ** The numerator and denominator on entry *)

Lemma vclk_try_same maxvclk freq st st' n d :
  snd st = snd st' ->
  (vclk_try maxvclk freq st n d = st /\ vclk_try maxvclk freq st' n d = st')
  \/ vclk_try maxvclk freq st n d = vclk_try maxvclk freq st' n d.
Proof.
  intros E. unfold vclk_try. rewrite <- E.
  destruct ((cirrus_vco n d <? MIN_VCLK) || (maxvclk <? cirrus_vco n d)); [left; auto|].
  cbv zeta. destruct (_ <? snd st); [right | left]; auto.
Qed.

Lemma fold_try_same maxvclk freq l : forall st st',
  snd st = snd st' ->
  let f := fun st (c : Z * Z) => vclk_try maxvclk freq st (fst c) (snd c) in
  (fold_left f l st = st /\ fold_left f l st' = st')
  \/ fold_left f l st = fold_left f l st'.
Proof.
  induction l as [|c l IH]; intros st st' E f; cbn [fold_left].
  - left. auto.
  - destruct (vclk_try_same maxvclk freq st st' (fst c) (snd c) E) as [[E1 E2] | E1].
    + subst f. cbv beta. rewrite E1, E2. apply IH, E.
    + right. subst f. cbv beta. rewrite E1. reflexivity.
Qed.

(** Two clocks of the same frequency are served alike. *)
Lemma vclk_same_frequency maxvclk freq num den num' den' :
  let r := cirrus_vclk maxvclk (mk_vclk freq num den) in
  let r' := cirrus_vclk maxvclk (mk_vclk freq num' den') in
  fst r = fst r' /\ (fst r = EOK -> r = r').
Proof.
  unfold cirrus_vclk. cbn [vc_freq vc_num vc_den]. cbv zeta.
  destruct (vclk_scan vclks freq); [split; reflexivity|].
  rewrite !vclk_search_flat.
  destruct (fold_try_same (if maxvclk <? MAX_VCLK then MAX_VCLK else maxvclk) freq candidates
              (mk_vclk 0 num den, freq) (mk_vclk 0 num' den', freq) eq_refl) as [[E1 E2] | E1].
  - rewrite E1, E2. cbn. split; [reflexivity | discriminate].
  - rewrite E1. split; reflexivity.
Qed.

(** X3.  Of the clock it is handed,
    [cirrus_vclk] reads the frequency only: whatever the numerator and
    the denominator hold on entry, the return code is the same, and on
    success so is the clock returned. *)
Theorem vclk_reads_frequency_only maxvclk freq num den num' den' :
  let r := cirrus_vclk maxvclk (mk_vclk freq num den) in
  let r' := cirrus_vclk maxvclk (mk_vclk freq num' den') in
  fst r = fst r' /\ (fst r = EOK -> r = r').
Proof.
  intros r r'. subst r r'. apply vclk_same_frequency.
Qed.

(** ** Blanking *)

Lemma vertical_range m :
  0 <= vres m < 4294967296 -> 0 <= vsyncs m < 4294967296 ->
  0 <= vsynce m < 4294967296 -> 0 <= vtotal m < 4294967296 ->
  let '(v_res, v_syncs, v_synce, v_total) := Timing.vertical m in
  0 <= v_res < 4294967296 /\ 0 <= v_syncs < 4294967296
  /\ 0 <= v_synce < 4294967296 /\ 0 <= v_total < 4294967296.
Proof.
  intros H1 H2 H3 H4. unfold Timing.vertical, Timing.quad_map.
  assert (Hs : forall x, 0 <= x < 4294967296 -> 0 <= Z.shiftr x 1 < 4294967296).
  { intros x Hx. rewrite Z.shiftr_div_pow2 by lia. change (2 ^ 1) with 2.
    split; [apply Z.div_pos; lia | apply Z.div_lt_upper_bound; lia]. }
  assert (Hu : forall x, 0 <= u32 x < 4294967296).
  { intros x. unfold u32. apply Z.mod_pos_bound. lia. }
  destruct (testflag (flags m) VGA_DBLSCAN), (testflag (flags m) VGA_INTERLACE),
    (1 <? vscan m); cbv zeta; repeat split; auto; try apply Hs; auto; try apply Hu; lia.
Qed.

(** X4.  For a timing descriptor of 32-bit fields, the
    vertical blanking interval [vga_mode] computes from the rescaled
    vertical quantities ends at [max(sync end, total)] and spans at most
    0x7f lines; it starts at [min(sync start, resolution)] when the
    interval from there to the end is not longer than 0x7f, and at
    [blank end - 0x7f] otherwise. *)
Theorem vblank_bounds m :
  0 <= vres m < 4294967296 -> 0 <= vsyncs m < 4294967296 ->
  0 <= vsynce m < 4294967296 -> 0 <= vtotal m < 4294967296 ->
  let '(v_res, v_syncs, v_synce, v_total) := Timing.vertical m in
  let '(blanks, blanke) := Timing.vblank m in
  Z.min v_syncs v_res < 4294967296 - 0x7f ->
  blanke = Z.max v_synce v_total
  /\ blanke - blanks <= 0x7f
  /\ (blanke <= Z.min v_syncs v_res + 0x7f -> blanks = Z.min v_syncs v_res)
  /\ (Z.min v_syncs v_res + 0x7f < blanke -> blanks = blanke - 0x7f).
Proof.
  intros H1 H2 H3 H4. assert (H := vertical_range m H1 H2 H3 H4).
  unfold Timing.vblank. destruct (Timing.vertical m) as [[[v_res v_syncs] v_synce] v_total].
  destruct H as (R1 & R2 & R3 & R4).
  unfold Timing.blank. cbv zeta.
  destruct (Z.ltb_spec (u32 (Z.min v_syncs v_res + 0x7f)) (Z.max v_synce v_total)) as [L|L];
    intros Hmin; rewrite (u32_id (_ + _)) in L by lia.
  - rewrite u32_id by lia. lia.
  - lia.
Qed.

Lemma catalog_plain :
  forallb (fun m => (cm_depth m =? 0) || plain_blanking (programmed_cfg m)) catalog = true.
Proof. vm_compute. reflexivity. Qed.

(** X5.  For every graphics entry of the Cirrus table,
    the blanking intervals [vga_mode] computes for the configuration
    [cirrus_mode] programs need no clamping: horizontal blanking runs
    from the resolution to the total, vertical blanking from the
    (rescaled) resolution to the (rescaled) total, and both start at or
    before the start of sync and end at or after its end. *)
Theorem catalog_blanking m :
  In m catalog -> cm_depth m <> 0 ->
  let cfg := programmed_cfg m in
  let '(v_res, v_syncs, v_synce, v_total) := Timing.vertical cfg in
  Timing.hblank cfg = (hres cfg, htotal cfg)
  /\ hres cfg <= hsyncs cfg <= hsynce cfg /\ hsynce cfg <= htotal cfg
  /\ Timing.vblank cfg = (v_res, v_total)
  /\ v_res <= v_syncs <= v_synce /\ v_synce <= v_total.
Proof.
  intros Hin Hd cfg.
  assert (H := catalog_plain). rewrite forallb_forall in H. specialize (H m Hin).
  destruct (Z.eqb_spec (cm_depth m) 0); [contradiction|]. cbn [orb] in H.
  unfold plain_blanking in H. fold cfg in H.
  destruct (Timing.vertical cfg) as [[[v_res v_syncs] v_synce] v_total].
  destruct (Timing.hblank cfg) as [hbs hbe]. destruct (Timing.vblank cfg) as [vbs vbe].
  rewrite !andb_true_iff, !Z.eqb_eq, !Z.leb_le in H.
  destruct H as (((((((((A1 & A2) & A3) & A4) & A5) & A6) & A7) & A8) & A9) & A10).
  subst hbs hbe vbs vbe. repeat split; auto.
Qed.

(** ** The mode table *)

Lemma all_reachable : forallb reachable (seq 0 64) = true.
Proof. vm_compute. reflexivity. Qed.

(** X6.  No entry of the Cirrus mode table is
    shadowed by an earlier one: for each of the 64 entries before the
    sentinel, looking up the mode tag of the entry at the refresh rate
    of the entry stops at the index of the entry (at any refresh rate
    for the four power management entries). *)
Theorem mode_table_reachable i freq :
  (i < 64)%nat ->
  let e := nth i modes (mk_mode GRAPH_DEFMODE 0 (pwm 0 0)) in
  (cm_depth e = 0 -> mode_index (cm_mode e) freq = Found i)
  /\ (cm_depth e <> 0 -> mode_index (cm_mode e) (gfx_freq e) = Found i).
Proof.
  intros Hi e.
  assert (H := all_reachable). rewrite forallb_forall in H.
  specialize (H i ltac:(apply in_seq; lia)). unfold reachable in H. fold e in H.
  assert (Hs : forall r, scan_is r i = true -> r = Found i).
  { intros [j| |]; cbn; try discriminate. intros E. apply Nat.eqb_eq in E. now subst. }
  split; intros Hd.
  - rewrite Hd in H. cbn [Z.eqb] in H. rewrite forallb_forall in H.
    apply Hs, H. destruct freq; cbn; tauto.
  - destruct (Z.eqb_spec (cm_depth e) 0); [contradiction|]. apply Hs, H.
Qed.

Lemma mode_scan_bound tbl mode freq : forall k i,
  mode_scan tbl k mode freq = Found i -> (k <= i < k + length tbl)%nat.
Proof.
  induction tbl as [|e tbl IH]; intros k i; cbn [mode_scan length]; [discriminate|].
  destruct (_ || _).
  - destruct (graph_mode_t_beq (cm_mode e) GRAPH_DEFMODE); [discriminate|].
    intros H. apply IH in H. lia.
  - intros H. inversion H. lia.
Qed.

Lemma mode_index_bound mode freq i :
  mode_index mode freq = Found i -> (i < length modes)%nat.
Proof.
  unfold mode_index. destruct (graph_mode_t_beq mode GRAPH_DEFMODE).
  - intros H. inversion H. cbn. unfold DEFMODE. lia.
  - intros H. apply mode_scan_bound in H. lia.
Qed.

(** ** Mode setting, by parts *)

(** [cirrus_mode], once the lookup has stopped at an entry. *)
Lemma cirrus_mode_found {adapter : Adapter} cdev st0 vclk0 graph mode freq i :
  mode_index mode freq = Found i ->
  let m := nth i modes (mk_mode GRAPH_DEFMODE 0 (pwm 0 0)) in
  cirrus_mode cdev st0 vclk0 graph mode freq
  = if cm_depth m =? 0 then program_power m graph
    else match programmed_clock m (vc_num vclk0) (vc_den vclk0) with
         | (Err _, _) => ret (Some (Err EFAULT, graph))
         | (EOK, vclk) =>
           match depth_profile (cm_depth m) (snd (adjust_h (gfx_cfg m))) with
           | None => ret (Some (Err EFAULT, graph))
           | Some (add07, hdr_) =>
             program_mode cdev (programmed_image st0 m add07 hdr_) vclk m
           end
         end.
Proof.
  intros Hidx m. subst m.
  unfold cirrus_mode, program_power, program_mode, programmed_clock, programmed_image,
    programmed_cfg.
  rewrite Hidx. cbv zeta.
  destruct (cm_depth _ =? 0); [reflexivity|].
  destruct (adjust_h _) as [cfg hdiv]. cbn [fst snd].
  destruct (adjust_v cfg) as [cfg' vdiv]. cbn [fst snd].
  destruct (cirrus_vclk _ _) as [[|e] vclk]; [|reflexivity].
  destruct (depth_profile _ _) as [[a h]|]; reflexivity.
Qed.

Lemma modes_ok : forallb entry_ok modes = true.
Proof. vm_cast_no_check (eq_refl true). Qed.

Lemma entry_ok_clock m num den :
  entry_ok m = true -> cm_depth m <> 0 ->
  exists v p,
    programmed_clock m num den = (EOK, v)
    /\ depth_profile (cm_depth m) (snd (adjust_h (gfx_cfg m))) = Some p
    /\ Z.abs (vc_freq v - clk (programmed_cfg m)) * 1000 <= 3 * clk (programmed_cfg m).
Proof.
  unfold entry_ok. intros H Hd.
  destruct (Z.eqb_spec (cm_depth m) 0); [contradiction|]. cbn [orb] in H.
  destruct (programmed_clock m 0 0) as [[|e] v] eqn:E; [|discriminate].
  destruct (depth_profile _ _) as [p|]; [|discriminate].
  exists v, p. apply Z.leb_le in H.
  destruct (vclk_same_frequency (nth (Z.to_nat (cm_depth m)) maxvclks 0)
              (clk (programmed_cfg m)) 0 0 num den) as [_ Hsame].
  unfold programmed_clock in *. rewrite E in Hsame. rewrite <- Hsame by reflexivity.
  auto.
Qed.

(** The frame of every entry fits 32 bits. *)
Lemma modes_frames :
  Forall (fun m => 0 <= hres (gfx_cfg m) * vres (gfx_cfg m) < 4294967296
                   /\ 0 <= hres (gfx_cfg m) * vres (gfx_cfg m) * cm_depth m < 4294967296)
         modes.
Proof. repeat constructor; cbn; lia. Qed.

Section Total.

Context {adapter : Adapter}.

(** What the closing [memset] of [program_mode] decides: the code
    returned is [EOK] when the frame lies in the mapped memory, and
    there is no defined result when it does not. *)
Lemma program_mode_result cdev img vclk m w :
  let n := u32 (u32 (hres (gfx_cfg m) * vres (gfx_cfg m)) * cm_depth m) in
  fst (program_mode cdev img vclk m w)
  = if n <=? vmemsz cdev
    then Some (EOK, mk_graph (hres (gfx_cfg m)) (vres (gfx_cfg m)) (cm_depth m))
    else None.
Proof.
  cbv zeta. unfold program_mode. cbv zeta. cbn [width height depth]. revert w.
  do 6 (apply (bind_post _ _ (fun r => r = _)); intros ?).
  intros w. rewrite bind_run. unfold vmem_clear.
  destruct (_ <=? vmemsz cdev); reflexivity.
Qed.

(** X7.  [cirrus_mode] never returns [-EFAULT]: every
    entry of the table has a depth the function knows and a clock the
    synthesis finds.  A request the lookup resolves to a power
    management entry succeeds and leaves the reported geometry alone.
    One it resolves to a graphics entry succeeds and reports the
    resolution and depth of the entry when the frame, width x height x
    depth bytes, lies in the mapped video memory; when the frame is
    larger the closing [memset] leaves the mapping and the call has no
    defined result.  A request the lookup does not resolve fails with
    [-ENOTSUP] before any access. *)
Theorem cirrus_mode_total cdev st0 vclk0 graph mode freq w :
  let r := cirrus_mode cdev st0 vclk0 graph mode freq w in
  (forall g, fst r <> Some (Err EFAULT, g))
  /\ match mode_index mode freq with
     | Found i =>
       let e := nth i modes (mk_mode GRAPH_DEFMODE 0 (pwm 0 0)) in
       if cm_depth e =? 0 then fst r = Some (EOK, graph)
       else
         let frame := hres (gfx_cfg e) * vres (gfx_cfg e) * cm_depth e in
         (frame <= vmemsz cdev ->
          fst r = Some (EOK, mk_graph (hres (gfx_cfg e)) (vres (gfx_cfg e)) (cm_depth e)))
         /\ (vmemsz cdev < frame -> fst r = None)
     | _ => r = (Some (Err ENOTSUP, graph), w)
     end.
Proof.
  intros r.
  assert (H : match mode_index mode freq with
     | Found i =>
       let e := nth i modes (mk_mode GRAPH_DEFMODE 0 (pwm 0 0)) in
       if cm_depth e =? 0 then fst r = Some (EOK, graph)
       else
         let frame := hres (gfx_cfg e) * vres (gfx_cfg e) * cm_depth e in
         (frame <= vmemsz cdev ->
          fst r = Some (EOK, mk_graph (hres (gfx_cfg e)) (vres (gfx_cfg e)) (cm_depth e)))
         /\ (vmemsz cdev < frame -> fst r = None)
     | _ => r = (Some (Err ENOTSUP, graph), w)
     end).
  { subst r. destruct (mode_index mode freq) as [i| |] eqn:Hidx;
      [|unfold cirrus_mode; rewrite Hidx; reflexivity..].
    cbv zeta. rewrite (cirrus_mode_found cdev st0 vclk0 graph mode freq i Hidx).
    generalize (nth i modes (mk_mode GRAPH_DEFMODE 0 (pwm 0 0)))
               (nth_In modes (mk_mode GRAPH_DEFMODE 0 (pwm 0 0))
                       (mode_index_bound mode freq i Hidx)).
    intros e Hin.
    assert (Hok : entry_ok e = true).
    { assert (Hall := modes_ok). rewrite forallb_forall in Hall. apply Hall, Hin. }
    assert (Hfr := modes_frames). rewrite Forall_forall in Hfr. specialize (Hfr e Hin).
    destruct (Z.eqb_spec (cm_depth e) 0) as [Hd|Hd].
    - unfold program_power. revert w.
      repeat (apply (bind_post _ _ (fun r => r = Some (EOK, graph))); intros).
      reflexivity.
    - destruct (entry_ok_clock e (vc_num vclk0) (vc_den vclk0) Hok Hd)
        as (v & [add07 hdr_] & Hclk & Hprof & _).
      rewrite Hclk, Hprof, program_mode_result.
      rewrite (u32_id (hres _ * vres _)) by lia. rewrite u32_id by lia.
      destruct (Z.leb_spec (hres (gfx_cfg e) * vres (gfx_cfg e) * cm_depth e) (vmemsz cdev));
        split; intros; [reflexivity | lia | lia | reflexivity]. }
  split; [|exact H].
  intros g. destruct (mode_index mode freq) as [i| |]; cbv zeta in H.
  - destruct (cm_depth _ =? 0); [rewrite H; discriminate|].
    destruct H as [H1 H2].
    destruct (Z.le_gt_cases (hres (gfx_cfg (nth i modes (mk_mode GRAPH_DEFMODE 0 (pwm 0 0))))
                             * vres (gfx_cfg (nth i modes (mk_mode GRAPH_DEFMODE 0 (pwm 0 0))))
                             * cm_depth (nth i modes (mk_mode GRAPH_DEFMODE 0 (pwm 0 0))))
                            (vmemsz cdev)) as [Hle|Hgt].
    + rewrite (H1 Hle). discriminate.
    + rewrite (H2 Hgt). discriminate.
  - rewrite H. discriminate.
  - rewrite H. discriminate.
Qed.

End Total.

(** X8.  For every graphics entry of the table,
    the clock [cirrus_mode] programs is within 0.3% of the pixel clock
    of the configuration it programs (the entry's, halved when it
    exceeds 85500 kHz), whatever the local [vclk] held. *)
Theorem catalog_clock_accuracy m num den :
  In m modes -> cm_depth m <> 0 ->
  exists v,
    programmed_clock m num den = (EOK, v)
    /\ Z.abs (vc_freq v - clk (programmed_cfg m)) * 1000 <= 3 * clk (programmed_cfg m).
Proof.
  intros Hin Hd. assert (Hall := modes_ok). rewrite forallb_forall in Hall.
  destruct (entry_ok_clock m num den (Hall m Hin) Hd) as (v & p & H1 & _ & H2).
  exists v. auto.
Qed.

(** ** Register fields of the image *)

Lemma land_100 x : Z.land x 0x100 = 256 * Z.b2z (Z.testbit x 8).
Proof. exact (land_bit x 8 ltac:(lia)). Qed.

Lemma land_200 x : Z.land x 0x200 = 512 * Z.b2z (Z.testbit x 9).
Proof. exact (land_bit x 9 ltac:(lia)). Qed.

(** The low ten bits of a word: a byte and two overflow bits. *)
Lemma split10 x :
  x mod 1024 = Z.land x 0xff + 256 * Z.b2z (Z.testbit x 8) + 512 * Z.b2z (Z.testbit x 9).
Proof.
  rewrite (Z.land_ones x 8 ltac:(lia) : Z.land x 0xff = x mod 256).
  rewrite !Z.testbit_spec' by lia. change (2 ^ 8) with 256. change (2 ^ 9) with 512.
  Z.div_mod_to_equations. lia.
Qed.

Lemma u32_mod1024 x : u32 x mod 1024 = x mod 1024.
Proof. unfold u32. Z.div_mod_to_equations. lia. Qed.

Lemma overflow_bits X R S B :
  let c := overflow X R S B in
  Z.testbit c 0 = Z.testbit X 8 /\ Z.testbit c 5 = Z.testbit X 9
  /\ Z.testbit c 1 = Z.testbit R 8 /\ Z.testbit c 6 = Z.testbit R 9
  /\ Z.testbit c 2 = Z.testbit S 8 /\ Z.testbit c 7 = Z.testbit S 9
  /\ Z.testbit c 3 = Z.testbit B 8 /\ Z.testbit c 4 = true.
Proof.
  unfold overflow. rewrite !land_100, !land_200.
  destruct (Z.testbit X 8), (Z.testbit X 9), (Z.testbit R 8), (Z.testbit R 9),
    (Z.testbit S 8), (Z.testbit S 9), (Z.testbit B 8); vm_compute; repeat split.
Qed.

Lemma max_scan_bit m B : Z.testbit (max_scan m B) 5 = Z.testbit B 9.
Proof.
  unfold max_scan. cbv zeta.
  assert (E0 : Z.testbit (u8 (Z.lor (Z.shiftr (Z.land B 0x200) 4) 0x40)) 5 = Z.testbit B 9).
  { rewrite land_200. destruct (Z.testbit B 9); reflexivity. }
  set (c0 := u8 (Z.lor (Z.shiftr (Z.land B 0x200) 4) 0x40)) in *.
  assert (E1 : Z.testbit (if testflag (flags m) VGA_DBLSCAN then u8 (Z.lor c0 0x80) else c0) 5
               = Z.testbit B 9).
  { destruct (testflag _ _); [|exact E0].
    rewrite testbit_u8, Z.lor_spec, E0 by lia. apply orb_false_r. }
  set (c1 := if testflag (flags m) VGA_DBLSCAN then u8 (Z.lor c0 0x80) else c0) in *.
  destruct (Z.leb_spec 32 (vscan m)).
  - rewrite testbit_u8, Z.lor_spec, E1 by lia. apply orb_false_r.
  - destruct (Z.ltb_spec 1 (vscan m)); [|exact E1].
    rewrite testbit_u8, Z.lor_spec, E1 by lia.
    rewrite u32_id by lia.
    rewrite (Z.bits_above_log2 (vscan m - 1) 5); [apply orb_false_r | lia |].
    apply Z.log2_lt_pow2; lia.
Qed.

Lemma mode_crtc_overflow m v hb vb st :
  let '(v_res, v_syncs, v_synce, v_total) := v in
  let s := mode_crtc m v hb vb st in
  crtc s 7%nat = overflow (u32 (v_total - 2)) (u32 (v_res - 1)) (u32 (v_syncs - 1))
                          (u32 (fst vb - 1))
  /\ crtc s 9%nat = max_scan m (u32 (fst vb - 1)).
Proof.
  destruct v as [[[v_res v_syncs] v_synce] v_total], hb as [hbs hbe], vb as [vbs vbe].
  unfold mode_crtc, overflow, max_scan. cbv zeta.
  cbn [crtc set_crtc aset Nat.eqb fst].
  repeat (rewrite !crtc_if; cbn [crtc set_crtc aset Nat.eqb]; rewrite ?if_same).
  split; [reflexivity|].
  destruct (testflag (flags m) VGA_DBLSCAN), (32 <=? vscan m), (1 <? vscan m); reflexivity.
Qed.

(** X9.  The ten-bit vertical quantities
    [vga_mode] programs can be read back from the register image:
    vertical total - 2 from CRTC 6 and bits 0 and 5 of the overflow
    register CRTC 7, resolution - 1 from CRTC 18 and bits 1 and 6, sync
    start - 1 from CRTC 16 and bits 2 and 7, blanking start - 1 from
    CRTC 21, bit 3 of CRTC 7 and bit 5 of CRTC 9, each modulo 1024; bit
    4 of CRTC 7 is always set. *)
Theorem vertical_registers_decode clkidx m st :
  let '(v_res, v_syncs, v_synce, v_total) := Timing.vertical m in
  let vblanks := fst (Timing.vblank m) in
  let s := vga_mode clkidx m st in
  let bit reg n := Z.b2z (Z.testbit (crtc s reg) n) in
  (v_total - 2) mod 1024 = crtc s 6%nat + 256 * bit 7%nat 0 + 512 * bit 7%nat 5
  /\ (v_res - 1) mod 1024 = crtc s 18%nat + 256 * bit 7%nat 1 + 512 * bit 7%nat 6
  /\ (v_syncs - 1) mod 1024 = crtc s 16%nat + 256 * bit 7%nat 2 + 512 * bit 7%nat 7
  /\ (vblanks - 1) mod 1024 = crtc s 21%nat + 256 * bit 7%nat 3 + 512 * bit 9%nat 5
  /\ bit 7%nat 4 = 1.
Proof.
  assert (H := mode_crtc_vertical m (Timing.vertical m) (Timing.hblank m)
                 (Timing.vblank m) (mode_seq m (mode_misc clkidx m st))).
  assert (G := mode_crtc_overflow m (Timing.vertical m) (Timing.hblank m)
                 (Timing.vblank m) (mode_seq m (mode_misc clkidx m st))).
  cbv zeta in *. rewrite !vga_mode_crtc by discriminate.
  destruct (Timing.vertical m) as [[[v_res v_syncs] v_synce] v_total].
  destruct H as (H6 & H16 & H18 & _ & H21). destruct G as (G7 & G9).
  rewrite H6, H16, H18, H21, G7, G9.
  destruct (overflow_bits (u32 (v_total - 2)) (u32 (v_res - 1)) (u32 (v_syncs - 1))
              (u32 (fst (Timing.vblank m) - 1)))
    as (B0 & B5 & B1 & B6 & B2 & B7 & B3 & B4).
  cbv zeta in *. rewrite B0, B5, B1, B6, B2, B7, B3, B4, max_scan_bit.
  rewrite <- !split10, !u32_mod1024. auto.
Qed.

(** ** Cursor position *)

(** The register index and the data byte [cirrus_cursorpos] sends for a
    coordinate: the low three bits travel in the index. *)
Lemma cursor_reg x k :
  k = 0x10 \/ k = 0x11 ->
  u8 (Z.lor (u32 (Z.shiftl x 5)) k) = 32 * (x mod 8) + k.
Proof.
  intros Hk. rewrite u8_land, Z.land_lor_distr_l, <- !u8_land.
  assert (E : u8 (u32 (Z.shiftl x 5)) = 32 * (x mod 8)).
  { rewrite Z.shiftl_mul_pow2 by lia. change (2 ^ 5) with 32.
    unfold u8, u32. Z.div_mod_to_equations. lia. }
  rewrite E.
  assert (H := Z.mod_pos_bound x 8 ltac:(lia)).
  assert (C : x mod 8 = 0 \/ x mod 8 = 1 \/ x mod 8 = 2 \/ x mod 8 = 3
           \/ x mod 8 = 4 \/ x mod 8 = 5 \/ x mod 8 = 6 \/ x mod 8 = 7) by lia.
  destruct Hk as [-> | ->];
    repeat (destruct C as [C | C]; [rewrite C; reflexivity|]); rewrite C; reflexivity.
Qed.

Lemma cursor_val x : u8 (Z.shiftr x 3) = x / 8 mod 256.
Proof. rewrite Z.shiftr_div_pow2 by lia. reflexivity. Qed.

Section CursorPos.

Context {adapter : Adapter}.

(** X10.  [cirrus_cursorpos] always succeeds, with two
    sequencer writes, and leaves the frame buffer alone.  Each
    coordinate is split between the register index (bits 5-7 carry its
    low three bits, above the index 0x10 for x and 0x11 for y) and the
    data byte (its next eight bits): a coordinate is carried modulo
    2048. *)
Theorem cursorpos_encoding x y w :
  let r := cirrus_cursorpos x y w in
  exists rx vx ry vy,
    fst r = EOK
    /\ w_log (snd r) = w_log w ++ [EvWrite SEQ rx vx; EvWrite SEQ ry vy]
    /\ w_vmem (snd r) = w_vmem w
    /\ rx mod 32 = 0x10 /\ ry mod 32 = 0x11
    /\ 0 <= vx < 256 /\ 0 <= vy < 256
    /\ 8 * vx + rx / 32 = x mod 2048
    /\ 8 * vy + ry / 32 = y mod 2048.
Proof.
  intros r.
  exists (32 * (x mod 8) + 0x10), (x / 8 mod 256), (32 * (y mod 8) + 0x11), (y / 8 mod 256).
  split; [reflexivity|]. split.
  { subst r. unfold cirrus_cursorpos, vga_writeseq, bind, access, ret.
    cbn [fst snd w_log]. rewrite <- app_assoc. cbn [app].
    rewrite (cursor_reg x 16), (cursor_reg y 17), !cursor_val by auto.
    reflexivity. }
  split; [reflexivity|].
  repeat split; try (Z.div_mod_to_equations; lia).
Qed.

End CursorPos.

(** ** The register image of [vga_mode] *)

Lemma aset_other a k v i : i <> k -> aset a k v i = a i.
Proof. intros H. unfold aset. destruct (Nat.eqb_spec i k); [contradiction | reflexivity]. Qed.

(** *** The CRT controller bank *)

Lemma mode_crtc_init m v hb vb s s' i :
  (i < 25)%nat -> crtc (mode_crtc m v hb vb s) i = crtc (mode_crtc m v hb vb s') i.
Proof.
  intros Hi.
  destruct v as [[[v_res v_syncs] v_synce] v_total], hb as [hbs hbe], vb as [vbs vbe].
  unfold mode_crtc. cbv zeta.
  do 25 (destruct i as [|i];
         [cbn [crtc set_crtc aset Nat.eqb];
          repeat (rewrite !crtc_if; cbn [crtc set_crtc aset Nat.eqb]; rewrite ?if_same);
          reflexivity|]).
  exfalso; lia.
Qed.

Lemma mode_crtc_beyond m v hb vb s i :
  (25 <= i)%nat -> crtc (mode_crtc m v hb vb s) i = crtc s i.
Proof.
  intros Hi.
  destruct v as [[[v_res v_syncs] v_synce] v_total], hb as [hbs hbe], vb as [vbs vbe].
  unfold mode_crtc. cbv zeta.
  repeat match goal with
         | |- context [if ?b then _ else _] => destruct b
         end; cbn [crtc set_crtc]; rewrite !aset_other by lia; reflexivity.
Qed.

Lemma fix_hblank_ext m hb s s' i :
  crtc s 3%nat = crtc s' 3%nat -> crtc s 5%nat = crtc s' 5%nat -> crtc s i = crtc s' i ->
  crtc (fix_hblank m hb s) i = crtc (fix_hblank m hb s') i.
Proof.
  intros H3 H5 Hi. unfold fix_hblank. destruct hb as [hbs hbe].
  rewrite !crtc_if. cbn [crtc set_crtc]. unfold aset. cbn [Nat.eqb].
  rewrite H3, H5, Hi. reflexivity.
Qed.

Lemma fix_vblank_ext m vb s s' i :
  crtc s 9%nat = crtc s' 9%nat -> crtc s 21%nat = crtc s' 21%nat ->
  crtc s 22%nat = crtc s' 22%nat -> crtc s i = crtc s' i ->
  crtc (fix_vblank m vb s) i = crtc (fix_vblank m vb s') i.
Proof.
  intros H9 H21 H22 Hi. unfold fix_vblank. destruct vb as [vbs vbe].
  rewrite !crtc_if. cbn [crtc set_crtc]. unfold aset.
  rewrite H9, H21, H22, Hi. reflexivity.
Qed.

Lemma vga_mode_crtc_stages clkidx m s i :
  crtc (vga_mode clkidx m s) i
  = crtc (fix_vblank m (Timing.vblank m)
            (fix_hblank m (Timing.hblank m)
               (mode_crtc m (Timing.vertical m) (Timing.hblank m) (Timing.vblank m)
                  (mode_seq m (mode_misc clkidx m s))))) i.
Proof. reflexivity. Qed.

Lemma vga_mode_crtc_init clkidx m s s' i :
  (i < 25)%nat -> crtc (vga_mode clkidx m s) i = crtc (vga_mode clkidx m s') i.
Proof.
  intros Hi. rewrite !vga_mode_crtc_stages.
  apply fix_vblank_ext;
    repeat (apply fix_hblank_ext); apply mode_crtc_init; lia.
Qed.

Lemma vga_mode_crtc_beyond clkidx m s i :
  (25 <= i)%nat -> crtc (vga_mode clkidx m s) i = crtc s i.
Proof.
  intros Hi. rewrite vga_mode_crtc by lia. rewrite mode_crtc_beyond by lia.
  unfold mode_seq, mode_misc. cbv zeta.
  destruct (testflag (flags m) VGA_HSYNCP), (testflag (flags m) VGA_VSYNCP); reflexivity.
Qed.

(** *** The other banks *)

Lemma fix_hblank_frame m hb x : same_but_crtc (fix_hblank m hb x) x.
Proof. destruct hb as [a b]. unfold fix_hblank. destruct (_ =? _); repeat split. Qed.

Lemma fix_vblank_frame m vb x : same_but_crtc (fix_vblank m vb x) x.
Proof. destruct vb as [a b]. unfold fix_vblank. destruct (_ =? _); repeat split. Qed.

Lemma mode_crtc_frame m v hb vb x : same_but_crtc (mode_crtc m v hb vb x) x.
Proof.
  destruct v as [[[a b] c] d], hb as [e f], vb as [g h]. unfold mode_crtc. cbv zeta.
  repeat match goal with
         | |- context [if ?b then _ else _] => destruct b
         end; repeat split.
Qed.

Lemma crtc_stages_frame m x :
  same_but_crtc
    (fix_vblank m (Timing.vblank m)
       (fix_hblank m (Timing.hblank m)
          (mode_crtc m (Timing.vertical m) (Timing.hblank m) (Timing.vblank m) x))) x.
Proof.
  destruct (fix_vblank_frame m (Timing.vblank m)
              (fix_hblank m (Timing.hblank m)
                 (mode_crtc m (Timing.vertical m) (Timing.hblank m) (Timing.vblank m) x)))
    as (A0 & A1 & A2 & A3 & A4 & A5 & A6 & A7).
  destruct (fix_hblank_frame m (Timing.hblank m)
              (mode_crtc m (Timing.vertical m) (Timing.hblank m) (Timing.vblank m) x))
    as (B0 & B1 & B2 & B3 & B4 & B5 & B6 & B7).
  destruct (mode_crtc_frame m (Timing.vertical m) (Timing.hblank m) (Timing.vblank m) x)
    as (C0 & C1 & C2 & C3 & C4 & C5 & C6 & C7).
  unfold same_but_crtc.
  rewrite A0, A1, A2, A3, A4, A5, A6, A7, B0, B1, B2, B3, B4, B5, B6, B7.
  repeat split; assumption.
Qed.


Lemma mode_attr_frame x :
  let y := mode_attr x in
  misc y = misc x /\ crtc y = crtc x /\ seq_ y = seq_ x /\ gfx y = gfx x
  /\ cmap y = cmap x /\ text y = text x /\ font1 y = font1 x /\ font2 y = font2 x.
Proof.
  unfold mode_attr. cbv zeta.
  cbn [misc crtc seq_ gfx cmap text font1 font2 set_attr]. repeat split.
Qed.

Lemma mode_gfx_frame x :
  let y := mode_gfx x in
  misc y = misc x /\ crtc y = crtc x /\ seq_ y = seq_ x /\ attr y = attr x
  /\ cmap y = cmap x /\ text y = text x /\ font1 y = font1 x /\ font2 y = font2 x.
Proof.
  unfold mode_gfx. cbv zeta.
  cbn [misc crtc seq_ attr cmap text font1 font2 set_gfx]. repeat split.
Qed.

Lemma mode_seq_misc_frame clkidx m x :
  let y := mode_seq m (mode_misc clkidx m x) in
  crtc y = crtc x /\ gfx y = gfx x /\ attr y = attr x
  /\ cmap y = cmap x /\ text y = text x /\ font1 y = font1 x /\ font2 y = font2 x.
Proof.
  unfold mode_seq, mode_misc. cbv zeta.
  destruct (testflag (flags m) VGA_HSYNCP), (testflag (flags m) VGA_VSYNCP); repeat split.
Qed.

(** The miscellaneous register of the image. *)
Lemma vga_mode_misc clkidx m s :
  misc (vga_mode clkidx m s)
  = let v := u8 (Z.lor 0x23 (Z.shiftl (Z.land clkidx 0x03) 2)) in
    let v := if testflag (flags m) VGA_HSYNCP then v else u8 (Z.lor v 0x40) in
    if testflag (flags m) VGA_VSYNCP then v else u8 (Z.lor v 0x80).
Proof.
  unfold vga_mode. cbv zeta.
  set (x := fix_vblank _ _ _).
  destruct (mode_attr_frame (mode_gfx x)) as (E1 & _).
  destruct (mode_gfx_frame x) as (E2 & _). cbv zeta in E1, E2. rewrite E1, E2. subst x.
  destruct (crtc_stages_frame m (mode_seq m (mode_misc clkidx m s))) as (E & _).
  rewrite E. clear. unfold mode_seq, mode_misc. cbv zeta.
  destruct (testflag (flags m) VGA_HSYNCP), (testflag (flags m) VGA_VSYNCP); reflexivity.
Qed.

Lemma vga_mode_seq clkidx m s i :
  seq_ (vga_mode clkidx m s) i
  = nth i [0x00; if testflag (flags m) VGA_CLKDIV then 0x09 else 0x01; 0x0f; 0x00; 0x0e]
        (seq_ s i).
Proof.
  unfold vga_mode. cbv zeta.
  set (x := fix_vblank _ _ _).
  destruct (mode_attr_frame (mode_gfx x)) as (_ & _ & E1 & _).
  destruct (mode_gfx_frame x) as (_ & _ & E2 & _). cbv zeta in E1, E2. rewrite E1, E2. subst x.
  destruct (crtc_stages_frame m (mode_seq m (mode_misc clkidx m s))) as (_ & E & _).
  rewrite E. clear. unfold mode_seq, mode_misc. cbv zeta.
  destruct (testflag (flags m) VGA_HSYNCP), (testflag (flags m) VGA_VSYNCP),
    (testflag (flags m) VGA_CLKDIV);
    cbn [seq_ set_seq set_misc]; unfold aset;
    do 5 (destruct i as [|i]; [reflexivity|]); cbn [Nat.eqb nth]; destruct i; reflexivity.
Qed.

Lemma vga_mode_gfx clkidx m s i :
  gfx (vga_mode clkidx m s) i
  = nth i [0x00; 0x00; 0x00; 0x00; 0x00; 0x40; 0x05; 0x0f; 0xff] (gfx s i).
Proof.
  unfold vga_mode. cbv zeta.
  set (x := fix_vblank _ _ _).
  destruct (mode_attr_frame (mode_gfx x)) as (_ & _ & _ & E1 & _). cbv zeta in E1. rewrite E1.
  assert (E : gfx x = gfx s).
  { subst x.
    destruct (crtc_stages_frame m (mode_seq m (mode_misc clkidx m s))) as (_ & _ & E & _).
    destruct (mode_seq_misc_frame clkidx m s) as (_ & F & _). cbv zeta in F.
    rewrite E, F. reflexivity. }
  clearbody x. unfold mode_gfx. cbv zeta. cbn [gfx set_gfx]. rewrite E. unfold aset.
  do 9 (destruct i as [|i]; [reflexivity|]); cbn [Nat.eqb nth]; destruct i; reflexivity.
Qed.

Lemma vga_mode_attr clkidx m s i :
  attr (vga_mode clkidx m s) i
  = nth i [0x00; 0x01; 0x02; 0x03; 0x04; 0x05; 0x06; 0x07; 0x08; 0x09; 0x0a; 0x0b;
           0x0c; 0x0d; 0x0e; 0x0f; 0x41; 0xff; 0x0f; 0x00; 0x00] (attr s i).
Proof.
  unfold vga_mode. cbv zeta.
  set (x := fix_vblank _ _ _).
  assert (E : attr (mode_gfx x) = attr s).
  { destruct (mode_gfx_frame x) as (_ & _ & _ & E2 & _). cbv zeta in E2. rewrite E2. subst x.
    destruct (crtc_stages_frame m (mode_seq m (mode_misc clkidx m s)))
      as (_ & _ & _ & E & _).
    destruct (mode_seq_misc_frame clkidx m s) as (_ & _ & F & _). cbv zeta in F.
    rewrite E, F. reflexivity. }
  generalize dependent (mode_gfx x). intros y E.
  unfold mode_attr. cbv zeta. cbn [attr set_attr]. rewrite E. unfold aset.
  do 21 (destruct i as [|i]; [reflexivity|]); cbn [Nat.eqb nth]; destruct i; reflexivity.
Qed.

Lemma vga_mode_buffers clkidx m s :
  let y := vga_mode clkidx m s in
  cmap y = cmap s /\ text y = text s /\ font1 y = font1 s /\ font2 y = font2 s.
Proof.
  unfold vga_mode. cbv zeta.
  set (x := fix_vblank _ _ _).
  destruct (mode_attr_frame (mode_gfx x)) as (_ & _ & _ & _ & A1 & A2 & A3 & A4).
  destruct (mode_gfx_frame x) as (_ & _ & _ & _ & B1 & B2 & B3 & B4).
  cbv zeta in *. rewrite A1, A2, A3, A4, B1, B2, B3, B4. subst x.
  destruct (crtc_stages_frame m (mode_seq m (mode_misc clkidx m s)))
    as (_ & _ & _ & _ & E1 & E2 & E3 & E4).
  destruct (mode_seq_misc_frame clkidx m s) as (_ & _ & _ & F1 & F2 & F3 & F4).
  cbv zeta in *. rewrite E1, E2, E3, E4, F1, F2, F3, F4. repeat split.
Qed.

(** The banks [vga_mode] leaves, against the image it was handed. *)
Lemma vga_mode_banks clkidx m st st' :
  let s := vga_mode clkidx m st in
  let s' := vga_mode clkidx m st' in
  misc s = misc s'
  /\ (forall i, (i < 25)%nat -> crtc s i = crtc s' i)
  /\ (forall i, (i < 5)%nat -> seq_ s i = seq_ s' i)
  /\ (forall i, (i < 9)%nat -> gfx s i = gfx s' i)
  /\ (forall i, (i < 21)%nat -> attr s i = attr s' i)
  /\ (forall i, (25 <= i)%nat -> crtc s i = crtc st i)
  /\ (forall i, (5 <= i)%nat -> seq_ s i = seq_ st i)
  /\ (forall i, (9 <= i)%nat -> gfx s i = gfx st i)
  /\ (forall i, (21 <= i)%nat -> attr s i = attr st i)
  /\ cmap s = cmap st /\ text s = text st /\ font1 s = font1 st /\ font2 s = font2 st.
Proof.
  cbv zeta.
  split; [rewrite !vga_mode_misc; reflexivity|].
  split; [intros i Hi; apply vga_mode_crtc_init, Hi|].
  split; [intros i Hi; rewrite !vga_mode_seq; apply nth_indep; cbn; lia|].
  split; [intros i Hi; rewrite !vga_mode_gfx; apply nth_indep; cbn; lia|].
  split; [intros i Hi; rewrite !vga_mode_attr; apply nth_indep; cbn; lia|].
  split; [intros i Hi; apply vga_mode_crtc_beyond, Hi|].
  split; [intros i Hi; rewrite vga_mode_seq; apply nth_overflow; cbn; lia|].
  split; [intros i Hi; rewrite vga_mode_gfx; apply nth_overflow; cbn; lia|].
  split; [intros i Hi; rewrite vga_mode_attr; apply nth_overflow; cbn; lia|].
  apply vga_mode_buffers.
Qed.

(** X11.  [vga_mode] defines every register of the image: the
    miscellaneous register, the 25 CRT controller registers, the 5
    sequencer registers, the 9 graphics controller registers and the 21
    attribute controller registers it leaves do not depend on what the
    image held before, so that a caller may hand it an uninitialised
    image.  It writes no register beyond these, and leaves the four
    buffer pointers alone. *)
Theorem vga_mode_initialises clkidx m st st' :
  let s := vga_mode clkidx m st in
  let s' := vga_mode clkidx m st' in
  misc s = misc s'
  /\ (forall i, (i < 25)%nat -> crtc s i = crtc s' i)
  /\ (forall i, (i < 5)%nat -> seq_ s i = seq_ s' i)
  /\ (forall i, (i < 9)%nat -> gfx s i = gfx s' i)
  /\ (forall i, (i < 21)%nat -> attr s i = attr s' i)
  /\ (forall i, (25 <= i)%nat -> crtc s i = crtc st i)
  /\ (forall i, (5 <= i)%nat -> seq_ s i = seq_ st i)
  /\ (forall i, (9 <= i)%nat -> gfx s i = gfx st i)
  /\ (forall i, (21 <= i)%nat -> attr s i = attr st i)
  /\ cmap s = cmap st /\ text s = text st /\ font1 s = font1 st /\ font2 s = font2 st.
Proof.
  intros s s'. subst s s'. apply vga_mode_banks.
Qed.

(** ** What restore and mode setting read *)

Section Ext.

Context {adapter : Adapter}.

Lemma bind_ext {A B} (c c' : M A) (k k' : A -> M B) :
  (forall w, c w = c' w) -> (forall a w, k a w = k' a w) ->
  forall w, bind c k w = bind c' k' w.
Proof. intros Hc Hk w. unfold bind. rewrite Hc. destruct (c' w). apply Hk. Qed.

Lemma bind_ext_r {A B} (c : M A) (k k' : A -> M B) :
  (forall a w, k a w = k' a w) -> forall w, bind c k w = bind c k' w.
Proof. intros Hk. apply bind_ext; auto. Qed.

Lemma for_ext {T} (l : list T) (body body' : T -> M unit) :
  (forall x, In x l -> forall w, body x w = body' x w) ->
  forall w, for_ l body w = for_ l body' w.
Proof.
  induction l as [|x l IH]; intros H w; cbn [for_]; [reflexivity|].
  apply bind_ext.
  - apply H. left. reflexivity.
  - intros _. apply IH. intros y Hy. apply H. right. exact Hy.
Qed.

(** What follows a computation decides the world it leaves. *)
Lemma bind_world {A B B'} (c : M A) (k : A -> M B) (k' : A -> M B') :
  (forall a w, snd (k a w) = snd (k' a w)) ->
  forall w, snd (bind c k w) = snd (bind c k' w).
Proof. intros Hk w. rewrite !bind_run. apply Hk. Qed.

Lemma restoremode_ext s s' :
  same_image s s' -> forall w, vga_restoremode s w = vga_restoremode s' w.
Proof.
  intros (Hm & Hc & Hs & Hg & Ha & _) w. unfold vga_restoremode.
  rewrite Hm, (Hc 17%nat) by lia.
  revert w. apply bind_ext_r. intros _. apply bind_ext_r. intros _.
  apply bind_ext.
  { apply for_ext. intros i Hi. apply in_seq in Hi. rewrite Hc by lia. reflexivity. }
  intros _. apply bind_ext.
  { apply for_ext. intros i Hi. apply in_seq in Hi. rewrite Hs by lia. reflexivity. }
  intros _. apply bind_ext.
  { apply for_ext. intros i Hi. apply in_seq in Hi. rewrite Hg by lia. reflexivity. }
  intros _. apply bind_ext_r. intros _. apply bind_ext.
  { apply for_ext. intros i Hi. apply in_seq in Hi. rewrite Ha by lia. reflexivity. }
  reflexivity.
Qed.

Lemma copytext_world s s' dir :
  text s = text s' -> font1 s = font1 s' -> font2 s = font2 s' ->
  forall w, snd (vga_copytext s dir w) = snd (vga_copytext s' dir w).
Proof.
  intros Ht H1 H2. unfold vga_copytext. rewrite Ht, H1, H2.
  repeat (apply bind_world; intros).
  reflexivity.
Qed.

Lemma restoretext_ext s s' :
  same_image s s' -> forall w, vga_restoretext s w = vga_restoretext s' w.
Proof.
  intros (_ & _ & _ & _ & _ & _ & Ht & H1 & H2) w. unfold vga_restoretext.
  rewrite !bind_run. unfold ret. f_equal. apply copytext_world; assumption.
Qed.

Lemma restore_ext s s' :
  same_image s s' -> forall w, vga_restore s w = vga_restore s' w.
Proof.
  intros H. unfold vga_restore.
  apply bind_ext; [apply restoremode_ext, H|]. intros _.
  apply bind_ext.
  - destruct H as (_ & _ & _ & _ & _ & Hc & _). unfold vga_restorecmap. rewrite Hc. reflexivity.
  - intros _. apply restoretext_ext, H.
Qed.

(** X12.  [vga_restore] reads of the image the miscellaneous register,
    CRT controller registers 0-24, sequencer registers 1-4 (the reset
    register, 0, is never restored), graphics controller registers 0-8,
    attribute controller registers 0-20 and the four buffers: two images
    that agree on these are restored with the same accesses, the same
    result and the same effect. *)
Theorem restore_reads_image s s' w :
  same_image s s' -> vga_restore s w = vga_restore s' w.
Proof.
  intros H. apply restore_ext, H.
Qed.


Lemma cirrus_restore_ext st st' :
  same_image (state st) (state st') ->
  cr1a st = cr1a st' -> cr1b st = cr1b st' -> cr1d st = cr1d st' ->
  sr07 st = sr07 st' -> sr0e st = sr0e st' -> sr12 st = sr12 st' -> sr13 st = sr13 st' ->
  sr17 st = sr17 st' -> sr1e st = sr1e st' -> sr21 st = sr21 st' -> sr2d st = sr2d st' ->
  gr17 st = gr17 st' -> gr18 st = gr18 st' -> hdr st = hdr st' ->
  forall w, cirrus_restore st w = cirrus_restore st' w.
Proof.
  intros H E1 E2 E3 E4 E5 E6 E7 E8 E9 E10 E11 E12 E13 E14 w. unfold cirrus_restore.
  rewrite E1, E2, E3, E4, E5, E6, E7, E8, E9, E10, E11, E12, E13, E14.
  revert w. do 18 (apply bind_ext_r; intros _).
  intros w. apply restore_ext, H.
Qed.

Lemma compose_same st0 st0' cfg pitch hdiv vdiv add07 hdr_ :
  same_image (state (compose st0 cfg pitch hdiv vdiv add07 hdr_))
             (state (compose st0' cfg pitch hdiv vdiv add07 hdr_)).
Proof.
  unfold compose. cbv zeta. cbn [state].
  destruct (vga_mode_banks 3 cfg (state st0) (state st0'))
    as (Hm & Hc & Hs & Hg & Ha & _).
  cbv zeta in *.
  generalize dependent (vga_mode 3 cfg (state st0')).
  generalize dependent (vga_mode 3 cfg (state st0)).
  intros b b' Hm Hc Hs Hg Ha.
  unfold same_image. cbn [misc crtc seq_ gfx attr cmap text font1 font2 set_crtc set_buffers].
  repeat split; auto.
  - intros i Hi. unfold aset. cbn [Nat.eqb].
    rewrite (Hc 23%nat) by lia.
    destruct (Nat.eqb i 23); [reflexivity|].
    destruct (Nat.eqb i 19); [reflexivity|]. apply Hc, Hi.
  - intros i Hi. apply Hs. lia.
Qed.

Lemma cirrus_mode_locals cdev st0 vclk0 st0' vclk0' graph mode freq w :
  cirrus_mode cdev st0 vclk0 graph mode freq w
  = cirrus_mode cdev st0' vclk0' graph mode freq w.
Proof.
  destruct (mode_index mode freq) as [i| |] eqn:Hidx;
    [|unfold cirrus_mode; rewrite Hidx; reflexivity..].
  rewrite !(cirrus_mode_found cdev _ _ graph mode freq i Hidx). cbv zeta.
  generalize (nth i modes (mk_mode GRAPH_DEFMODE 0 (pwm 0 0))). intros m.
  destruct (cm_depth m =? 0); [reflexivity|].
  destruct (vclk_same_frequency (nth (Z.to_nat (cm_depth m)) maxvclks 0)
              (clk (programmed_cfg m)) (vc_num vclk0) (vc_den vclk0)
              (vc_num vclk0') (vc_den vclk0')) as [Hc Hs].
  cbv zeta in Hc, Hs. unfold programmed_clock.
  destruct (cirrus_vclk _ (mk_vclk _ (vc_num vclk0) _)) as [[|e] v].
  - rewrite <- Hs by reflexivity.
    destruct (depth_profile _ _) as [[add07 hdr_]|]; [|reflexivity].
    unfold program_mode. revert w. apply bind_ext_r. intros _. apply bind_ext; [|reflexivity].
    unfold programmed_image.
    apply cirrus_restore_ext; [apply compose_same|..];
      unfold compose; cbv zeta;
      cbn [cr1a cr1b cr1d sr07 sr0e sr12 sr13 sr17 sr1e sr21 sr2d gr17 gr18 hdr];
      reflexivity.
  - destruct (cirrus_vclk _ (mk_vclk _ (vc_num vclk0') _)) as [[|e'] v'];
      [discriminate | reflexivity].
Qed.

Lemma vgadev_mode_locals st0 st0' graph mode freq w :
  Vgadev.vgadev_mode st0 graph mode freq w = Vgadev.vgadev_mode st0' graph mode freq w.
Proof.
  unfold Vgadev.vgadev_mode.
  destruct (Vgadev.mode_index mode freq) as [i| |]; [|reflexivity..].
  cbv zeta.
  generalize (nth i Vgadev.modes (Vgadev.mk_mode GRAPH_DEFMODE 0 (Vgadev.pwm 0 0))).
  intros m. destruct (Vgadev.vm_depth m =? 0); [reflexivity|].
  revert w. apply bind_ext_r. intros _. apply bind_ext; [|reflexivity].
  apply restoremode_ext.
  destruct (vga_mode_banks 0 (Vgadev.gfx_cfg m) st0 st0')
    as (Hm & Hc & Hs & Hg & Ha & _).
  cbv zeta in *.
  generalize dependent (vga_mode 0 (Vgadev.gfx_cfg m) st0').
  generalize dependent (vga_mode 0 (Vgadev.gfx_cfg m) st0).
  intros b b' Hm Hc Hs Hg Ha.
  unfold same_image.
  cbn [misc crtc seq_ gfx attr cmap text font1 font2 set_buffers].
  repeat split; auto. intros k Hk. apply Hs. lia.
Qed.

(** X13.  [cirrus_mode] and [vgadev_mode] do
    not depend on what their uninitialised locals hold: whatever the
    local register image, and the numerator and denominator of the local
    clock of [cirrus_mode], hold on entry, the accesses made, the return
    code, the geometry reported and the frame buffer left are the
    same. *)
Theorem mode_setting_ignores_locals cdev st0 vclk0 st0' vclk0' ist0 ist0' graph mode freq w :
  cirrus_mode cdev st0 vclk0 graph mode freq w
  = cirrus_mode cdev st0' vclk0' graph mode freq w
  /\ Vgadev.vgadev_mode ist0 graph mode freq w = Vgadev.vgadev_mode ist0' graph mode freq w.
Proof. split; [apply cirrus_mode_locals | apply vgadev_mode_locals]. Qed.

End Ext.


(** ** The generic adapter *)

Lemma vgadev_index_ok mode freq : Vgadev.mode_index mode freq = vgadev_index mode freq.
Proof. destruct mode, freq; reflexivity. Qed.

Section Generic.

Context {adapter : Adapter}.

Lemma vgadev_power_log s c graph w :
  let r := vgadev_power s c graph w in
  fst r = (EOK, graph)
  /\ w_vmem (snd r) = w_vmem w
  /\ exists v1 v2,
       w_log (snd r)
       = w_log w ++ [EvWrite SEQ 0 1; EvRead SEQ 1;
                     EvWrite SEQ 1 (u8 (Z.lor (Z.land (u8 v1) (Z.lnot 0x20)) s));
                     EvRead CRTC 0x17;
                     EvWrite CRTC 0x17 (u8 (Z.lor (Z.land (u8 v2) (Z.lnot 0x80)) c));
                     EvWrite SEQ 0 3].
Proof.
  cbv zeta. split; [reflexivity|]. split; [reflexivity|].
  eexists _, _. unfold vgadev_power, vga_writeseq, vga_readseq, vga_readcrtc, vga_writecrtc,
    bind, access, input, ret. cbn [fst snd w_log w_hw].
  rewrite <- !app_assoc. cbn [app]. reflexivity.
Qed.

(** X14.  On the generic adapter a request for [GRAPH_DEFMODE] programs
    no graphics mode.  [DEFMODE] is index 5, which in the table of
    [vgadev.c] is the sentinel, an entry of depth 0: the call takes the
    power management branch with both DPMS bytes zero (it clears bit 5
    of sequencer register 1 and bit 7 of CRT controller register 0x17
    between the two writes of the sequencer reset register), returns
    [EOK] and leaves the reported width, height and depth, and the frame
    buffer, as they were. *)
Theorem vgadev_default_is_sentinel st0 graph freq w :
  let r := Vgadev.vgadev_mode st0 graph GRAPH_DEFMODE freq w in
  Vgadev.mode_index GRAPH_DEFMODE freq = Cirrus.Found Vgadev.DEFMODE
  /\ nth_error Vgadev.modes Vgadev.DEFMODE
     = Some (Vgadev.mk_mode GRAPH_DEFMODE 0 (Vgadev.pwm 0 0))
  /\ S Vgadev.DEFMODE = length Vgadev.modes
  /\ fst r = (EOK, graph)
  /\ w_vmem (snd r) = w_vmem w
  /\ exists a b,
       w_log (snd r)
       = w_log w ++ [EvWrite SEQ 0 1; EvRead SEQ 1; EvWrite SEQ 1 a;
                     EvRead CRTC 0x17; EvWrite CRTC 0x17 b; EvWrite SEQ 0 3]
       /\ Z.testbit a 5 = false /\ Z.testbit b 7 = false.
Proof.
  cbv zeta. split; [reflexivity|]. split; [reflexivity|]. split; [reflexivity|].
  change (Vgadev.vgadev_mode st0 graph GRAPH_DEFMODE freq) with (vgadev_power 0 0 graph).
  destruct (vgadev_power_log 0 0 graph w) as (H1 & H2 & v1 & v2 & H3).
  split; [exact H1|]. split; [exact H2|].
  eexists _, _. split; [exact H3|].
  split.
  - rewrite testbit_u8, Z.lor_spec, Z.land_spec by lia.
    change (Z.testbit (Z.lnot 0x20) 5) with false. change (Z.testbit 0 5) with false.
    rewrite andb_false_r. reflexivity.
  - rewrite testbit_u8, Z.lor_spec, Z.land_spec by lia.
    change (Z.testbit (Z.lnot 0x80) 7) with false. change (Z.testbit 0 7) with false.
    rewrite andb_false_r. reflexivity.
Qed.

Lemma vgadev_mode_found st0 graph mode freq i :
  Vgadev.mode_index mode freq = Cirrus.Found i ->
  let m := nth i Vgadev.modes (Vgadev.mk_mode GRAPH_DEFMODE 0 (Vgadev.pwm 0 0)) in
  Vgadev.vgadev_mode st0 graph mode freq
  = if Vgadev.vm_depth m =? 0
    then vgadev_power (Vgadev.pwm_sr01 m) (Vgadev.pwm_cr17 m) graph
    else vgadev_program st0 m.
Proof.
  intros Hidx. cbv zeta. unfold Vgadev.vgadev_mode, vgadev_power, vgadev_program.
  rewrite Hidx. cbv zeta. reflexivity.
Qed.

Lemma vgadev_program_result st0 m w :
  fst (vgadev_program st0 m w)
  = (EOK, mk_graph (hres (Vgadev.gfx_cfg m)) (vres (Vgadev.gfx_cfg m)) (Vgadev.vm_depth m)).
Proof.
  unfold vgadev_program. cbv zeta. revert w.
  do 4 (apply (bind_post _ _ (fun r => r = (EOK, mk_graph (hres (Vgadev.gfx_cfg m))
                                 (vres (Vgadev.gfx_cfg m)) (Vgadev.vm_depth m)))); intros).
  reflexivity.
Qed.

(** X15.  The requests [vgadev_mode] serves are [GRAPH_DEFMODE], the four
    power management requests and [GRAPH_320x200x8] at the default
    refresh rate or at 70 Hz.  It returns [EOK] for these and reports
    320 x 200 at depth 1 for the last; it leaves the reported geometry
    alone for the others.  Every other request fails with [-ENOTSUP]
    before any access. *)
Theorem vgadev_mode_requests st0 graph mode freq w :
  let r := Vgadev.vgadev_mode st0 graph mode freq w in
  let served :=
    mode = GRAPH_DEFMODE \/ power_mode mode
    \/ (mode = GRAPH_320x200x8 /\ (freq = GRAPH_DEFFREQ \/ freq = GRAPH_70Hz)) in
  (served -> fst (fst r) = EOK)
  /\ (~ served -> r = (Err ENOTSUP, graph, w))
  /\ (served -> mode = GRAPH_320x200x8 -> snd (fst r) = mk_graph 320 200 1)
  /\ (served -> mode <> GRAPH_320x200x8 -> snd (fst r) = graph).
Proof.
  cbv zeta. unfold power_mode.
  assert (Hidx := vgadev_index_ok mode freq).
  destruct (vgadev_index mode freq) as [i| |] eqn:E.
  - rewrite (vgadev_mode_found st0 graph mode freq i Hidx).
    assert (Hi : (mode = GRAPH_DEFMODE /\ i = 5%nat) \/ (mode = GRAPH_ON /\ i = 0%nat)
                 \/ (mode = GRAPH_OFF /\ i = 1%nat) \/ (mode = GRAPH_STANDBY /\ i = 2%nat)
                 \/ (mode = GRAPH_SUSPEND /\ i = 3%nat)
                 \/ (mode = GRAPH_320x200x8 /\ i = 4%nat
                     /\ (freq = GRAPH_DEFFREQ \/ freq = GRAPH_70Hz))).
    { destruct mode; try discriminate; try (inversion E; tauto).
      destruct freq; try discriminate; inversion E; tauto. }
    clear E Hidx.
    destruct Hi as [[-> ->] | [[-> ->] | [[-> ->] | [[-> ->] | [[-> ->] | (-> & -> & Hf)]]]]];
      cbn [nth Vgadev.modes Vgadev.vm_depth Z.eqb].
    all: try (match goal with
              | |- context [vgadev_power ?s ?c ?g ?w0] =>
                destruct (vgadev_power_log s c g w0) as (H1 & _); cbv zeta in H1;
                rewrite H1; cbn [fst snd];
                repeat split; try tauto; try discriminate;
                intros H; exfalso; apply H; tauto
              end).
    rewrite vgadev_program_result. cbn [fst snd].
    repeat split; try tauto; try discriminate.
  - unfold Vgadev.vgadev_mode. rewrite Hidx.
    assert (Hn : ~ (mode = GRAPH_DEFMODE \/ (mode = GRAPH_ON \/ mode = GRAPH_OFF
                    \/ mode = GRAPH_STANDBY \/ mode = GRAPH_SUSPEND)
                    \/ (mode = GRAPH_320x200x8 /\ (freq = GRAPH_DEFFREQ \/ freq = GRAPH_70Hz)))).
    { destruct mode; try discriminate E;
        try (intros [H | [[H | [H | [H | H]]] | [H _]]]; discriminate H).
      destruct freq; try discriminate E;
        intros [H | [[H | [H | [H | H]]] | [_ [H | H]]]]; discriminate H. }
    repeat split; try tauto.
  - exfalso. destruct mode; try discriminate E. destruct freq; discriminate E.
Qed.

End Generic.

(** ** Save and restore on the Cirrus adapter *)

Section LogsThen.

Context {adapter : Adapter}.

Lemma logs_then_access {B} e pre P (k : unit -> M B) :
  (forall a, logs_then pre P (k a)) -> logs_then (e :: pre) P (bind (access e) k).
Proof.
  intros Hk w. rewrite bind_run. destruct (Hk (fst (access e w)) (snd (access e w)))
    as (t & Pt & Et).
  exists t. split; [exact Pt|]. rewrite Et. cbn [access snd w_log].
  rewrite <- app_assoc. reflexivity.
Qed.

Lemma logs_then_input {B} p reg pre P (k : Z -> M B) :
  (forall v, logs_then pre P (k v)) -> logs_then (EvRead p reg :: pre) P (bind (input p reg) k).
Proof.
  intros Hk w. rewrite bind_run. destruct (Hk (fst (input p reg w)) (snd (input p reg w)))
    as (t & Pt & Et).
  exists t. split; [exact Pt|]. rewrite Et. cbn [input snd w_log].
  rewrite <- app_assoc. reflexivity.
Qed.

End LogsThen.

Ltac logs_chain :=
  lazymatch goal with
  | |- logs _ (ret _) => apply logs_ret
  | |- logs _ (access _) => apply logs_access
  | |- logs _ (bind (access _) _) => apply logs_access_then; intro
  | |- logs _ (bind (input _ _) _) => apply logs_input_then; intro
  | |- logs _ (bind vga_status _) => apply logs_status_then; intro
  end.

Ltac logs_then_step :=
  lazymatch goal with
  | |- logs_then _ _ (bind (access _) _) => apply logs_then_access; intro
  | |- logs_then _ _ (bind (input _ _) _) => apply logs_then_input; intro
  end.

Section Order.

Context {adapter : Adapter}.

Lemma restore_log st w :
  exists t,
    forallb text_event t = true
    /\ w_log (snd (vga_restore st w))
       = w_log w ++ restoremode_events st ++ restorecmap_events st ++ t.
Proof.
  unfold vga_restore. rewrite bind_run. rewrite bind_run.
  destruct (restoretext_emits st (snd (vga_restorecmap st (snd (vga_restoremode st w)))))
    as (t & Et & Pt).
  exists t. split; [exact Pt|].
  rewrite Et, restorecmap_logs, restoremode_logs.
  now rewrite <- !app_assoc.
Qed.

Lemma save_log st w :
  exists t,
    forallb text_event t = true
    /\ w_log (snd (vga_save st w))
       = w_log w ++ t ++ savecmap_events st ++ savemode_events.
Proof.
  unfold vga_save.
  destruct (savetext_emits st w) as (t & Et & Pt).
  exists t. split; [exact Pt|].
  rewrite bind_run. rewrite bind_run.
  rewrite savemode_logs, savecmap_logs, Et.
  rewrite (savecmap_events_cmap st _ (savetext_cmap st w)).
  now rewrite <- !app_assoc.
Qed.

Lemma restore_logs_then st :
  logs_then (restoremode_events st ++ restorecmap_events st) text_event (vga_restore st).
Proof.
  intros w. destruct (restore_log st w) as (t & Pt & Et).
  exists t. split; [exact Pt|]. rewrite Et, <- !app_assoc. reflexivity.
Qed.

Lemma cirrus_restore_logs_then st :
  logs_then (cirrus_restore_events st
             ++ restoremode_events (state st) ++ restorecmap_events (state st))
            text_event (cirrus_restore st).
Proof.
  unfold cirrus_restore, cirrus_restore_events,
    vga_writecrtc, vga_writeseq, vga_writegfx, vga_readdac, vga_writedac.
  cbn [app]. do 18 logs_then_step. apply restore_logs_then.
Qed.

Lemma cirrus_save_tail base :
  logs cirrus_save_events
    (cr1a <- vga_readcrtc 0x1a ;;
     cr1b <- vga_readcrtc 0x1b ;;
     cr1d <- vga_readcrtc 0x1d ;;
     sr07 <- vga_readseq 0x07 ;;
     sr0e <- vga_readseq 0x0e ;;
     sr12 <- vga_readseq 0x12 ;;
     sr13 <- vga_readseq 0x13 ;;
     sr17 <- vga_readseq 0x17 ;;
     sr1e <- vga_readseq 0x1e ;;
     sr21 <- vga_readseq 0x21 ;;
     sr2d <- vga_readseq 0x2d ;;
     gr17 <- vga_readgfx 0x17 ;;
     gr18 <- vga_readgfx 0x18 ;;
     vga_readdac 0x00 ;;
     vga_readdac 0x00 ;;
     vga_readdac 0x00 ;;
     vga_readdac 0x00 ;;
     hdr <- vga_readdac 0x00 ;;
     ret (mk_cirrus_state base cr1a cr1b cr1d sr07 sr0e sr12 sr13 sr17 sr1e sr21 sr2d
                          gr17 gr18 hdr)).
Proof.
  unfold cirrus_save_events, vga_readcrtc, vga_readseq, vga_readgfx, vga_readdac.
  repeat logs_chain.
Qed.

(** X16.  [cirrus_restore] writes the extended registers first (CRTC
    0x1a, 0x1b, 0x1d, sequencer 0x07, 0x0e, 0x12, 0x13, 0x17, 0x1e,
    0x21, 0x2d, graphics 0x17, 0x18), reads the pixel mask register
    exactly four times and then writes the hidden DAC register, and only
    then restores the base VGA state (register banks, palette, text and
    fonts).  [cirrus_save] goes the other way: the base state first
    (text and fonts, palette, register banks), then the extended
    registers in the same order, the hidden DAC register being the
    fifth read of the pixel mask register. *)
Theorem cirrus_save_restore_order st w :
  (exists t,
     forallb text_event t = true
     /\ w_log (snd (cirrus_restore st w))
        = w_log w ++ cirrus_restore_events st ++ restoremode_events (state st)
                ++ restorecmap_events (state st) ++ t)
  /\ (exists t,
     forallb text_event t = true
     /\ w_log (snd (cirrus_save st w))
        = w_log w ++ t ++ savecmap_events (state st) ++ savemode_events
                ++ cirrus_save_events).
Proof.
  split.
  - destruct (cirrus_restore_logs_then st w) as (t & Pt & Et).
    exists t. split; [exact Pt|]. rewrite Et, <- !app_assoc. reflexivity.
  - unfold cirrus_save. rewrite bind_run. cbv beta.
    destruct (save_log (state st) w) as (t & Pt & Et).
    exists t. split; [exact Pt|].
    rewrite (cirrus_save_tail (fst (vga_save (state st) w))), Et, <- !app_assoc.
    reflexivity.
Qed.

End Order.

Section Quiet.

Context {adapter : Adapter}.

Lemma quiet_ret {A} (a : A) : quiet (ret a).
Proof. intros w. reflexivity. Qed.

Lemma quiet_bind {A B} (c : M A) (k : A -> M B) :
  quiet c -> (forall a, quiet (k a)) -> quiet (bind c k).
Proof. intros Hc Hk w. rewrite bind_run, Hk, Hc. reflexivity. Qed.

Lemma quiet_access e : quiet (access e).
Proof. intros w. reflexivity. Qed.

Lemma quiet_input p reg : quiet (input p reg).
Proof. intros w. reflexivity. Qed.

Lemma quiet_status : quiet vga_status.
Proof. intros w. reflexivity. Qed.

Lemma quiet_mem_read n : quiet (mem_read n).
Proof. intros w. reflexivity. Qed.

Lemma quiet_for {T} (body : T -> M unit) l :
  (forall x, quiet (body x)) -> quiet (for_ l body).
Proof.
  intros Hb. induction l as [|x l IH]; cbn [for_].
  - apply quiet_ret.
  - apply quiet_bind; [apply Hb | intros _; exact IH].
Qed.

Lemma quiet_for_fold {T S} (body : T -> S -> M S) l :
  (forall x s, quiet (body x s)) -> forall s, quiet (for_fold l body s).
Proof.
  intros Hb. induction l as [|x l IH]; intros s; cbn [for_fold].
  - apply quiet_ret.
  - apply quiet_bind; [apply Hb | exact IH].
Qed.

End Quiet.

Ltac quiet_step :=
  lazymatch goal with
  | |- quiet (ret _) => apply quiet_ret
  | |- quiet (access _) => apply quiet_access
  | |- quiet (input _ _) => apply quiet_input
  | |- quiet vga_status => apply quiet_status
  | |- quiet (mem_read _) => apply quiet_mem_read
  | |- quiet (for_ _ _) => apply quiet_for; intro
  | |- quiet (for_fold _ _ _) => apply quiet_for_fold; intros
  | |- quiet (bind _ _) => apply quiet_bind; [|intro]
  | |- quiet (match ?x with _ => _ end) => destruct x
  end.

Section Program.

Context {adapter : Adapter}.

Lemma restore_quiet st : quiet (vga_restore st).
Proof.
  unfold vga_restore, vga_restoremode, vga_restorecmap, vga_restoretext, vga_copytext,
    copy_plane, vga_blank, vga_unblank, mem_write, vga_enablecmap, vga_disablecmap,
    vga_readmisc, vga_writemisc, vga_readgfx, vga_writegfx, vga_readseq, vga_writeseq,
    vga_writecrtc, vga_writeattr, vga_writedac.
  repeat quiet_step.
Qed.

Lemma cirrus_restore_quiet st : quiet (cirrus_restore st).
Proof.
  unfold cirrus_restore, vga_writecrtc, vga_writeseq, vga_writegfx, vga_readdac, vga_writedac.
  do 18 (apply quiet_bind; [first [apply quiet_access | apply quiet_input] | intro]).
  apply restore_quiet.
Qed.

(** What [vga_mlock] does: it sets the screen-off bit of sequencer
    register 1, holds the sequencer in reset and enables the color
    map. *)
Lemma mlock_run w :
  exists a,
    Z.testbit a 5 = true
    /\ w_log (snd (vga_mlock w))
       = w_log w ++ [EvRead SEQ 1; EvWrite SEQ 1 a; EvWrite SEQ 0 1; EvEnableCmap]
    /\ w_vmem (snd (vga_mlock w)) = w_vmem w.
Proof.
  eexists. split; [|split].
  2: { unfold vga_mlock, vga_readseq, vga_writeseq, vga_enablecmap, bind, access, input.
       cbn [fst snd w_log]. rewrite <- !app_assoc. reflexivity. }
  - rewrite testbit_u8, Z.lor_spec by lia. apply orb_true_r.
  - reflexivity.
Qed.

(** The numerator of a clock [cirrus_vclk] returns fits seven bits, its
    denominator six. *)
Lemma vclk_result_fields maxvclk vclk r :
  cirrus_vclk maxvclk vclk = (EOK, r) -> 0 <= vc_num r < 128 /\ 0 <= vc_den r < 64.
Proof.
  intros Hr. destruct (vclk_scan vclks (vc_freq vclk)) as [e|] eqn:Hscan.
  - unfold cirrus_vclk in Hr. cbv zeta in Hr. rewrite Hscan in Hr.
    inversion Hr; subst r; clear Hr.
    apply vclk_scan_In in Hscan. destruct Hscan as [Hin _].
    assert (Htbl : Forall (fun e => 0 <= vc_num e < 128 /\ 0 <= vc_den e < 64) vclks).
    { repeat constructor; cbn; lia. }
    rewrite Forall_forall in Htbl. apply Htbl, Hin.
  - destruct (cirrus_vclk_search maxvclk vclk Hscan)
      as [(E & _) | (l1 & n & d & l2 & Hl & Hc & E & _)].
    + rewrite Hr in E. discriminate.
    + rewrite E in Hr. inversion Hr; subst r; clear Hr. cbn [vc_num vc_den].
      assert (Hin : In (n, d) candidates) by (rewrite Hl; apply in_elt).
      apply In_candidates in Hin. lia.
Qed.

End Program.
(** ** What is saved is what is restored *)

Section RoundTrip.

Context {adapter : Adapter}.

Lemma u8_u8 x : u8 (u8 x) = u8 x.
Proof. unfold u8. apply Z.mod_mod. lia. Qed.

Lemma unlock_byte x : u8 (Z.land (u8 x) (Z.lnot 0x80)) = Z.land (u8 x) 0x7f.
Proof.
  apply Z.eqb_eq.
  apply (byte_cases (fun y => u8 (Z.land y (Z.lnot 0x80)) =? Z.land y 0x7f));
    [vm_compute; reflexivity | apply u8_range].
Qed.

Ltac closed_bytes :=
  repeat match goal with
         | |- context [u8 (Zpos ?p)] => change (u8 (Zpos p)) with (Zpos p)
         end;
  change (u8 0) with 0.

(** X18.  [vga_restoremode] of the image
    [vga_savemode] returns writes back, register by register and in the
    order they were read, the bytes [vga_savemode] read from the
    miscellaneous register, CRTC 0-24, sequencer 1-4, graphics 0-8 and
    attribute 0-20; the one write it adds, second, is CRTC 0x11 with the
    byte read from it less bit 7. *)
Theorem savemode_restoremode st w w2 :
  let saved := fst (vga_savemode st w) in
  exists first rest,
    echo (w_hw w) savemode_events = first :: rest
    /\ w_log (snd (vga_restoremode saved w2)) = w_log w2 ++ restoremode_events saved
    /\ register_writes (restoremode_events saved)
       = first :: (CRTC, 0x11, Z.land (crtc saved 17%nat) 0x7f) :: rest.
Proof.
  intros saved.
  eexists _, _. split; [|split].
  - cbv -[u8 hw_in hw_next hw]. reflexivity.
  - apply restoremode_logs.
  - subst saved.
    cbv -[u8 hw_in hw_next hw Z.land Z.lnot].
    rewrite !u8_u8, unlock_byte. closed_bytes.
    reflexivity.
Qed.

(** X20.  The image [cirrus_save] returns holds the
    base state [vga_save] returned, and [cirrus_restore] of it writes
    back to the thirteen extended registers the bytes [cirrus_save] read
    from them, in the same order, and to the hidden DAC register the
    byte of the fifth read of the pixel mask register. *)
Theorem cirrus_save_restore st w :
  let w1 := snd (vga_save (state st) w) in
  let saved := fst (cirrus_save st w) in
  state saved = fst (vga_save (state st) w)
  /\ register_writes (cirrus_restore_events saved)
     = firstn 13 (echo (w_hw w1) cirrus_save_events)
       ++ [(DAC, 0, last (answers (w_hw w1) cirrus_save_events) 0)].
Proof.
  unfold cirrus_save. rewrite bind_run. cbv beta zeta.
  generalize (vga_save (state st) w). intros [base w1].
  cbv -[u8 hw_in hw_next hw]. rewrite !u8_u8. closed_bytes.
  split; reflexivity.
Qed.

Lemma cmap_loop_other l : forall buf w i,
  ~ In i l -> fst (for_fold l cmap_body buf w) i = buf i.
Proof.
  induction l as [|x l IH]; intros buf w i Hi; [reflexivity|].
  cbn [for_fold]. rewrite bind_run. rewrite IH by (intros H; apply Hi; now right).
  unfold cmap_body. cbn. unfold aset.
  destruct (Nat.eqb_spec i x) as [->|]; [exfalso; apply Hi; now left | reflexivity].
Qed.

Lemma cmap_loop_read l : forall buf w,
  NoDup l ->
  map (fst (for_fold l cmap_body buf w)) l = answers (w_hw w) (flat_map dac_read l).
Proof.
  induction l as [|x l IH]; intros buf w Hnd; [reflexivity|].
  inversion Hnd as [|? ? Hx Hl]; subst.
  cbn [for_fold map flat_map]. rewrite bind_run.
  rewrite cmap_loop_other by assumption.
  rewrite IH by assumption.
  unfold cmap_body, dac_read. cbn. unfold aset. rewrite Nat.eqb_refl, ?u8_u8. reflexivity.
Qed.

Lemma reads_disable l : register_reads (l ++ [EvDisableCmap]) = register_reads l.
Proof. unfold register_reads. rewrite flat_map_app. cbn. apply app_nil_r. Qed.

Lemma reads_dac l : register_reads (flat_map dac_read l) = map (fun _ => (DAC, 0x03)) l.
Proof. induction l as [|x l IH]; [reflexivity|]. cbn. unfold register_reads in IH. now rewrite IH. Qed.

Lemma writes_dac (buf : array) l :
  register_writes (flat_map (fun i : nat => [EvWrite DAC 0x03 (u8 (buf i)); EvStatus; EvStatus]) l)
  = map (fun i => (DAC, 0x03, u8 (buf i))) l.
Proof. induction l as [|x l IH]; [reflexivity|]. cbn. unfold register_writes in IH. now rewrite IH. Qed.

Lemma answers_disable l : forall h, answers h (l ++ [EvDisableCmap]) = answers h l.
Proof.
  induction l as [|e l IH]; intros h; [reflexivity|].
  cbn [app answers]. now rewrite IH.
Qed.

Lemma answers_byte l : forall h, Forall (fun v => u8 v = v) (answers h l).
Proof.
  induction l as [|e l IH]; intros h; [constructor|].
  cbn [answers]. apply Forall_app. split; [|apply IH].
  destruct e; repeat constructor. apply u8_u8.
Qed.

Lemma dac_echo (b : array) l :
  Forall (fun v => u8 v = v) (map b l) ->
  map (fun i => (DAC, 0x03, u8 (b i))) l = combine (map (fun _ : nat => (DAC, 0x03)) l) (map b l).
Proof.
  induction l as [|x l IH]; intros H; [reflexivity|].
  cbn [map combine] in *. inversion H as [|? ? Hx Hl]; subst.
  rewrite Hx, IH by assumption. reflexivity.
Qed.

(** X19.  With a palette buffer, [vga_restorecmap]
    of the image [vga_savecmap] returns sets the pixel mask and the
    write index, and then writes to the DAC data register the 768 bytes
    [vga_savecmap] read from it, in the order they were read. *)
Theorem savecmap_restorecmap st buf w :
  cmap st = Some buf ->
  let saved := fst (vga_savecmap st w) in
  register_writes (restorecmap_events saved)
  = (DAC, 0x00, 0xff) :: (DAC, 0x02, 0x00) :: echo (w_hw w) (savecmap_events st).
Proof.
  intros Hc saved. subst saved.
  unfold vga_savecmap, savecmap_events. rewrite Hc.
  fold dac_read. change (fun (i : nat) (buf0 : array) => _) with cmap_body.
  rewrite 4 bind_run.
  change (fst (ret ?x ?y)) with x.
  unfold restorecmap_events. cbn [cmap set_buffers].
  assert (Hnd : NoDup (seq 0 (Z.to_nat VGA_CMAPSZ))) by apply seq_NoDup.
  generalize dependent (seq 0 (Z.to_nat VGA_CMAPSZ)). intros l Hnd.
  set (w2 := snd (vga_writedac 1 0 (snd (vga_writedac 0 255 w)))).
  assert (E := cmap_loop_read l buf w2 Hnd).
  assert (B := answers_byte (flat_map dac_read l) (w_hw w2)). rewrite <- E in B.
  generalize dependent (fst (for_fold l cmap_body buf w2)). intros b E B.
  unfold register_writes at 1. cbn [app flat_map]. rewrite flat_map_app. cbn [flat_map app].
  rewrite app_nil_r.
  change (flat_map _ (flat_map ?f l)) with (register_writes (flat_map f l)).
  rewrite writes_dac.
  unfold echo. cbn [app register_reads answers flat_map].
  change (flat_map _ (flat_map dac_read l ++ [EvDisableCmap]))
    with (register_reads (flat_map dac_read l ++ [EvDisableCmap])).
  rewrite reads_disable, answers_disable, reads_dac.
  change (hw_next (hw_next (w_hw w) _) _) with (w_hw w2).
  rewrite <- E, dac_echo by assumption. reflexivity.
Qed.

Lemma calm_ret {A} (a : A) : calm (ret a).
Proof. intros w. exists []. cbn. now rewrite app_nil_r. Qed.

Lemma calm_bind {A B} (c : M A) (k : A -> M B) :
  calm c -> (forall a, calm (k a)) -> calm (bind c k).
Proof.
  intros Hc Hk w. rewrite bind_run.
  destruct (Hc w) as (t1 & E1 & V1).
  destruct (Hk (fst (c w)) (snd (c w))) as (t2 & E2 & V2).
  exists (t1 ++ t2). rewrite E2, E1, V2, V1, app_assoc. auto.
Qed.

Lemma calm_access e : calm (access e).
Proof. intros w. exists [e]. auto. Qed.

Lemma calm_input p reg : calm (input p reg).
Proof. intros w. exists [EvRead p reg]. auto. Qed.

Lemma calm_mem_read n : calm (mem_read n).
Proof. intros w. exists [EvMemRead n]. auto. Qed.

Lemma closes_bind {A B} tail (c : M A) (k : A -> M B) :
  calm c -> (forall a, closes tail (k a)) -> closes tail (bind c k).
Proof.
  intros Hc Hk w. rewrite bind_run.
  destruct (Hc w) as (t1 & E1 & V1).
  destruct (Hk (fst (c w)) (snd (c w))) as (t2 & v & E2 & Hv & V2).
  exists (t1 ++ t2), v. rewrite E2, E1, V2, V1, <- !app_assoc. auto.
Qed.

Lemma input_bind {B} p reg (k : Z -> M B) w :
  bind (input p reg) k w
  = k (u8 (hw_in (w_hw w) p reg))
      (mk_world (hw_next (w_hw w) (EvRead p reg)) (w_log w ++ [EvRead p reg]) (w_vmem w)).
Proof. reflexivity. Qed.

Lemma access_bind {B} e (k : unit -> M B) w :
  bind (access e) k w
  = k tt (mk_world (hw_next (w_hw w) e) (w_log w ++ [e]) (w_vmem w)).
Proof. reflexivity. Qed.

Lemma copy_plane_calm dir sr02 gr04 buf at_ n : calm (copy_plane dir sr02 gr04 buf at_ n).
Proof.
  unfold copy_plane, vga_writeseq, vga_writegfx, mem_write.
  repeat (apply calm_bind; [apply calm_access | intros _]).
  destruct dir.
  - apply calm_bind; [apply calm_access | intros _; apply calm_ret].
  - apply calm_bind; [apply calm_mem_read | intros; apply calm_ret].
Qed.

Lemma copytext_exit_closes {A} (x : A) misc_ gr01 gr03 gr04 gr05 gr06 gr08 sr02 sr04 :
  closes (copytext_exit (u8 misc_) (u8 gr01) (u8 gr03) (u8 gr04) (u8 gr05) (u8 gr06)
                        (u8 gr08) (u8 sr02) (u8 sr04))
    (vga_writeseq 0x04 sr04 ;;
     vga_writeseq 0x02 sr02 ;;
     vga_writegfx 0x08 gr08 ;;
     vga_writegfx 0x06 gr06 ;;
     vga_writegfx 0x05 gr05 ;;
     vga_writegfx 0x04 gr04 ;;
     vga_writegfx 0x03 gr03 ;;
     vga_writegfx 0x01 gr01 ;;
     vga_writemisc misc_ ;;
     vga_unblank ;;
     ret x).
Proof.
  intros w. exists []. eexists.
  unfold vga_unblank, vga_writemisc, vga_writegfx, vga_readseq, vga_writeseq.
  do 9 (rewrite access_bind; cbn [w_log w_hw w_vmem]).
  rewrite bind_run. rewrite input_bind. cbn [w_log w_hw w_vmem].
  do 2 (rewrite access_bind; cbn [w_log w_hw w_vmem]).
  unfold access, ret. cbn [fst snd w_log w_hw w_vmem].
  split; [|split].
  - rewrite <- !app_assoc. reflexivity.
  - rewrite testbit_u8, Z.land_spec by lia.
    change (Z.testbit (Z.lnot 0x20) 5) with false. apply andb_false_r.
  - reflexivity.
Qed.

(** X21.  Whatever buffers it copies and in either
    direction, [vga_copytext] ends by writing back to sequencer 4 and 2,
    graphics 8, 6, 5, 4, 3 and 1 and the miscellaneous register, in this
    order, the bytes it read from them on entry; its last accesses are
    those of [vga_unblank], which writes sequencer 1 with bit 5 clear:
    the screen is left on, blanked or not on entry.  The frame buffer of
    the adapter is not touched. *)
Theorem copytext_puts_back st dir w :
  exists misc_ gr01 gr03 gr04 gr05 gr06 gr08 sr02 sr04 t v,
    answers (w_hw w) copytext_entry = [misc_; gr01; gr03; gr04; gr05; gr06; gr08; sr02; sr04]
    /\ w_log (snd (vga_copytext st dir w))
       = w_log w ++ copytext_entry ++ t
         ++ copytext_exit misc_ gr01 gr03 gr04 gr05 gr06 gr08 sr02 sr04 v
    /\ Z.testbit v 5 = false
    /\ w_vmem (snd (vga_copytext st dir w)) = w_vmem w.
Proof.
  unfold vga_copytext, vga_readmisc, vga_readgfx, vga_readseq.
  do 9 (rewrite input_bind; cbn [w_log w_hw w_vmem]).
  match goal with
  | |- context [snd (_ ?x)] => set (w9 := x)
  end.
  assert (L9 : w_log w9 = w_log w ++ copytext_entry).
  { subst w9. cbn [w_log]. rewrite <- !app_assoc. reflexivity. }
  assert (V9 : w_vmem w9 = w_vmem w) by reflexivity.
  clearbody w9.
  match goal with
  | |- context [snd (?c w9)] =>
    eassert (H : closes (copytext_exit _ _ _ _ _ _ _ _ _) c)
  end.
  { apply closes_bind; [apply calm_access | intros _].
    apply closes_bind.
    { unfold vga_blank, vga_readseq, vga_writeseq.
      apply calm_bind; [apply calm_input | intros ?].
      repeat (apply calm_bind; [apply calm_access | intros _]). apply calm_access. }
    intros _.
    do 6 (apply closes_bind; [apply calm_access | intros _]).
    apply closes_bind.
    { destruct (font1 st); [|apply calm_ret].
      apply calm_bind; [apply copy_plane_calm | intros; apply calm_ret]. }
    intros f1. apply closes_bind.
    { destruct (font2 st); [|apply calm_ret].
      apply calm_bind; [apply copy_plane_calm | intros; apply calm_ret]. }
    intros f2. apply closes_bind.
    { destruct (text st); [|apply calm_ret].
      apply calm_bind; [apply copy_plane_calm | intros].
      apply calm_bind; [apply copy_plane_calm | intros; apply calm_ret]. }
    intros tx. apply copytext_exit_closes. }
  destruct (H w9) as (t & v & E & Hv & V).
  match type of H with
  | closes (copytext_exit ?a ?b ?c ?d ?e ?f ?g ?h ?i) _ =>
    exists a, b, c, d, e, f, g, h, i, t, v
  end.
  split; [|split; [|split]].
  - rewrite !u8_u8. reflexivity.
  - rewrite E, L9, <- !app_assoc. reflexivity.
  - exact Hv.
  - rewrite V. exact V9.
Qed.
End RoundTrip.
(** ** The catalog and the register fields *)

Lemma catalog_fits :
  forallb (fun m => (cm_depth m =? 0)
                    || fits_registers (programmed_image Sample.cirrus_image m 0 0) m)
          catalog = true.
Proof. vm_compute. reflexivity. Qed.

Lemma programmed_image_crtc st0 st1 m a h a' h' i :
  (i < 25)%nat ->
  crtc (state (programmed_image st0 m a h)) i = crtc (state (programmed_image st1 m a' h')) i.
Proof.
  intros Hi.
  assert (E := vga_mode_crtc_init 3 (programmed_cfg m) (state st0) (state st1)).
  unfold programmed_image, compose. cbv zeta.
  generalize dependent (vga_mode 3 (programmed_cfg m) (state st0)). intros x.
  generalize (vga_mode 3 (programmed_cfg m) (state st1)). intros y E.
  cbn [state crtc set_crtc set_buffers]. unfold aset.
  rewrite (E 23%nat), (E i) by lia. reflexivity.
Qed.

Lemma programmed_image_cr1b st0 st1 m a h a' h' :
  cr1b (programmed_image st0 m a h) = cr1b (programmed_image st1 m a' h').
Proof. reflexivity. Qed.

(** X22.  For every graphics entry of the Cirrus
    table, the image [cirrus_mode] composes holds the timings it
    programs without wrapping: CRTC 0, 1 and 4 are the horizontal total,
    resolution and sync start in characters less 5, 1 and 1; the
    ten-bit vertical total - 2, resolution - 1 and sync start - 1 are
    CRTC 6, 18 and 16 with their two high bits in CRTC 7; and the pitch
    (width times depth, in bytes) is eight times the ten-bit number made
    of CRTC 0x13 and bits 4 and 6 of CR1B. *)
Theorem catalog_fits_registers st0 m add07 hdr_ :
  In m catalog -> cm_depth m <> 0 ->
  let cfg := programmed_cfg m in
  let img := programmed_image st0 m add07 hdr_ in
  let s := state img in
  let '(v_res, v_syncs, v_synce, v_total) := Timing.vertical cfg in
  let bit reg n := Z.b2z (Z.testbit (crtc s reg) n) in
  crtc s 0%nat = htotal cfg / 8 - 5
  /\ crtc s 1%nat = hres cfg / 8 - 1
  /\ crtc s 4%nat = hsyncs cfg / 8 - 1
  /\ v_total - 2 = crtc s 6%nat + 256 * bit 7%nat 0 + 512 * bit 7%nat 5
  /\ v_res - 1 = crtc s 18%nat + 256 * bit 7%nat 1 + 512 * bit 7%nat 6
  /\ v_syncs - 1 = crtc s 16%nat + 256 * bit 7%nat 2 + 512 * bit 7%nat 7
  /\ hres (gfx_cfg m) * cm_depth m
     = 8 * (crtc s 0x13%nat + 256 * Z.b2z (Z.testbit (cr1b img) 4)
            + 512 * Z.b2z (Z.testbit (cr1b img) 6)).
Proof.
  intros Hin Hd cfg img s.
  assert (H := catalog_fits). rewrite forallb_forall in H. specialize (H m Hin).
  cbv beta in H.
  destruct (Z.eqb_spec (cm_depth m) 0); [contradiction|]. cbn [orb] in H.
  unfold fits_registers in H. cbv zeta in H. fold cfg in H.
  subst s img.
  assert (C : forall i, (i < 25)%nat ->
            crtc (state (programmed_image Sample.cirrus_image m 0 0)) i
            = crtc (state (programmed_image st0 m add07 hdr_)) i)
    by (intros; now apply programmed_image_crtc).
  generalize dependent (crtc (state (programmed_image Sample.cirrus_image m 0 0))).
  intros c0 H C.
  rewrite !C in H by lia. clear C c0.
  change (cr1b (programmed_image Sample.cirrus_image m 0 0))
    with (cr1b (programmed_image st0 m add07 hdr_)) in H.
  destruct (Timing.vertical cfg) as [[[v_res v_syncs] v_synce] v_total].
  rewrite !andb_true_iff, !Z.eqb_eq in H.
  destruct H as ((((((A1 & A2) & A3) & A4) & A5) & A6) & A7).
  repeat split; assumption.
Qed.

(** ** Mode setting: the accesses and the frame *)

Section ModeTraffic.

Context {adapter : Adapter}.

Lemma bind_assoc {A B C} (c : M A) (f : A -> M B) (k : B -> M C) w :
  bind (bind c f) k w = bind c (fun a => bind (f a) k) w.
Proof. unfold bind. destruct (c w) as [a w1]. reflexivity. Qed.

Lemma ret_bind {A B} (a : A) (k : A -> M B) w : bind (ret a) k w = k a w.
Proof. reflexivity. Qed.

Ltac run_step :=
  first [ rewrite input_bind | rewrite access_bind | rewrite ret_bind | rewrite bind_assoc ];
  cbn [w_log w_hw w_vmem].

Lemma restoretext_bare_run st w :
  text st = None -> font1 st = None -> font2 st = None ->
  exists misc_ gr01 gr03 gr04 gr05 gr06 gr08 sr02 sr04 bl ub,
    w_log (snd (vga_restoretext st w))
    = w_log w ++ copytext_bare misc_ gr01 gr03 gr04 gr05 gr06 gr08 sr02 sr04 bl ub
    /\ Z.testbit bl 5 = true /\ Z.testbit ub 5 = false.
Proof.
  intros Ht H1 H2. do 11 eexists.
  unfold vga_restoretext, vga_copytext. rewrite Ht, H1, H2.
  unfold vga_blank, vga_unblank, vga_readmisc, vga_writemisc, vga_readgfx, vga_writegfx,
    vga_readseq, vga_writeseq.
  repeat run_step.
  unfold ret. cbn [snd w_log].
  rewrite <- !app_assoc. cbn [app]. rewrite !u8_u8.
  split; [|split].
  - unfold copytext_bare, copytext_entry, copytext_exit. cbn [app]. reflexivity.
  - rewrite testbit_u8, Z.lor_spec by lia. apply orb_true_r.
  - rewrite testbit_u8, Z.land_spec by lia.
    change (Z.testbit (Z.lnot 0x20) 5) with false. apply andb_false_r.
Qed.

Lemma restorecmap_none st w : cmap st = None -> vga_restorecmap st w = (tt, w).
Proof. intros H. unfold vga_restorecmap. rewrite H. reflexivity. Qed.

(** [vga_restore] of an image without buffers: the register banks, no
    palette, and the bare text phase. *)
Lemma restore_bare_run st w :
  cmap st = None -> text st = None -> font1 st = None -> font2 st = None ->
  exists misc_ gr01 gr03 gr04 gr05 gr06 gr08 sr02 sr04 bl ub,
    w_log (snd (vga_restore st w))
    = w_log w ++ restoremode_events st
      ++ copytext_bare misc_ gr01 gr03 gr04 gr05 gr06 gr08 sr02 sr04 bl ub
    /\ Z.testbit bl 5 = true /\ Z.testbit ub 5 = false.
Proof.
  intros Hc Ht H1 H2. unfold vga_restore. rewrite bind_run.
  assert (L0 := restoremode_logs st w).
  generalize dependent (snd (vga_restoremode st w)). intros w1 L0.
  rewrite bind_run, (restorecmap_none st w1 Hc). cbn [fst snd].
  destruct (restoretext_bare_run st w1 Ht H1 H2)
    as (m & g1 & g3 & g4 & g5 & g6 & g8 & s2 & s4 & bl & ub & L & Hbl & Hub).
  exists m, g1, g3, g4, g5, g6, g8, s2, s4, bl, ub.
  rewrite L, L0, <- app_assoc. auto.
Qed.

(** [cirrus_restore] writes the extended registers, then restores the
    base state. *)
Lemma cirrus_restore_split st w :
  exists w1,
    cirrus_restore st w = vga_restore (state st) w1
    /\ w_log w1 = w_log w ++ cirrus_restore_events st.
Proof.
  eexists. unfold cirrus_restore, vga_writecrtc, vga_writeseq, vga_writegfx, vga_readdac,
    vga_writedac.
  do 18 run_step.
  split; [reflexivity|].
  cbn [w_log]. rewrite <- !app_assoc. reflexivity.
Qed.

(** What [program_mode] does for an image without buffers, as
    [cirrus_mode] composes them. *)
Lemma program_mode_run cdev img vclk m w :
  cmap (state img) = None -> text (state img) = None ->
  font1 (state img) = None -> font2 (state img) = None ->
  0 <= vc_num vclk < 128 ->
  let n := u32 (u32 (hres (gfx_cfg m) * vres (gfx_cfg m)) * cm_depth m) in
  let r := program_mode cdev img vclk m w in
  exists a misc_ gr01 gr03 gr04 gr05 gr06 gr08 sr02 sr04 bl ub b c,
    w_log (snd r)
    = w_log w
      ++ [EvRead SEQ 0x01; EvWrite SEQ 0x01 a; EvWrite SEQ 0x00 0x01; EvEnableCmap]
      ++ cirrus_restore_events img ++ restoremode_events (state img)
      ++ copytext_bare misc_ gr01 gr03 gr04 gr05 gr06 gr08 sr02 sr04 bl ub
      ++ [EvRead SEQ 0x0e; EvWrite SEQ 0x0e b; EvWrite SEQ 0x1e (u8 (vc_den vclk));
          EvWrite SEQ 0x00 0x03; EvRead SEQ 0x01; EvWrite SEQ 0x01 c; EvDisableCmap]
    /\ Z.testbit a 5 = true /\ Z.testbit bl 5 = true /\ Z.testbit ub 5 = false
    /\ Z.land b 0x7f = vc_num vclk /\ Z.testbit c 5 = false
    /\ (n <= vmemsz cdev ->
        forall o, w_vmem (snd r) o = if (0 <=? o) && (o <? n) then 0 else w_vmem w o).
Proof.
  intros Hc Ht H1 H2 Hnum n r. subst r.
  unfold program_mode.
  (* vga_mlock *)
  rewrite bind_run.
  destruct (mlock_run w) as (a & Ha & La & Va).
  generalize dependent (snd (vga_mlock w)). intros w1 La Va.
  (* cirrus_restore *)
  rewrite bind_run.
  assert (Vt := cirrus_restore_quiet img w1).
  destruct (cirrus_restore_split img w1) as (w1' & E & L1). rewrite E in *. clear E.
  destruct (restore_bare_run (state img) w1' Hc Ht H1 H2)
    as (m0 & g1 & g3 & g4 & g5 & g6 & g8 & s2 & s4 & bl & ub & Lt & Hbl & Hub).
  rewrite L1, La in Lt. rewrite Va in Vt. clear L1 La Va.
  generalize dependent (snd (vga_restore (state img) w1')). intros w2 Vt Lt.
  clear w1' w1.
  (* the clock and vga_munlock *)
  unfold vga_munlock, vga_readseq, vga_writeseq, vga_disablecmap.
  repeat run_step.
  (* the clearing of the frame *)
  cbn [width height depth]. fold n.
  rewrite bind_run. unfold ret. cbn [snd].
  exists a, m0, g1, g3, g4, g5, g6, g8, s2, s4, bl, ub.
  eexists _, _.
  split; [|split; [|split; [|split; [|split; [|split]]]]].
  - unfold vmem_clear. destruct (n <=? vmemsz cdev); cbn [snd w_log];
      rewrite Lt, <- !app_assoc; cbn [app]; reflexivity.
  - exact Ha.
  - exact Hbl.
  - exact Hub.
  - rewrite u8_land. apply Z.bits_inj'. intros k Hk.
    rewrite !Z.land_spec, Z.lor_spec, Z.land_spec.
    destruct (Z.ltb_spec k 7).
    + replace (Z.testbit 0x80 k) with false.
      2:{ symmetry. change 0x80 with (2 ^ 7). apply Z.pow2_bits_false. lia. }
      change 0x7f with (Z.ones 7). change 0xff with (Z.ones 8).
      rewrite !Z.ones_spec_low by lia.
      rewrite andb_false_r, !andb_true_r. reflexivity.
    + change 0x7f with (Z.ones 7). rewrite Z.ones_spec_high by lia.
      rewrite andb_false_r. symmetry.
      apply Z.bits_above_log2; [lia|].
      destruct (Z.eq_dec (vc_num vclk) 0) as [->|Hz]; [cbn; lia|].
      apply Z.lt_le_trans with 7; [|lia]. apply Z.log2_lt_pow2; lia.
  - rewrite testbit_u8, Z.land_spec by lia.
    change (Z.testbit (Z.lnot 0x20) 5) with false. apply andb_false_r.
  - intros Hfit o. unfold vmem_clear.
    destruct (Z.leb_spec n (vmemsz cdev)); [|lia].
    cbn [snd w_vmem]. rewrite Vt. reflexivity.
Qed.


Lemma programmed_image_bare st0 m add07 hdr_ :
  let img := programmed_image st0 m add07 hdr_ in
  cmap (state img) = None /\ text (state img) = None
  /\ font1 (state img) = None /\ font2 (state img) = None.
Proof.
  unfold programmed_image, compose. cbv zeta.
  generalize (vga_mode 3 (programmed_cfg m) (state st0)). intros x.
  repeat split.
Qed.

Lemma programmed_image_same st0 st1 m add07 hdr_ :
  same_image (state (programmed_image st0 m add07 hdr_))
             (state (programmed_image st1 m add07 hdr_)).
Proof. unfold programmed_image. apply compose_same. Qed.

Lemma programmed_clock_fields m num den v :
  programmed_clock m num den = (EOK, v) -> 0 <= vc_num v < 128 /\ 0 <= vc_den v < 64.
Proof. unfold programmed_clock. apply vclk_result_fields. Qed.

(** [cirrus_mode], once the lookup has stopped at a graphics entry:
    the clock is found, the depth is known and the mode is programmed. *)
Lemma cirrus_mode_graphics cdev st0 vclk0 graph mode freq i e w :
  mode_index mode freq = Found i ->
  e = nth i modes (mk_mode GRAPH_DEFMODE 0 (pwm 0 0)) ->
  cm_depth e <> 0 ->
  In e modes
  /\ exists v add07 hdr_,
       programmed_clock e (vc_num vclk0) (vc_den vclk0) = (EOK, v)
       /\ depth_profile (cm_depth e) (snd (adjust_h (gfx_cfg e))) = Some (add07, hdr_)
       /\ cirrus_mode cdev st0 vclk0 graph mode freq w
          = program_mode cdev (programmed_image st0 e add07 hdr_) v e w.
Proof.
  intros Hidx He Hd.
  assert (Hin : In e modes).
  { rewrite He. apply nth_In. eapply mode_index_bound, Hidx. }
  split; [exact Hin|].
  rewrite (cirrus_mode_found cdev st0 vclk0 graph mode freq i Hidx). cbv zeta.
  rewrite <- He. clear He Hidx.
  assert (Hok : entry_ok e = true).
  { assert (Hall := modes_ok). rewrite forallb_forall in Hall. apply Hall, Hin. }
  destruct (Z.eqb_spec (cm_depth e) 0) as [|_]; [contradiction|].
  destruct (entry_ok_clock e (vc_num vclk0) (vc_den vclk0) Hok Hd)
    as (v & [add07 hdr_] & Hclk & Hprof & _).
  rewrite Hclk, Hprof.
  exists v, add07, hdr_. repeat split.
Qed.

(** What [program_mode] does for the image and the clock of a graphics
    entry: the accesses, the code returned and the frame buffer left. *)
Lemma program_mode_graphics cdev img v e w :
  cmap (state img) = None -> text (state img) = None ->
  font1 (state img) = None -> font2 (state img) = None ->
  0 <= vc_num v < 128 -> 0 <= vc_den v < 64 ->
  0 <= hres (gfx_cfg e) * vres (gfx_cfg e) < 4294967296 ->
  0 <= hres (gfx_cfg e) * vres (gfx_cfg e) * cm_depth e < 4294967296 ->
  let frame := hres (gfx_cfg e) * vres (gfx_cfg e) * cm_depth e in
  let r := program_mode cdev img v e w in
  exists a misc_ gr01 gr03 gr04 gr05 gr06 gr08 sr02 sr04 bl ub b c,
    w_log (snd r)
       = w_log w
         ++ [EvRead SEQ 0x01; EvWrite SEQ 0x01 a; EvWrite SEQ 0x00 0x01; EvEnableCmap]
         ++ cirrus_restore_events img ++ restoremode_events (state img)
         ++ copytext_bare misc_ gr01 gr03 gr04 gr05 gr06 gr08 sr02 sr04 bl ub
         ++ [EvRead SEQ 0x0e; EvWrite SEQ 0x0e b; EvWrite SEQ 0x1e (vc_den v);
             EvWrite SEQ 0x00 0x03; EvRead SEQ 0x01; EvWrite SEQ 0x01 c; EvDisableCmap]
    /\ Z.testbit a 5 = true /\ Z.testbit bl 5 = true /\ Z.testbit ub 5 = false
    /\ Z.land b 0x7f = vc_num v /\ Z.testbit c 5 = false
    /\ (frame <= vmemsz cdev ->
        fst r = Some (EOK, mk_graph (hres (gfx_cfg e)) (vres (gfx_cfg e)) (cm_depth e))
        /\ forall o, w_vmem (snd r) o
             = if (0 <=? o) && (o <? frame) then 0 else w_vmem w o)
    /\ (vmemsz cdev < frame -> fst r = None).
Proof.
  intros B1 B2 B3 B4 Hnum Hden F1 F2 frame r. subst frame r.
  assert (R := program_mode_result cdev img v e w).
  destruct (program_mode_run cdev img v e w B1 B2 B3 B4 Hnum)
    as (a & m0 & g1 & g3 & g4 & g5 & g6 & g8 & s2 & s4 & bl & ub & b & c
        & L & Ha & Hbl & Hub & Hb & Hc & V).
  cbv zeta in R, V.
  rewrite (u32_id (hres _ * vres _)) in R, V by lia. rewrite u32_id in R, V by lia.
  rewrite (u8_id (vc_den v)) in L by lia.
  generalize dependent (program_mode cdev img v e w).
  intros p R L V.
  exists a, m0, g1, g3, g4, g5, g6, g8, s2, s4, bl, ub, b, c.
  split; [exact L|].
  split; [exact Ha|]. split; [exact Hbl|]. split; [exact Hub|].
  split; [exact Hb|]. split; [exact Hc|].
  rewrite R. split.
  - intros Hfit. destruct (Z.leb_spec (hres (gfx_cfg e) * vres (gfx_cfg e) * cm_depth e)
                             (vmemsz cdev)); [|lia].
    split; [reflexivity | apply V, Hfit].
  - intros Hbig. destruct (Z.leb_spec (hres (gfx_cfg e) * vres (gfx_cfg e) * cm_depth e)
                             (vmemsz cdev)); [lia | reflexivity].
Qed.

(** X17.  When the lookup stops at a graphics entry, [cirrus_mode]
    finds a clock and a depth profile and makes exactly these accesses:
    [vga_mlock] (screen off, sequencer in reset, color map enabled);
    [cirrus_restore] of the composed image, that is the extended
    registers, the register banks and, the image having no buffers, the
    bare text phase of [vga_copytext] (registers read, planes set up,
    registers put back, screen on) and no palette access; the numerator
    of the clock into the low seven bits of sequencer register 0x0e and
    its denominator into sequencer register 0x1e; [vga_munlock]
    (sequencer released, screen on, color map disabled).  When the
    frame, width x height x depth bytes, lies in the mapped video
    memory, the call returns [EOK] with the geometry of the entry and
    has zeroed these bytes and no other; when the frame is larger, the
    closing [memset] leaves the mapping and the call has no defined
    result. *)
Theorem cirrus_mode_programs cdev st0 vclk0 graph mode freq i w :
  mode_index mode freq = Found i ->
  let e := nth i modes (mk_mode GRAPH_DEFMODE 0 (pwm 0 0)) in
  cm_depth e <> 0 ->
  let frame := hres (gfx_cfg e) * vres (gfx_cfg e) * cm_depth e in
  let r := cirrus_mode cdev st0 vclk0 graph mode freq w in
  exists v add07 hdr_ a misc_ gr01 gr03 gr04 gr05 gr06 gr08 sr02 sr04 bl ub b c,
    let img := programmed_image st0 e add07 hdr_ in
    programmed_clock e (vc_num vclk0) (vc_den vclk0) = (EOK, v)
    /\ depth_profile (cm_depth e) (snd (adjust_h (gfx_cfg e))) = Some (add07, hdr_)
    /\ w_log (snd r)
       = w_log w
         ++ [EvRead SEQ 0x01; EvWrite SEQ 0x01 a; EvWrite SEQ 0x00 0x01; EvEnableCmap]
         ++ cirrus_restore_events img ++ restoremode_events (state img)
         ++ copytext_bare misc_ gr01 gr03 gr04 gr05 gr06 gr08 sr02 sr04 bl ub
         ++ [EvRead SEQ 0x0e; EvWrite SEQ 0x0e b; EvWrite SEQ 0x1e (vc_den v);
             EvWrite SEQ 0x00 0x03; EvRead SEQ 0x01; EvWrite SEQ 0x01 c; EvDisableCmap]
    /\ Z.testbit a 5 = true /\ Z.testbit bl 5 = true /\ Z.testbit ub 5 = false
    /\ Z.land b 0x7f = vc_num v /\ Z.testbit c 5 = false
    /\ (frame <= vmemsz cdev ->
        fst r = Some (EOK, mk_graph (hres (gfx_cfg e)) (vres (gfx_cfg e)) (cm_depth e))
        /\ forall o, w_vmem (snd r) o
             = if (0 <=? o) && (o <? frame) then 0 else w_vmem w o)
    /\ (vmemsz cdev < frame -> fst r = None).
Proof.
  intros Hidx e Hd frame r.
  assert (He : e = nth i modes (mk_mode GRAPH_DEFMODE 0 (pwm 0 0))) by reflexivity.
  clearbody e. subst r frame.
  destruct (cirrus_mode_graphics cdev st0 vclk0 graph mode freq i e w Hidx He Hd)
    as (Hin & v & add07 & hdr_ & Hclk & Hprof & E).
  rewrite E. clear E He Hidx.
  assert (Hfr := modes_frames). rewrite Forall_forall in Hfr.
  destruct (Hfr e Hin) as [F1 F2]. clear Hfr Hin.
  destruct (programmed_clock_fields _ _ _ _ Hclk) as [Hnum Hden].
  destruct (programmed_image_bare st0 e add07 hdr_) as (B1 & B2 & B3 & B4).
  destruct (program_mode_graphics cdev (programmed_image st0 e add07 hdr_) v e w
              B1 B2 B3 B4 Hnum Hden F1 F2)
    as (a & m0 & g1 & g3 & g4 & g5 & g6 & g8 & s2 & s4 & bl & ub & b & c & H).
  exists v, add07, hdr_, a, m0, g1, g3, g4, g5, g6, g8, s2, s4, bl, ub, b, c.
  split; [exact Hclk|]. split; [exact Hprof|]. exact H.
Qed.

(** The clock of the default entry. *)
Lemma default_clock num den :
  programmed_clock (mk_mode GRAPH_1024x768x16 2 (gfx_ GRAPH_60Hz 10)) num den
  = (EOK, mk_vclk 64981 0x76 0x34).
Proof. reflexivity. Qed.

(** C10.  A request for [GRAPH_DEFMODE] skips the table lookup and takes
    entry 31, the 1024x768 entry of depth 2 at 60 Hz.  It programs that
    entry: the image restored holds the miscellaneous register, the CRT
    controller bank, the pitch bits, the depth bits and the hidden DAC
    byte of 1024x768 at two bytes a pixel, and the accesses are
    [vga_mlock], the restore of this image, the clock 0x76/0x34 of
    65 MHz and [vga_munlock].  Whenever the call returns, it returns
    [EOK] and reports width 1024, height 768 and depth 2; it does so
    when the 1572864 bytes of the frame lie in the mapped video memory,
    and it has no defined result on an adapter with less, the closing
    [memset] leaving the mapping. *)
Theorem cirrus_mode_default cdev st0 vclk0 graph freq w :
  let e := mk_mode GRAPH_1024x768x16 2 (gfx_ GRAPH_60Hz 10) in
  let img := programmed_image st0 e 0x17 0xc1 in
  let r := cirrus_mode cdev st0 vclk0 graph GRAPH_DEFMODE freq w in
  mode_index GRAPH_DEFMODE freq = Found 31
  /\ nth 31 modes (mk_mode GRAPH_DEFMODE 0 (pwm 0 0)) = e
  /\ nth 10 cfgs (mk_vga_mode 0 0 0 0 0 0 0 0 0 0 0 0)
     = mk_vga_mode 65000 1024 1048 1184 1344 0 768 771 777 806 0 0
  /\ (misc (state img) = 0xef
      /\ map (crtc (state img)) (seq 0 25)
         = [163; 127; 127; 134; 130; 147; 36; 245; 0; 96; 0; 0; 0; 0; 0; 0; 2;
            40; 255; 0; 0; 255; 37; 195; 255]
      /\ cr1b img = 0x32 /\ sr07 img = 0xf7 /\ hdr img = 0xc1)
  /\ (exists a misc_ gr01 gr03 gr04 gr05 gr06 gr08 sr02 sr04 bl ub b c,
        w_log (snd r)
        = w_log w
          ++ [EvRead SEQ 0x01; EvWrite SEQ 0x01 a; EvWrite SEQ 0x00 0x01; EvEnableCmap]
          ++ cirrus_restore_events img ++ restoremode_events (state img)
          ++ copytext_bare misc_ gr01 gr03 gr04 gr05 gr06 gr08 sr02 sr04 bl ub
          ++ [EvRead SEQ 0x0e; EvWrite SEQ 0x0e b; EvWrite SEQ 0x1e 0x34;
              EvWrite SEQ 0x00 0x03; EvRead SEQ 0x01; EvWrite SEQ 0x01 c; EvDisableCmap]
        /\ Z.testbit a 5 = true /\ Z.testbit bl 5 = true /\ Z.testbit ub 5 = false
        /\ Z.land b 0x7f = 0x76 /\ Z.testbit c 5 = false)
  /\ (1572864 <= vmemsz cdev ->
      fst r = Some (EOK, mk_graph 1024 768 2)
      /\ forall o, w_vmem (snd r) o
           = if (0 <=? o) && (o <? 1572864) then 0 else w_vmem w o)
  /\ (vmemsz cdev < 1572864 -> fst r = None)
  /\ (forall c g, fst r = Some (c, g) -> c = EOK /\ g = mk_graph 1024 768 2).
Proof.
  intros e img r.
  split; [reflexivity|]. split; [reflexivity|]. split; [reflexivity|].
  split.
  { destruct (programmed_image_same st0 Sample.cirrus_image e 0x17 0xc1) as (Hm & Hc & _).
    fold img in Hm, Hc.
    assert (E1 : cr1b img = 0x32) by reflexivity.
    assert (E2 : sr07 img = 0xf7) by reflexivity.
    assert (E3 : hdr img = 0xc1) by reflexivity.
    clearbody img.
    split; [rewrite Hm; vm_compute; reflexivity|].
    split; [|auto].
    transitivity (map (crtc (state (programmed_image Sample.cirrus_image e 0x17 0xc1)))
                      (seq 0 25)).
    - apply map_ext_in. intros k Hk. apply Hc. apply in_seq in Hk. lia.
    - vm_compute. reflexivity. }
  assert (Hidx : mode_index GRAPH_DEFMODE freq = Found 31) by reflexivity.
  assert (He : e = nth 31 modes (mk_mode GRAPH_DEFMODE 0 (pwm 0 0))) by reflexivity.
  assert (Hd : cm_depth e <> 0) by discriminate.
  assert (F1 : 0 <= hres (gfx_cfg e) * vres (gfx_cfg e) < 4294967296)
    by (vm_compute; split; congruence).
  assert (F2 : 0 <= hres (gfx_cfg e) * vres (gfx_cfg e) * cm_depth e < 4294967296)
    by (vm_compute; split; congruence).
  assert (Hfr : hres (gfx_cfg e) * vres (gfx_cfg e) * cm_depth e = 1572864) by reflexivity.
  assert (Hg : mk_graph (hres (gfx_cfg e)) (vres (gfx_cfg e)) (cm_depth e)
               = mk_graph 1024 768 2) by reflexivity.
  assert (Hp : depth_profile (cm_depth e) (snd (adjust_h (gfx_cfg e))) = Some (0x17, 0xc1))
    by reflexivity.
  assert (Hk := default_clock (vc_num vclk0) (vc_den vclk0)). fold e in Hk.
  destruct (cirrus_mode_graphics cdev st0 vclk0 graph GRAPH_DEFMODE freq 31 e w Hidx He Hd)
    as (_ & v & add07 & hdr_ & Hclk & Hprof & E).
  fold r in E. clearbody r. clear He Hidx. subst img. clearbody e.
  rewrite Hk in Hclk. rewrite Hp in Hprof.
  injection Hclk as <-. injection Hprof as <- <-.
  destruct (programmed_image_bare st0 e 0x17 0xc1) as (B1 & B2 & B3 & B4).
  destruct (program_mode_graphics cdev (programmed_image st0 e 0x17 0xc1)
              (mk_vclk 64981 0x76 0x34) e w B1 B2 B3 B4
              ltac:(cbn; lia) ltac:(cbn; lia) F1 F2)
    as (a & m0 & g1 & g3 & g4 & g5 & g6 & g8 & s2 & s4 & bl & ub & b & c
        & L & Ha & Hbl & Hub & Hb & Hc & Vfit & Vbig).
  cbv zeta in Vfit, Vbig. rewrite <- E in L, Vfit, Vbig.
  rewrite Hfr in Vfit, Vbig. rewrite Hg in Vfit.
  cbn [vc_den vc_num] in L, Hb.
  split.
  { exists a, m0, g1, g3, g4, g5, g6, g8, s2, s4, bl, ub, b, c. auto 10. }
  split; [exact Vfit|]. split; [exact Vbig|].
  intros c0 g H.
  destruct (Z.le_gt_cases 1572864 (vmemsz cdev)) as [Hle|Hgt].
  - destruct (Vfit Hle) as [H1 _]. rewrite H1 in H. inversion H. auto.
  - rewrite (Vbig Hgt) in H. discriminate.
Qed.

End ModeTraffic.

(** ** Instances *)

Lemma vclk_search_best_witness :
  0 <= 25175 < 2147483648
  /\ vclk_scan vclks 25175 = None
  /\ cirrus_vclk 135100 (mk_vclk 25175 0 0) = (EOK, mk_vclk 25179 102 59)
  /\ MIN_VCLK <= cirrus_vco 102 59 <= Z.max 135100 MAX_VCLK
  /\ Z.abs (25179 - 25175) <= Z.abs (achieved 0x42 0x1f - 25175).
Proof.
  assert (Hf : 0 <= vc_freq (mk_vclk 25175 0 0) < 2147483648) by (cbn; lia).
  assert (Hs : vclk_scan vclks (vc_freq (mk_vclk 25175 0 0)) = None)
    by (vm_compute; reflexivity).
  assert (Hr : cirrus_vclk 135100 (mk_vclk 25175 0 0) = (EOK, mk_vclk 25179 102 59))
    by (vm_compute; reflexivity).
  destruct (vclk_search_best 135100 (mk_vclk 25175 0 0) Hf Hs) as [H _].
  destruct (H _ Hr) as (_ & Hband & _ & Hbest).
  split; [exact Hf|]. split; [exact Hs|]. split; [exact Hr|]. split; [exact Hband|].
  apply (Hbest 0x42 0x1f); [lia | lia | vm_compute; split; discriminate].
Defined.

(** C1, as stated, fails: the search visits the numerator 0x7e, and
    returns it for a target that no pair with a smaller numerator
    reaches. *)
Lemma vclk_search_numerator_0x7e :
  vclk_scan vclks 106121 = None
  /\ cirrus_vclk 0 (mk_vclk 106121 0 0) = (EOK, mk_vclk 106121 0x7e 0x22)
  /\ ~ (0x10 <= 0x7e < 0x7e)
  /\ forallb (fun c => negb (stable 111000 (fst c) (snd c)
                             && (achieved (fst c) (snd c) =? 106121)))
             (filter (fun c => fst c <? 0x7e) candidates) = true.
Proof.
  split; [vm_compute; reflexivity|]. split; [vm_compute; reflexivity|].
  split; [lia|]. vm_compute. reflexivity.
Qed.

(** Beyond 2^31 kHz the casts to [int] of the search wrap: the distance
    it minimises is no longer the absolute one, and the lowest frequency
    wins for a target above every candidate. *)
Remark vclk_search_wraps :
  vclk_scan vclks 3000000000 = None
  /\ cirrus_vclk 0 (mk_vclk 3000000000 0 0) = (EOK, mk_vclk 14318 20 21).
Proof. split; vm_compute; reflexivity. Qed.

(** The search starts from a best distance equal to the target, so a
    target that every stable pair misses by at least itself is refused
    although the band is not empty. *)
Remark vclk_low_target_refused :
  cirrus_vclk 0 (mk_vclk 1000 0 0) = (Err EINVAL, mk_vclk 0 0 0)
  /\ stable MAX_VCLK 0x14 0x14 = true.
Proof. split; vm_compute; reflexivity. Qed.

Lemma vclk_invariant_witness :
  cirrus_vclk 135100 (mk_vclk 25175 0 0) = (EOK, mk_vclk 25179 102 59)
  /\ 25179 = Z.shiftr (Z.land 102 0x7f * MIN_VCLK / Z.land 59 0x3e) (Z.land 59 0x1)
  /\ MIN_VCLK <= Z.land 102 0x7f * MIN_VCLK / Z.land 59 0x3e <= Z.max 135100 MAX_VCLK.
Proof.
  assert (Hr : cirrus_vclk 135100 (mk_vclk 25175 0 0) = (EOK, mk_vclk 25179 102 59))
    by (vm_compute; reflexivity).
  destruct (vclk_invariant 135100 (mk_vclk 25175 0 0) _ Hr) as [Hfreq Hband].
  split; [exact Hr|]. split; [exact Hfreq|].
  apply Hband. vm_compute. reflexivity.
Defined.

(** C2, as stated, fails: a clock taken from the table may have its VCO
    below [MIN_VCLK] or above the effective maximum. *)
Lemma vclk_table_outside_band :
  cirrus_vclk 85500 (mk_vclk 12599 0 0) = (EOK, mk_vclk 12599 0x2c 0x33)
  /\ Z.land 0x2c 0x7f * MIN_VCLK / Z.land 0x33 0x3e = 25199
  /\ ~ (MIN_VCLK <= 25199)
  /\ cirrus_vclk 135100 (mk_vclk 150339 0 0) = (EOK, mk_vclk 150339 0x69 0x14)
  /\ Z.land 0x69 0x7f * MIN_VCLK / Z.land 0x14 0x3e = 150339
  /\ ~ (150339 <= Z.max 135100 MAX_VCLK).
Proof.
  repeat split; try (vm_compute; reflexivity); vm_compute; intros H; apply H; reflexivity.
Qed.

Lemma cirrus_mode_failure_witness :
  @cirrus_mode RegFile Sample.cdev_4m Sample.cirrus_image Sample.vclk0 Sample.graph_default
     GRAPH_320x200x8 GRAPH_DEFFREQ Sample.world0
  = (Some (Err ENOTSUP, Sample.graph_default), Sample.world0)
  /\ (Sample.world0 = Sample.world0 /\ Sample.graph_default = Sample.graph_default
      /\ (ENOTSUP = ENOTSUP \/ ENOTSUP = EFAULT)).
Proof.
  split; [reflexivity|].
  apply (@cirrus_mode_failure_before_write RegFile Sample.cdev_4m Sample.cirrus_image
           Sample.vclk0 Sample.graph_default GRAPH_320x200x8 GRAPH_DEFFREQ Sample.world0).
  reflexivity.
Defined.


Lemma mode_lookup_witness :
  GRAPH_640x480x16 <> GRAPH_DEFMODE
  /\ mode_index GRAPH_640x480x16 GRAPH_75Hz = Found 24
  /\ first_match catalog 0 GRAPH_640x480x16 GRAPH_75Hz = Some 24%nat.
Proof.
  assert (Hm : GRAPH_640x480x16 <> GRAPH_DEFMODE) by discriminate.
  destruct (@mode_lookup_first_match RegFile Sample.cdev_4m Sample.cirrus_image Sample.vclk0
              Sample.graph0 GRAPH_640x480x16 GRAPH_75Hz Sample.world0 Hm)
    as (Hidx & _ & _).
  split; [exact Hm|]. split; [exact Hidx | reflexivity].
Defined.

Lemma cursorset_witness :
  configured Sample.graph_default
  /\ fst (@cirrus_cursorset RegFile (mk_cdev 0x100000) Sample.graph_default
            azero azero 0 0 Sample.world0) = Err ENOSPC
  /\ snd (@cirrus_cursorset RegFile (mk_cdev 0x100000) Sample.graph_default
            azero azero 0 0 Sample.world0) = Sample.world0.
Proof.
  assert (Hc : configured Sample.graph_default).
  { exists (mk_mode GRAPH_1024x768x16 2 (gfx_ GRAPH_60Hz 10)).
    split; [|split; [discriminate | reflexivity]].
    unfold catalog. cbn. do 31 right. left. reflexivity. }
  destruct (@cursorset_reservation RegFile (mk_cdev 0x100000) Sample.graph_default
              azero azero 0 0 Sample.world0 Hc) as (Hiff & Hsame & _).
  assert (Hfail := proj2 Hiff ltac:(cbn; lia)).
  split; [exact Hc|]. split; [exact Hfail | exact (Hsame Hfail)].
Defined.

Lemma dpms_idempotent_witness :
  power_mode GRAPH_ON
  /\ fst (@cirrus_mode RegFile Sample.cdev_4m Sample.cirrus_image Sample.vclk0
            Sample.graph_default GRAPH_ON GRAPH_DEFFREQ Sample.world0)
     = Some (EOK, Sample.graph_default)
  /\ fst (@Vgadev.vgadev_mode RegFile Sample.image Sample.graph_default
            GRAPH_ON GRAPH_DEFFREQ Sample.world0) = (EOK, Sample.graph_default).
Proof.
  assert (Hp : power_mode GRAPH_ON) by (left; reflexivity).
  destruct (dpms_idempotent Sample.regs [] (fun _ => 0) Sample.cdev_4m Sample.cirrus_image
              Sample.vclk0 Sample.image Sample.graph_default GRAPH_ON GRAPH_DEFFREQ Hp)
    as [(a & b & Hc1 & _) (a' & b' & Hv1 & _)].
  split; [exact Hp|]. split; [exact Hc1 | exact Hv1].
Defined.

Lemma cirrus_mode_default_witness :
  fst (@cirrus_mode RegFile Sample.cdev_4m Sample.cirrus_image Sample.vclk0 Sample.graph0
         GRAPH_DEFMODE GRAPH_DEFFREQ Sample.world0)
  = Some (EOK, mk_graph 1024 768 2)
  /\ fst (@cirrus_mode RegFile Sample.cdev_1m Sample.cirrus_image Sample.vclk0 Sample.graph0
            GRAPH_DEFMODE GRAPH_DEFFREQ Sample.world0)
     = None.
Proof.
  split.
  - destruct (@cirrus_mode_default RegFile Sample.cdev_4m Sample.cirrus_image Sample.vclk0
                Sample.graph0 GRAPH_DEFFREQ Sample.world0)
      as (_ & _ & _ & _ & _ & Hfit & _).
    destruct (Hfit ltac:(vm_compute; congruence)) as [H _]. exact H.
  - destruct (@cirrus_mode_default RegFile Sample.cdev_1m Sample.cirrus_image Sample.vclk0
                Sample.graph0 GRAPH_DEFFREQ Sample.world0)
      as (_ & _ & _ & _ & _ & _ & Hbig & _).
    apply Hbig. vm_compute. reflexivity.
Defined.

(** ** Instances of the further properties *)

Lemma vclk_search_arithmetic_witness :
  0x10 <= 0x7e < 0x7f /\ 0x14 <= 0x14 < 0x3f /\ cirrus_vco 0x7e 0x14 = 180406.
Proof.
  destruct (vclk_search_arithmetic 0x7e 0x14 ltac:(lia) ltac:(lia))
    as (_ & _ & Hv & _).
  split; [lia|]. split; [lia|]. rewrite Hv. reflexivity.
Defined.

Lemma vblank_bounds_witness :
  Timing.vblank Sample.timing_640x480 = (480, 525) /\ 525 - 480 <= 0x7f.
Proof.
  assert (H := vblank_bounds Sample.timing_640x480
                 ltac:(cbn; lia) ltac:(cbn; lia) ltac:(cbn; lia) ltac:(cbn; lia)).
  change (Timing.vertical Sample.timing_640x480) with (480, 490, 492, 525) in H.
  change (Timing.vblank Sample.timing_640x480) with (480, 525) in H.
  cbv beta iota in H.
  destruct (H ltac:(cbn; lia)) as (_ & Hspan & _).
  split; [reflexivity | exact Hspan].
Defined.

Lemma catalog_blanking_witness :
  Timing.hblank (programmed_cfg (mk_mode GRAPH_1280x1024x8 1 (gfx_ GRAPH_75Hz 17)))
  = (640, 844)
  /\ Timing.vblank (programmed_cfg (mk_mode GRAPH_1280x1024x8 1 (gfx_ GRAPH_75Hz 17)))
     = (512, 533).
Proof.
  assert (Hin : In (mk_mode GRAPH_1280x1024x8 1 (gfx_ GRAPH_75Hz 17)) catalog).
  { unfold catalog. cbn. do 21 right. left. reflexivity. }
  assert (H := catalog_blanking _ Hin ltac:(discriminate)).
  cbv zeta in H.
  change (Timing.vertical (programmed_cfg (mk_mode GRAPH_1280x1024x8 1 (gfx_ GRAPH_75Hz 17))))
    with (512, 512, 514, 533) in H.
  cbv beta iota in H.
  destruct H as (Hh & _ & _ & Hv & _).
  split; [exact Hh | exact Hv].
Defined.

Lemma mode_table_reachable_witness :
  mode_index GRAPH_800x600x24 GRAPH_72Hz = Found 42.
Proof.
  destruct (mode_table_reachable 42 GRAPH_DEFFREQ ltac:(lia)) as [_ H].
  apply H. discriminate.
Defined.

Lemma catalog_clock_accuracy_witness :
  programmed_clock (mk_mode GRAPH_800x600x8 1 (gfx_ GRAPH_72Hz 7)) 0 0
  = (EOK, mk_vclk 50113 35 20)
  /\ Z.abs (50113 - 50000) * 1000 <= 3 * 50000.
Proof.
  assert (Hin : In (mk_mode GRAPH_800x600x8 1 (gfx_ GRAPH_72Hz 7)) modes).
  { unfold modes. cbn. do 11 right. left. reflexivity. }
  destruct (catalog_clock_accuracy _ 0 0 Hin ltac:(discriminate)) as (v & Hv & Hacc).
  assert (E : programmed_clock (mk_mode GRAPH_800x600x8 1 (gfx_ GRAPH_72Hz 7)) 0 0
              = (EOK, mk_vclk 50113 35 20)) by (vm_compute; reflexivity).
  split; [exact E|]. rewrite E in Hv. inversion Hv; subst v. exact Hacc.
Defined.

Lemma restore_reads_image_witness :
  @vga_restore RegFile (set_seq Sample.image 0 0xff) Sample.world0
  = @vga_restore RegFile Sample.image Sample.world0.
Proof.
  apply (@restore_reads_image RegFile).
  unfold same_image, Sample.image. cbn [misc crtc seq_ gfx attr cmap text font1 font2 set_seq].
  repeat split. intros i Hi. apply aset_other. lia.
Defined.

Lemma cirrus_mode_programs_witness :
  mode_index GRAPH_800x600x24 GRAPH_72Hz = Found 42
  /\ fst (@cirrus_mode RegFile Sample.cdev_4m Sample.cirrus_image Sample.vclk0 Sample.graph0
            GRAPH_800x600x24 GRAPH_72Hz Sample.world0)
     = Some (EOK, mk_graph 800 600 3).
Proof.
  split; [reflexivity|].
  destruct (@cirrus_mode_programs RegFile Sample.cdev_4m Sample.cirrus_image Sample.vclk0
              Sample.graph0 GRAPH_800x600x24 GRAPH_72Hz 42 Sample.world0
              eq_refl ltac:(discriminate))
    as (v & add07 & hdr_ & a & m0 & g1 & g3 & g4 & g5 & g6 & g8 & s2 & s4 & bl & ub & b & c
        & _ & _ & _ & _ & _ & _ & _ & _ & Hfit & _).
  destruct (Hfit ltac:(vm_compute; congruence)) as [H _]. exact H.
Defined.

Lemma savecmap_restorecmap_witness :
  register_writes
    (restorecmap_events
       (fst (@vga_savecmap RegFile (set_buffers Sample.image (Some azero) None None None)
               Sample.world0)))
  = (DAC, 0x00, 0xff) :: (DAC, 0x02, 0x00)
    :: @echo RegFile (w_hw Sample.world0)
         (savecmap_events (set_buffers Sample.image (Some azero) None None None)).
Proof.
  apply (@savecmap_restorecmap RegFile (set_buffers Sample.image (Some azero) None None None)
           azero Sample.world0).
  reflexivity.
Defined.

Lemma catalog_fits_registers_witness :
  crtc (state (programmed_image Sample.cirrus_image
                 (mk_mode GRAPH_1280x1024x8 1 (gfx_ GRAPH_75Hz 17)) 0x11 0x00)) 0%nat
  = 844 / 8 - 5.
Proof.
  assert (Hin : In (mk_mode GRAPH_1280x1024x8 1 (gfx_ GRAPH_75Hz 17)) catalog).
  { unfold catalog. cbn. do 21 right. left. reflexivity. }
  assert (H := catalog_fits_registers Sample.cirrus_image _ 0x11 0x00 Hin ltac:(discriminate)).
  cbv zeta in H.
  change (Timing.vertical (programmed_cfg (mk_mode GRAPH_1280x1024x8 1 (gfx_ GRAPH_75Hz 17))))
    with (512, 512, 514, 533) in H.
  cbv beta iota in H.
  destruct H as (H0 & _). exact H0.
Defined.
